(** * MLPRALS questionnaire: response reconciliation

    A shallow embedding of [src/ui/pages/questionnaire.py] and of the part of
    [src/ui/pages/app_flow.py] that owns the "results revealed" flag, followed
    by the properties of the specification that were checked against it.

    Layout:
    - [Py]        : the Python values a session can hold and the builtins the
                    page calls on them ([bool], [int], [str.strip], [str.lower]),
                    on Unicode text;
    - [Script]    : a small monad for one Streamlit script run: session state,
                    [st.rerun()] and an uncaught exception;
    - [Questionnaire] : the functions of the page, in source order, over the
                    external collaborators (scoring function, key namespace),
                    which are type classes;
    - [Properties] : lemmas and theorems, grouped by the function they are
                    about;
    - concrete runs on a sample bank. *)

From Stdlib Require Import ZArith String Ascii List Bool Lia.
From Stdlib Require Import Floats.SpecFloat.
From stdpp Require Import base option list gmap strings.

Local Open Scope Z_scope.
Local Open Scope string_scope.

(** ** Python values and builtins *)

Module Py.

(** A Python [str] is a sequence of Unicode code points. *)
Definition text : Type := list N.
#[global] Bind Scope list_scope with text.

(** the text of an ASCII literal *)
Definition txt (s : string) : text := map N_of_ascii (list_ascii_of_string s).

(** What [st.session_state] can hold under the keys of this page: nothing,
    a [bool], an [int], a [float] (IEEE binary, as [spec_float]), a [str],
    or an object of any other type (a numpy scalar, a [Decimal], a list,
    ...). The code only ever asks such an object for its [str()], [bool()]
    and [int()], so it is given by what the three return ([None] where
    [int()] raises). It is no instance of [bool], [int] or [float]; an
    instance of a subclass of one of these is taken as the base type. *)
Inductive value : Type :=
  | VNone
  | VBool (b : bool)
  | VInt (n : Z)
  | VFloat (f : spec_float)
  | VStr (s : text)
  | VObj (str : text) (truth : bool) (int : option Z).

#[global] Instance spec_float_eq_dec : EqDecision spec_float.
Proof. solve_decision. Defined.

#[global] Instance value_eq_dec : EqDecision value.
Proof. solve_decision. Defined.

(** [c.isspace()], the test behind [str.strip()]: the ASCII controls tab to
    carriage return and 0x1c..0x1f, the space, and the Unicode white space
    NEL, NBSP, OGHAM SPACE MARK, EN QUAD..HAIR SPACE, LINE and PARAGRAPH
    SEPARATOR, NARROW NBSP, MEDIUM MATHEMATICAL SPACE, IDEOGRAPHIC SPACE. *)
Definition is_space (c : N) : bool :=
  ((9 <=? c) && (c <=? 13) || (28 <=? c) && (c <=? 32)
   || (c =? 0x85) || (c =? 0xA0) || (c =? 0x1680)
   || (0x2000 <=? c) && (c <=? 0x200A)
   || (c =? 0x2028) || (c =? 0x2029) || (c =? 0x202F)
   || (c =? 0x205F) || (c =? 0x3000))%N.

Fixpoint lstrip_by (sp : N -> bool) (s : text) : text :=
  match s with
  | c :: s' => if sp c then lstrip_by sp s' else s
  | [] => []
  end.

(** [rstrip] drops a character when it is whitespace and everything after it
    has been dropped too. *)
Fixpoint rstrip_by (sp : N -> bool) (s : text) : text :=
  match s with
  | [] => []
  | c :: s' =>
      match rstrip_by sp s' with
      | [] => if sp c then [] else [c]
      | r => c :: r
      end
  end.

(** [s.strip()] *)
Definition strip (s : text) : text := rstrip_by is_space (lstrip_by is_space s).

(** The lower-case form of a code point. It is exact for every code point
    whose lower-case form has an ASCII code point in it: the letters A..Z,
    LATIN CAPITAL LETTER I WITH DOT ABOVE (i and COMBINING DOT ABOVE) and
    KELVIN SIGN (k). Every other code point stands for itself here, where
    Python may map it to other code points above 127; the code compares the
    result with ASCII words only. *)
Definition lower_cp (c : N) : text :=
  (if (65 <=? c) && (c <=? 90) then [c + 32]
   else if c =? 0x130 then [0x69; 0x307]
   else if c =? 0x212A then [0x6B]
   else [c])%N.

(** [s.lower()] *)
Fixpoint lower (s : text) : text :=
  match s with
  | [] => []
  | c :: s' => (lower_cp c ++ lower s')%list
  end.

(** The code points of the digit zero in each of the 66 decimal digit
    systems of Unicode 14 (Python 3.11); the nine that follow each are its
    digits 1..9. *)
Definition DIGIT_ZEROS : list N :=
  [0x30; 0x660; 0x6F0; 0x7C0; 0x966; 0x9E6; 0xA66; 0xAE6; 0xB66; 0xBE6;
   0xC66; 0xCE6; 0xD66; 0xDE6; 0xE50; 0xED0; 0xF20; 0x1040; 0x1090; 0x17E0;
   0x1810; 0x1946; 0x19D0; 0x1A80; 0x1A90; 0x1B50; 0x1BB0; 0x1C40; 0x1C50;
   0xA620; 0xA8D0; 0xA900; 0xA9D0; 0xA9F0; 0xAA50; 0xABF0; 0xFF10; 0x104A0;
   0x10D30; 0x11066; 0x110F0; 0x11136; 0x111D0; 0x112F0; 0x11450; 0x114D0;
   0x11650; 0x116C0; 0x11730; 0x118E0; 0x11950; 0x11C50; 0x11D50; 0x11DA0;
   0x16A60; 0x16AC0; 0x16B50; 0x1D7CE; 0x1D7D8; 0x1D7E2; 0x1D7EC; 0x1D7F6;
   0x1E140; 0x1E2F0; 0x1E950; 0x1FBF0]%N.

(** the value of a decimal digit of any script *)
Definition digit_of (c : N) : option Z :=
  (fun z => Z.of_N (c - z))
    <$> List.find (fun z => (z <=? c) && (c <? z + 10))%N DIGIT_ZEROS.

(** The digit part of an integer literal: digits, with single underscores
    allowed between two digits. [prev] tells whether the previous character
    was a digit; the literal must end on one. *)
Fixpoint digits_value (acc : Z) (prev : bool) (s : text) : option Z :=
  match s with
  | [] => if prev then Some acc else None
  | c :: s' =>
      match digit_of c with
      | Some d => digits_value (10 * acc + d) true s'
      | None =>
          if ((c =? 95)%N && prev)%bool then digits_value acc false s'
          else None
      end
  end.

Definition count_digits (s : text) : nat :=
  length (List.filter (fun c => bool_decide (is_Some (digit_of c))) s).

(** [sys.get_int_max_str_digits()]: the conversions between [int] and [str]
    refuse more digits than this. *)
Definition INT_MAX_STR_DIGITS : nat := 4300.

Definition literal_value (s : text) : option Z :=
  if (INT_MAX_STR_DIGITS <? count_digits s)%nat then None
  else digits_value 0 false s.

(** The whitespace [int()] skips around a literal: that of [str.strip()]
    without the four separators 0x1c..0x1f. *)
Definition is_int_space (c : N) : bool :=
  (is_space c && negb ((28 <=? c) && (c <=? 31)))%N.

(** [int(s)] for a string: surrounding whitespace is skipped, then an
    optional sign and the digit part. [None] is [ValueError]. *)
Definition int_of_str (s : text) : option Z :=
  match rstrip_by is_int_space (lstrip_by is_int_space s) with
  | c :: r =>
      if (c =? 45)%N then Z.opp <$> literal_value r
      else if (c =? 43)%N then literal_value r
      else literal_value (c :: r)
  | [] => None
  end.

(** [int(f)] for a float: truncation towards zero; [None] is the
    [ValueError] of a NaN or the [OverflowError] of an infinity. *)
Definition int_of_float (f : spec_float) : option Z :=
  match f with
  | S754_zero _ => Some 0
  | S754_infinity _ => None
  | S754_nan => None
  | S754_finite s m e =>
      let a := Z.shiftl (Z.pos m) e in
      Some (if s then - a else a)
  end.

(** [int(v)]; [None] when Python raises. *)
Definition py_int (v : value) : option Z :=
  match v with
  | VNone => None
  | VBool b => Some (if b then 1 else 0)
  | VInt n => Some n
  | VFloat f => int_of_float f
  | VStr s => int_of_str s
  | VObj _ _ i => i
  end.

(** [bool(v)]: Python truthiness. A NaN is truthy, a zero of either sign is
    not; a string is truthy unless it is empty, whatever it says. *)
Definition py_bool (v : value) : bool :=
  match v with
  | VNone => false
  | VBool b => b
  | VInt n => negb (n =? 0)%Z
  | VFloat (S754_zero _) => false
  | VFloat _ => true
  | VStr s => match s with [] => false | _ :: _ => true end
  | VObj _ b _ => b
  end.

(** the number of digits of [str(n)] *)
Definition decimal_digits (n : Z) : nat :=
  match Z.to_int n with
  | Decimal.Pos d | Decimal.Neg d => Decimal.nb_digits d
  end.

(** [int(str(v).strip())], by the type of [v]: [str] of an [int] is its
    decimal literal, which [int] reads back, unless it has too many digits
    for [str]; [str] of [None], of a [bool] and of a [float] ("None",
    "True", "False", and a literal with a point, an exponent, "inf" or
    "nan") is no integer literal. *)
Definition int_of_str_of (v : value) : option Z :=
  match v with
  | VNone => None
  | VBool _ => None
  | VInt n => if (INT_MAX_STR_DIGITS <? decimal_digits n)%nat then None else Some n
  | VFloat _ => None
  | VStr s | VObj s _ _ => int_of_str (strip s)
  end.

End Py.

Import Py.

(** ** One script run

    Streamlit runs the page top to bottom on every interaction. The run reads
    and writes [st.session_state], and ends in one of three ways: it
    returns, it calls [st.rerun()] (which abandons the run and starts the
    script again on the state reached so far), or an exception escapes. *)

Module Script.

Abbreviation session := (gmap string value).

Inductive outcome (A : Type) : Type :=
  | Ret (a : A) (ss : session)
  | Rerun (ss : session)
  | Raise (ss : session).
Arguments Ret {A} a ss.
Arguments Rerun {A} ss.
Arguments Raise {A} ss.

Definition script (A : Type) : Type := session -> outcome A.

Definition ret {A} (a : A) : script A := fun ss => Ret a ss.

Definition bind {A B} (c : script A) (k : A -> script B) : script B :=
  fun ss =>
    match c ss with
    | Ret a ss' => k a ss'
    | Rerun ss' => Rerun ss'
    | Raise ss' => Raise ss'
    end.

(** the session object itself, for reads *)
Definition read : script session := fun ss => Ret ss ss.
(** an in-place mutation of the session *)
Definition update (f : session -> session) : script unit := fun ss => Ret tt (f ss).
(** [st.rerun()] *)
Definition rerun {A} : script A := fun ss => Rerun ss.
(** [raise] *)
Definition raise {A} : script A := fun ss => Raise ss.

(** [ss.get(k)] and [ss.get(k, d)] *)
Definition ss_get (ss : session) (k : string) : value := default VNone (ss !! k).
Definition ss_get_or (ss : session) (k : string) (d : value) : value := default d (ss !! k).

(** [int(v)] where an exception is not caught *)
Definition int_of (v : value) : script Z :=
  match py_int v with
  | Some n => ret n
  | None => raise
  end.

End Script.

Import Script.

Notation "'do' x <- c ; k" := (bind c (fun x => k))
  (at level 10, x name, c at level 100, k at level 200).

(** ** The widget layer, at its interface

    A keyed widget shows the value held under its key; when the key is
    absent it shows its default and registers it. A button is true only in
    the run its click started, and at most one button is clicked per run.
    Streamlit keeps the state of a keyed button in the session as well, under
    the button's own key; the page never reads those entries, and the
    session of the model leaves them out ([button_keys] lists them). *)

Inductive button : Type :=
  | ResetAllBtn
  | EnableOverrideBtn (dim concept : string)
  | DisableOverrideBtn (dim concept : string)
  | SeeResultsBtn.

#[global] Instance button_eq_dec : EqDecision button.
Proof. solve_decision. Defined.

Definition st_button (clicked : option button) (b : button) : bool :=
  bool_decide (clicked = Some b).

Definition st_checkbox (key : string) : script bool :=
  fun ss =>
    match ss !! key with
    | Some v => Ret (py_bool v) ss
    | None => Ret false (<[key := VBool false]> ss)
    end.

Definition st_radio (options : list Z) (key : string) : script value :=
  fun ss =>
    match ss !! key with
    | Some v => Ret v ss
    | None => let v := VInt (hd 0 options) in Ret v (<[key := v]> ss)
    end.

(** ** Python dicts whose order is observed

    [d[k] = v] keeps the position of a key that is already there and appends
    a new one. *)

Fixpoint dict_set {V : Type} (k : string) (v : V) (d : list (string * V))
  : list (string * V) :=
  match d with
  | [] => [(k, v)]
  | (k', v') :: d' =>
      if bool_decide (k = k') then (k, v) :: d' else (k', v') :: dict_set k v d'
  end.

Fixpoint dict_get {V : Type} (k : string) (d : list (string * V)) : option V :=
  match d with
  | [] => None
  | (k', v') :: d' => if bool_decide (k = k') then Some v' else dict_get k d'
  end.

(** ** External collaborators

    Two modules the page imports are not among the sources at hand; the page
    is modelled over any implementation of them. *)

(** [domain.scoring.compute_suggested_level]: the level for a selection of
    the items a, b, c, rt. *)
Class Scoring := {
  compute_suggested_level : bool -> bool -> bool -> bool -> Z
}.

(** [utils.keys]: the session key of each piece of state of a question,
    from its dimension and concept (and, for a checklist item, its name). *)
Class KeyNamespace := {
  get_qkey : string -> string -> string;
  get_override_key : string -> string -> string;
  get_override_level_key : string -> string -> string;
  get_help_key : string -> string -> string -> string;
  get_none_key : string -> string -> string
}.

(** The question bank: a dict from dimension to its list of questions. Of a
    question the reconciliation reads the concept; the prompt, the level
    guide and the checklist texts are only displayed. *)
Record Question : Type := {
  concept : string;
  question : string
}.

Abbreviation QuestionBank := (list (string * list Question)).

Abbreviation Responses := (list (string * list (string * option Z))).

(** What one completed run of the page hands on: the returned dict, and the
    two numbers it gave to [render_progress]. *)
Record PageOut : Type := {
  company_name : value;
  responses_raw : Responses;
  missing : list string;
  progress_completed : nat;
  progress_total : nat
}.


(** ** The questionnaire page, in source order *)

Section Questionnaire.

Context `{Scoring} `{KeyNamespace}.

Definition VALID_LEVELS : list Z := [1; 2; 3; 4; 5].
Definition LEVEL_DEFAULT : Z := 2.

(** [v in VALID_LEVELS] for an integer *)
Definition in_valid_levels (v : Z) : bool := bool_decide (v ∈ VALID_LEVELS).

Definition to_bool (v : value) : bool :=
  match v with
  | VBool b => b
  | VNone => false
  | VInt _ | VFloat _ =>
      match py_int v with
      | Some n => py_bool (VInt n)
      | None => false
      end
  | VStr s | VObj s _ _ =>
      bool_decide (lower (strip s)
                   ∈ [txt "true"; txt "1"; txt "yes"; txt "y"; txt "on"])
  end.

Definition to_level (v : value) (default : Z) : Z :=
  match int_of_str_of v with
  | Some n => if in_valid_levels n then n else default
  | None => default
  end.

Record QuestionKeys : Type := {
  qkey : string;
  override_key : string;
  override_level_key : string;
  a_key : string;
  b_key : string;
  c_key : string;
  rt_key : string;
  none_key : string
}.

Definition build_question_keys (dim concept : string) : QuestionKeys :=
  {| qkey := get_qkey dim concept;
     override_key := get_override_key dim concept;
     override_level_key := get_override_level_key dim concept;
     a_key := get_help_key dim concept "a";
     b_key := get_help_key dim concept "b";
     c_key := get_help_key dim concept "c";
     rt_key := get_help_key dim concept "rt";
     none_key := get_none_key dim concept |}.

Definition checkbox_keys (keys : QuestionKeys) : list string :=
  [a_key keys; b_key keys; c_key keys; rt_key keys; none_key keys].

Definition normalize_one (ss : session) (k : string) : session :=
  match ss !! k with
  | Some v => <[k := VBool (to_bool v)]> ss
  | None => ss
  end.

Definition normalize_checkbox_state (ss : session) (keys : QuestionKeys) : session :=
  foldl normalize_one ss (checkbox_keys keys).

Definition rehydrate_checkboxes_from_level
    (ss : session) (keys : QuestionKeys) (level : Z) : session :=
  let ss := <[a_key keys := VBool false]> ss in
  let ss := <[b_key keys := VBool false]> ss in
  let ss := <[c_key keys := VBool false]> ss in
  let ss := <[rt_key keys := VBool false]> ss in
  let ss := <[none_key keys := VBool false]> ss in
  if (level =? 1)%Z then <[none_key keys := VBool true]> ss
  else
    let ss := <[a_key keys := VBool true]> ss in
    let ss := if (3 <=? level)%Z then <[b_key keys := VBool true]> ss else ss in
    let ss := if (4 <=? level)%Z then <[c_key keys := VBool true]> ss else ss in
    let ss := if (5 <=? level)%Z then <[rt_key keys := VBool true]> ss else ss in
    ss.

Definition has_any_checkbox_selected (ss : session) (keys : QuestionKeys) : bool :=
  existsb (fun k => to_bool (ss_get ss k)) (checkbox_keys keys).

(** [isinstance(v, int)]: [bool] is a subclass of [int]. *)
Definition isinstance_int (v : value) : bool :=
  match v with
  | VBool _ | VInt _ => true
  | _ => false
  end.

(** [isinstance(value, int) and value in VALID_LEVELS]; membership compares
    by [==], under which [True] is [1]. *)
Definition is_valid_level (v : value) : bool :=
  isinstance_int v &&
  match py_int v with
  | Some n => in_valid_levels n
  | None => false
  end.

Definition compute_level_from_checklist (none a b c rt : bool) : option Z :=
  let any_selected := none || a || b || c || rt in
  let contradictory := none && (a || b || c || rt) in
  if negb any_selected || contradictory then None
  else if none then Some 1
  else Some (compute_suggested_level a b c rt).

Definition ensure_override_level_initialized
    (ss : session) (keys : QuestionKeys) : session :=
  match ss !! override_level_key keys with
  | Some v => <[override_level_key keys := VInt (to_level v LEVEL_DEFAULT)]> ss
  | None => <[override_level_key keys := VInt LEVEL_DEFAULT]> ss
  end.

(** The level the metric shows; [None] is the dash. *)
Definition render_level_metric (ss : session) (qkey : string) : option Z :=
  let current_val := ss_get ss qkey in
  if is_valid_level current_val then py_int current_val else None.

Definition render_override_controls
    (clicked : option button) (keys : QuestionKeys) (dim concept : string)
  : script unit :=
  do ss <- read;
  if negb (py_bool (ss_get_or ss (override_key keys) (VBool false))) then ret tt
  else
    do _ <- update (fun ss => ensure_override_level_initialized ss keys);
    do chosen <- st_radio VALID_LEVELS (override_level_key keys);
    do n <- int_of chosen;
    do _ <- update (insert (qkey keys) (VInt n));
    if st_button clicked (DisableOverrideBtn dim concept) then
      do _ <- update (insert (override_key keys) (VBool false));
      do ss <- read;
      do _ <- (if bool_decide (is_Some (ss !! override_level_key keys))
               then update (delete (override_level_key keys))
               else ret tt);
      rerun
    else ret tt.

Definition render_enable_override_button
    (clicked : option button) (keys : QuestionKeys) (dim concept : string)
  : script unit :=
  do ss <- read;
  let is_overriding := py_bool (ss_get_or ss (override_key keys) (VBool false)) in
  if negb is_overriding then
    if st_button clicked (EnableOverrideBtn dim concept) then
      do _ <- update (insert (override_key keys) (VBool true));
      do ss <- read;
      let cur := ss_get ss (qkey keys) in
      do n <- int_of (if is_valid_level cur then cur else VInt LEVEL_DEFAULT);
      do _ <- update (insert (override_level_key keys) (VInt n));
      rerun
    else ret tt
  else ret tt.

Definition keys_to_clear (keys : QuestionKeys) : list string :=
  [qkey keys; override_key keys; override_level_key keys;
   a_key keys; b_key keys; c_key keys; rt_key keys; none_key keys].

Definition page_keys_to_clear : list string :=
  ["company_name_loaded"; "auto_loaded_signature"; "answers_uploader";
   "force_questionnaire_reload"].

(** [ss.pop(k, None)] for each [k], in order *)
Definition pop_all (ks : list string) (ss : session) : session :=
  foldl (fun ss k => delete k ss) ss ks.

Definition reset_all_state (ss : session) (question_bank : QuestionBank) : session :=
  let ss :=
    foldl (fun ss '(dim, questions) =>
             foldl (fun ss q =>
                      pop_all (keys_to_clear (build_question_keys dim (concept q))) ss)
                   ss questions)
          ss question_bank in
  pop_all page_keys_to_clear ss.

Definition count_completed_answers (ss : session) (question_bank : QuestionBank) : nat :=
  foldl (fun completed '(dim, questions) =>
           foldl (fun completed q =>
                    if is_valid_level (ss_get ss (get_qkey dim (concept q)))
                    then S completed else completed)
                 completed questions)
        0%nat question_bank.

(** The body of the loop over the questions of a dimension: reconciles one
    question and returns what goes into [responses_raw[dim][concept]]. *)
Definition render_question
    (clicked : option button) (dim : string) (q : Question) : script (option Z) :=
  let concept := concept q in
  let keys := build_question_keys dim concept in
  do _ <- update (fun ss => normalize_checkbox_state ss keys);
  do ss <- read;
  let existing_level := ss_get ss (qkey keys) in
  do _ <- (if is_valid_level existing_level
              && negb (has_any_checkbox_selected ss keys)
           then do n <- int_of existing_level;
                update (fun ss => rehydrate_checkboxes_from_level ss keys n)
           else ret tt);
  do a <- st_checkbox (a_key keys);
  do b <- st_checkbox (b_key keys);
  do c <- st_checkbox (c_key keys);
  do rt <- st_checkbox (rt_key keys);
  do none <- st_checkbox (none_key keys);
  let any_selected := none || a || b || c || rt in
  let contradictory := none && (a || b || c || rt) in
  do ss <- read;
  let is_overriding := py_bool (ss_get_or ss (override_key keys) (VBool false)) in
  do _ <- (if negb is_overriding then
             match compute_level_from_checklist none a b c rt with
             | None => update (delete (qkey keys))
             | Some auto_level => update (insert (qkey keys) (VInt auto_level))
             end
           else ret tt);
  do _ <- render_override_controls clicked keys dim concept;
  do _ <- render_enable_override_button clicked keys dim concept;
  do ss <- read;
  let final_level := ss_get ss (qkey keys) in
  let is_overriding := py_bool (ss_get_or ss (override_key keys) (VBool false)) in
  if is_valid_level final_level
     && (is_overriding || (any_selected && negb contradictory))
  then do n <- int_of final_level; ret (Some n)
  else ret None.

(** The inner loop; [concepts] is [responses_raw[dim]] as filled so far. *)
Fixpoint render_questions
    (clicked : option button) (dim : string) (questions : list Question)
    (concepts : list (string * option Z)) : script (list (string * option Z)) :=
  match questions with
  | [] => ret concepts
  | q :: questions' =>
      do val <- render_question clicked dim q;
      render_questions clicked dim questions' (dict_set (concept q) val concepts)
  end.

(** The outer loop. The source binds [responses_raw[dim] = {}] before the
    inner loop and fills that dict in place; the dimension keeps the position
    it gets here, and a run that does not reach the end returns no dict. *)
Fixpoint render_dimensions
    (clicked : option button) (question_bank : QuestionBank)
    (responses_raw : Responses) : script Responses :=
  match question_bank with
  | [] => ret responses_raw
  | (dim, questions) :: bank' =>
      do concepts <- render_questions clicked dim questions [];
      render_dimensions clicked bank' (dict_set dim concepts responses_raw)
  end.

Definition missing_label (dim concept : string) : string :=
  dim ++ " → " ++ concept.

Definition missing_of (responses_raw : Responses) : list string :=
  flat_map (fun '(dim, concepts) =>
              flat_map (fun '(concept, val) =>
                          match val with
                          | None => [missing_label dim concept]
                          | Some _ => []
                          end) concepts)
           responses_raw.

Definition total_questions (question_bank : QuestionBank) : nat :=
  foldr (fun '(_, v) n => (length v + n)%nat) 0%nat question_bank.

(** The export block between the progress bar and the questions reads the
    session and writes nothing. *)
Definition render_questionnaire_page
    (clicked : option button) (question_bank : QuestionBank) : script PageOut :=
  do ss <- read;
  let force := ss_get_or ss "force_questionnaire_reload" (VBool false) in
  do _ <- update (delete "force_questionnaire_reload");
  do _ <- (if py_bool force then rerun else ret tt);
  do ss <- read;
  let company := ss_get_or ss "company_name_loaded" (VStr []) in
  do _ <- (if st_button clicked ResetAllBtn then
             do _ <- update (fun ss => reset_all_state ss question_bank);
             rerun
           else ret tt);
  do ss <- read;
  let total := total_questions question_bank in
  let completed := count_completed_answers ss question_bank in
  do responses <- render_dimensions clicked question_bank [];
  ret {| company_name := company;
         responses_raw := responses;
         missing := missing_of responses;
         progress_completed := completed;
         progress_total := total |}.

(** [run_app_flow], as far as the session is concerned: the eligibility
    gates are taken as passed; [session.as_dict()] is the session the page
    works on; the three [__latest_*] entries hold the page's output and are
    read back at once. The result tells whether the results page is
    rendered, and with what. *)
Definition run_app_flow
    (clicked : option button) (question_bank : QuestionBank)
  : script (PageOut * bool) :=
  do _ <- update (fun ss => match ss !! "__show_results" with
                            | Some _ => ss
                            | None => <["__show_results" := VBool false]> ss
                            end);
  do q_out <- render_questionnaire_page clicked question_bank;
  match responses_raw q_out with
  | [] => ret (q_out, false)
  | _ =>
      do _ <- (if st_button clicked SeeResultsBtn then
                 do _ <- update (insert "__show_results" (VBool true));
                 rerun
               else ret tt);
      do ss <- read;
      ret (q_out, py_bool (ss_get_or ss "__show_results" (VBool false)))
  end.

(** ** Phases of one question

    Names for the intermediate sessions of [render_question], used to state
    what each phase leaves behind. *)

(** What a keyed checkbox shows, and the session once it has registered. *)
Definition checked (ss : session) (k : string) : bool :=
  py_bool (ss_get_or ss k (VBool false)).

Definition registered (ss : session) (k : string) : session :=
  match ss !! k with
  | Some _ => ss
  | None => <[k := VBool false]> ss
  end.

(** the rehydration guard and call *)
Definition rehydrated (ss : session) (keys : QuestionKeys) : session :=
  let existing_level := ss_get ss (qkey keys) in
  if is_valid_level existing_level && negb (has_any_checkbox_selected ss keys)
  then match py_int existing_level with
       | Some n => rehydrate_checkboxes_from_level ss keys n
       | None => ss
       end
  else ss.

(** the session when the five checkboxes have been rendered *)
Definition widgets_ready (ss : session) (keys : QuestionKeys) : session :=
  foldl registered (rehydrated (normalize_checkbox_state ss keys) keys)
        (checkbox_keys keys).

(** the Checklist Leveling Rule on the selection a session holds *)
Definition selection_level (ss : session) (keys : QuestionKeys) : option Z :=
  compute_level_from_checklist
    (checked ss (none_key keys)) (checked ss (a_key keys))
    (checked ss (b_key keys)) (checked ss (c_key keys))
    (checked ss (rt_key keys)).

Definition any_selected (ss : session) (keys : QuestionKeys) : bool :=
  checked ss (none_key keys) || checked ss (a_key keys)
  || checked ss (b_key keys) || checked ss (c_key keys)
  || checked ss (rt_key keys).

Definition contradictory (ss : session) (keys : QuestionKeys) : bool :=
  checked ss (none_key keys)
  && (checked ss (a_key keys) || checked ss (b_key keys)
      || checked ss (c_key keys) || checked ss (rt_key keys)).

(** automatic scoring, when not overriding *)
Definition auto_scored (ss : session) (keys : QuestionKeys) : session :=
  if negb (checked ss (override_key keys)) then
    match selection_level ss keys with
    | Some auto_level => <[qkey keys := VInt auto_level]> ss
    | None => delete (qkey keys) ss
    end
  else ss.

(** the level the override radio holds once initialised *)
Definition override_level (ss : session) (keys : QuestionKeys) : Z :=
  match ss !! override_level_key keys with
  | Some v => to_level v LEVEL_DEFAULT
  | None => LEVEL_DEFAULT
  end.

(** the level the override starts from *)
Definition seed_level (cur : value) : Z :=
  if is_valid_level cur then default LEVEL_DEFAULT (py_int cur) else LEVEL_DEFAULT.

(** the final validation: [sel] is the session the selection was read from,
    [ss] the session at the end of the question *)
Definition final_value (sel ss : session) (keys : QuestionKeys) : option Z :=
  let final_level := ss_get ss (qkey keys) in
  if is_valid_level final_level
     && (checked ss (override_key keys)
         || (any_selected sel keys && negb (contradictory sel keys)))
  then py_int final_level
  else None.

(** the session a run ends on, however it ends *)
Definition final_session {A : Type} (o : outcome A) : session :=
  match o with
  | Ret _ ss | Rerun ss | Raise ss => ss
  end.

Definition returns {A : Type} (o : outcome A) : Prop :=
  exists a ss, o = Ret a ss.

(** Two sessions that hold the same under the given keys. *)
Definition agree_on (ks : list string) (s1 s2 : session) : Prop :=
  forall k, k ∈ ks -> s1 !! k = s2 !! k.

(** The state of a question after a completed pass: the five checklist keys
    hold booleans, and the level key is owned by the override (which holds a
    valid level, the same as the radio) or by the Checklist Leveling Rule. *)
Definition settled (ss : session) (keys : QuestionKeys) : Prop :=
  (forall k, k ∈ checkbox_keys keys -> ss !! k = Some (VBool (checked ss k))) /\
  if checked ss (override_key keys) then
    exists l, 1 <= l <= 5 /\
              ss !! qkey keys = Some (VInt l) /\
              ss !! override_level_key keys = Some (VInt l)
  else ss !! qkey keys = VInt <$> selection_level ss keys.

(** the keys of the questions of one dimension *)
Definition questions_keys (dim : string) (questions : list Question) : list string :=
  flat_map (fun q => keys_to_clear (build_question_keys dim (concept q))) questions.

(** The response set as a projection of a session: for every question the
    final validation applied to what the session holds. *)
Definition answers (ss : session) (dim : string) (questions : list Question)
  : list (string * option Z) :=
  map (fun q => (concept q, final_value ss ss (build_question_keys dim (concept q))))
      questions.

Definition responses_of (ss : session) (question_bank : QuestionBank) : Responses :=
  map (fun '(dim, questions) => (dim, answers ss dim questions)) question_bank.

(** What a completed pass over a question relates between the session [ss]
    it started from and the session [ss'] it ends on. *)
Definition question_done (ss ss' : session) (dim : string) (q : Question) : Prop :=
  let keys := build_question_keys dim (concept q) in
  settled ss' keys /\
  ss' !! override_key keys = ss !! override_key keys /\
  (checked ss (override_key keys) = true ->
     ss' !! qkey keys = Some (VInt (override_level ss keys))) /\
  (checked ss (override_key keys) = false ->
     ss' !! override_level_key keys = ss !! override_level_key keys) /\
  agree_on (checkbox_keys keys) ss' (widgets_ready ss keys).

(** [responses_raw[dim][concept]], when both keys are there *)
Definition lookup_response (responses : Responses) (dim concept : string)
  : option (option Z) :=
  dict_get dim responses ≫= dict_get concept.

(** the two buttons of a question *)
Definition targets (clicked : option button) (dim concept : string) : Prop :=
  clicked = Some (EnableOverrideBtn dim concept) \/
  clicked = Some (DisableOverrideBtn dim concept).

(** ** Well-formed banks

    A bank is a dict, so its dimensions are distinct; and the keys of its
    questions are pairwise distinct and differ from the import flag, which is
    what the key namespace promises (Streamlit refuses two widgets under one
    key). *)
Definition bank_questions (question_bank : QuestionBank) : list (string * Question) :=
  flat_map (fun '(dim, questions) => map (fun q => (dim, q)) questions) question_bank.

Definition bank_keys (question_bank : QuestionBank) : list string :=
  flat_map (fun '(dim, q) => keys_to_clear (build_question_keys dim (concept q)))
           (bank_questions question_bank).

Definition bank_wf (question_bank : QuestionBank) : bool :=
  bool_decide (NoDup (map fst question_bank))
  && bool_decide (NoDup ("force_questionnaire_reload" :: bank_keys question_bank)).

End Questionnaire.

(** ** Sample collaborators

    The page is verified for every scoring function and key namespace. The
    concrete ones below are used to run the model. *)

(** one level per selected item, starting from 1 *)
#[local] Instance sample_scoring : Scoring := {|
  compute_suggested_level a b c rt :=
    1 + Z.b2z a + Z.b2z b + Z.b2z c + Z.b2z rt
|}.

#[local] Instance sample_keys : KeyNamespace := {|
  get_qkey dim concept := "q::" ++ dim ++ "::" ++ concept;
  get_override_key dim concept := "override::" ++ dim ++ "::" ++ concept;
  get_override_level_key dim concept := "override_level::" ++ dim ++ "::" ++ concept;
  get_help_key dim concept item := "help::" ++ dim ++ "::" ++ concept ++ "::" ++ item;
  get_none_key dim concept := "none::" ++ dim ++ "::" ++ concept
|}.

(** the bank of the specification's scenario, and a larger one *)
Definition bank_ci : QuestionBank :=
  [("Process", [{| concept := "CI"; question := "Is CI in place?" |}])].

Definition bank_two : QuestionBank :=
  [("Process", [{| concept := "CI"; question := "Is CI in place?" |};
                {| concept := "CD"; question := "Is CD in place?" |}]);
   ("Data", [{| concept := "Lineage"; question := "Is lineage tracked?" |}])].

Definition q_ci : Question := {| concept := "CI"; question := "Is CI in place?" |}.
Definition keys_ci : QuestionKeys := build_question_keys "Process" "CI".

(** item a selected, nothing stored yet *)
Definition session_a : session := <[a_key keys_ci := VBool true]> ∅.

(** items a and b selected and scored 3 by an earlier run; the user has now
    ticked "None of the above" as well *)
Definition session_stale : session :=
  <[qkey keys_ci := VInt 3]>
    (<[a_key keys_ci := VBool true]>
       (<[b_key keys_ci := VBool true]>
          (<[none_key keys_ci := VBool true]> ∅))).

(** what the page returns on [session_a], and the session it leaves *)
Definition out_a : PageOut :=
  {| company_name := VStr [];
     responses_raw := [("Process", [("CI", Some 2)])];
     missing := [];
     progress_completed := 0;
     progress_total := 1 |}.

Definition session_a_after : session :=
  list_to_map
    [(qkey keys_ci, VInt 2); (a_key keys_ci, VBool true);
     (b_key keys_ci, VBool false); (c_key keys_ci, VBool false);
     (rt_key keys_ci, VBool false); (none_key keys_ci, VBool false)].

(** the same for [session_stale] *)
Definition out_stale : PageOut :=
  {| company_name := VStr [];
     responses_raw := [("Process", [("CI", None)])];
     missing := ["Process → CI"];
     progress_completed := 1;
     progress_total := 1 |}.

Definition session_stale_after : session :=
  list_to_map
    [(a_key keys_ci, VBool true); (b_key keys_ci, VBool true);
     (c_key keys_ci, VBool false); (rt_key keys_ci, VBool false);
     (none_key keys_ci, VBool true)].

(** results already revealed, and a level stored *)
Definition session_revealed : session :=
  <["__show_results" := VBool true]> (<[qkey keys_ci := VInt 4]> ∅).

(** ** What the specification says of [to_bool]

    A second definition, written from the words of the specification: booleans
    map to themselves, the numbers 0 and 1 to the corresponding bool, the four
    strings "true", "yes", "on" and "1" in any letter case to true, and every
    other value to false. *)
Definition to_bool_as_specified (v : value) : bool :=
  match v with
  | VBool b => b
  | VInt n => (n =? 1)%Z
  | VFloat (S754_finite false m e) => bool_decide (e <= 0 /\ Z.pos m = 2 ^ (- e))
  | VFloat _ => false
  | VStr s => bool_decide (lower s ∈ [txt "true"; txt "yes"; txt "on"; txt "1"])
  | VNone | VObj _ _ _ => false
  end.

(** ** Further names

    Names used by the properties that follow the main ones. *)

Section MoreNames.

Context `{Scoring} `{KeyNamespace}.

(** every character of the string is whitespace *)
Fixpoint all_space (s : text) : bool :=
  match s with
  | [] => true
  | c :: s' => is_space c && all_space s'
  end.

(** the boolean a stored checklist value stands for, as a set of five *)
Definition selection_of (ss : session) (keys : QuestionKeys)
  : bool * bool * bool * bool * bool :=
  (checked ss (none_key keys), checked ss (a_key keys), checked ss (b_key keys),
   checked ss (c_key keys), checked ss (rt_key keys)).

(** The keys under which Streamlit keeps the state of the page's buttons:
    "Reset all answers" and, for every question, "Use automatic level
    again" and the two forms of "Change this level". *)
Definition button_keys (question_bank : QuestionBank) : list string :=
  "reset_all_btn"
  :: flat_map (fun '(dim, q) =>
                 ["disable_override::" ++ dim ++ "::" ++ concept q;
                  "enable_override::" ++ dim ++ "::" ++ concept q;
                  "enable_override_disabled::" ++ dim ++ "::" ++ concept q])
              (bank_questions question_bank).

(** whether the response set holds no level for a question *)
Definition unanswered (responses : Responses) (dq : string * Question) : bool :=
  match lookup_response responses (fst dq) (concept (snd dq)) with
  | Some None => true
  | _ => false
  end.

End MoreNames.

(** ** More sample runs *)

(** item a selected, and the override on at level 4 *)
Definition session_override : session :=
  <[override_key keys_ci := VBool true]>
    (<[override_level_key keys_ci := VInt 4]> session_a).

Definition out_override : PageOut :=
  {| company_name := VStr [];
     responses_raw := [("Process", [("CI", Some 4)])];
     missing := [];
     progress_completed := 0;
     progress_total := 1 |}.

Definition session_override_after : session :=
  list_to_map
    [(qkey keys_ci, VInt 4); (override_key keys_ci, VBool true);
     (override_level_key keys_ci, VInt 4); (a_key keys_ci, VBool true);
     (b_key keys_ci, VBool false); (c_key keys_ci, VBool false);
     (rt_key keys_ci, VBool false); (none_key keys_ci, VBool false)].

(** the session the "Enable override" click leaves on [session_a] *)
Definition session_a_enabled : session :=
  list_to_map
    [(qkey keys_ci, VInt 2); (override_key keys_ci, VBool true);
     (override_level_key keys_ci, VInt 2); (a_key keys_ci, VBool true);
     (b_key keys_ci, VBool false); (c_key keys_ci, VBool false);
     (rt_key keys_ci, VBool false); (none_key keys_ci, VBool false)].

(** what the page returns on [session_revealed], and the session it leaves *)
Definition out_revealed : PageOut :=
  {| company_name := VStr [];
     responses_raw := [("Process", [("CI", Some 4)])];
     missing := [];
     progress_completed := 1;
     progress_total := 1 |}.

Definition session_revealed_after : session :=
  list_to_map
    [("__show_results", VBool true); (qkey keys_ci, VInt 4);
     (a_key keys_ci, VBool true); (b_key keys_ci, VBool true);
     (c_key keys_ci, VBool true); (rt_key keys_ci, VBool false);
     (none_key keys_ci, VBool false)].


(** * Properties *)

Section Properties.

Context `{Scoring} `{KeyNamespace}.

(** ** Levels *)

Lemma in_valid_levels_spec (n : Z) : in_valid_levels n = true <-> 1 <= n <= 5.
Proof.
  unfold in_valid_levels, VALID_LEVELS.
  rewrite bool_decide_eq_true, !elem_of_cons, elem_of_nil. lia.
Qed.

Lemma in_valid_levels_range (n : Z) :
  in_valid_levels n = bool_decide (1 <= n <= 5).
Proof.
  destruct (in_valid_levels n) eqn:E; symmetry.
  - apply bool_decide_eq_true, in_valid_levels_spec, E.
  - apply bool_decide_eq_false. intros Hn.
    apply in_valid_levels_spec in Hn. congruence.
Qed.

Lemma is_valid_level_int (n : Z) :
  is_valid_level (VInt n) = true <-> 1 <= n <= 5.
Proof. unfold is_valid_level. simpl. apply in_valid_levels_spec. Qed.

Lemma is_valid_level_py_int (v : value) :
  is_valid_level v = true -> exists n, py_int v = Some n /\ 1 <= n <= 5.
Proof.
  unfold is_valid_level. intros Hv.
  apply andb_true_iff in Hv as [_ Hv].
  destruct (py_int v) as [n|]; [|discriminate].
  exists n. split; [reflexivity|]. by apply in_valid_levels_spec.
Qed.

(** C10. [is_valid_level] accepts the boolean [True] (it is the integer 1)
    and rejects [False]; on every value it is decided by the table below, so
    apart from [True] the valid values are exactly the integers 1..5. A
    stored [True] is shown as level 1 and counted as a completed answer, a
    stored [False] is not counted. *)
Theorem is_valid_level_bool_and_int :
  is_valid_level (VBool true) = true /\
  is_valid_level (VBool false) = false /\
  (forall v : value,
      is_valid_level v =
      match v with
      | VBool b => b
      | VInt n => bool_decide (1 <= n <= 5)
      | VNone | VFloat _ | VStr _ | VObj _ _ _ => false
      end) /\
  (forall (ss : session) (dim : string) (q : Question),
      let k := get_qkey dim (concept q) in
      render_level_metric (<[k := VBool true]> ss) k = Some 1 /\
      count_completed_answers (<[k := VBool true]> ss) [(dim, [q])] = 1%nat /\
      render_level_metric (<[k := VBool false]> ss) k = None /\
      count_completed_answers (<[k := VBool false]> ss) [(dim, [q])] = 0%nat).
Proof.
  split; [reflexivity|]. split; [reflexivity|]. split.
  - intros [|[]|n|f|s|s b i]; try reflexivity.
    unfold is_valid_level. simpl. apply in_valid_levels_range.
  - intros ss dim q k.
    unfold render_level_metric, count_completed_answers, ss_get. simpl.
    fold k. rewrite !lookup_insert_eq. simpl. done.
Qed.

(** ** The Checklist Leveling Rule *)

(** C1. Provided the scoring function keeps its contract (a level in 2..5
    whenever one of a/b/c/rt is selected), [compute_level_from_checklist]
    returns no level exactly when nothing is selected or [none] comes with
    another item, returns 1 exactly when [none] alone is selected, and in
    every remaining case returns what the scoring function returns. *)
Theorem compute_level_from_checklist_cases
    (Hcontract : forall a b c rt : bool,
        a || b || c || rt = true ->
        2 <= compute_suggested_level a b c rt <= 5)
    (none a b c rt : bool) :
  (compute_level_from_checklist none a b c rt = None <->
     none || a || b || c || rt = false \/
     (none = true /\ a || b || c || rt = true)) /\
  (compute_level_from_checklist none a b c rt = Some 1 <->
     none = true /\ a = false /\ b = false /\ c = false /\ rt = false) /\
  (none = false -> a || b || c || rt = true ->
     compute_level_from_checklist none a b c rt
     = Some (compute_suggested_level a b c rt)).
Proof.
  pose proof (Hcontract a b c rt) as Hc.
  unfold compute_level_from_checklist.
  destruct none, a, b, c, rt; simpl in *;
    (split; [|split]); try (split; intros); try intros;
    try discriminate; try reflexivity; try tauto;
    try (left; reflexivity); try (right; split; reflexivity);
    try (repeat split; reflexivity);
    try (exfalso; match goal with
                  | H : Some _ = Some 1 |- _ => injection H as H; lia
                  | H : _ \/ _ |- _ => destruct H as [H|[H H']]; discriminate
                  | H : _ /\ _ |- _ => destruct H as (?&?&?&?&?); discriminate
                  end).
Qed.

(** ** Text *)

Local Close Scope string_scope.

Lemma is_space_spec (c : N) :
  is_space c = true <->
  (9 <= c <= 13 \/ 28 <= c <= 32 \/ c = 0x85 \/ c = 0xA0 \/ c = 0x1680
   \/ 0x2000 <= c <= 0x200A \/ c = 0x2028 \/ c = 0x2029 \/ c = 0x202F
   \/ c = 0x205F \/ c = 0x3000)%N.
Proof.
  unfold is_space.
  rewrite !orb_true_iff, !andb_true_iff, !N.leb_le, !N.eqb_eq. tauto.
Qed.

Lemma is_space_false (c : N) :
  ~ (9 <= c <= 13 \/ 28 <= c <= 32 \/ c = 0x85 \/ c = 0xA0 \/ c = 0x1680
     \/ 0x2000 <= c <= 0x200A \/ c = 0x2028 \/ c = 0x2029 \/ c = 0x202F
     \/ c = 0x205F \/ c = 0x3000)%N ->
  is_space c = false.
Proof.
  intros Hn. destruct (is_space c) eqn:E; [|reflexivity].
  apply is_space_spec in E. contradiction.
Qed.

Lemma lower_cp_space (c : N) : is_space c = true -> lower_cp c = [c].
Proof.
  intros Hs%is_space_spec. unfold lower_cp.
  destruct ((65 <=? c) && (c <=? 90))%N eqn:E1.
  { apply andb_true_iff in E1. rewrite !N.leb_le in E1. lia. }
  destruct (c =? 0x130)%N eqn:E2; [apply N.eqb_eq in E2; lia|].
  destruct (c =? 0x212A)%N eqn:E3; [apply N.eqb_eq in E3; lia|].
  reflexivity.
Qed.

Lemma lower_cp_nonspace (c : N) :
  is_space c = false ->
  exists d ds, lower_cp c = d :: ds /\ Forall (fun x => is_space x = false) (d :: ds).
Proof.
  intros Hs. unfold lower_cp.
  destruct ((65 <=? c) && (c <=? 90))%N eqn:E1.
  { apply andb_true_iff in E1. rewrite !N.leb_le in E1.
    exists (c + 32)%N, []. split; [reflexivity|].
    repeat constructor. apply is_space_false. lia. }
  destruct (c =? 0x130)%N; [eexists _, _; split; [reflexivity|]; by repeat constructor|].
  destruct (c =? 0x212A)%N; [eexists _, _; split; [reflexivity|]; by repeat constructor|].
  exists c, []. split; [reflexivity|]. by repeat constructor.
Qed.

Lemma lstrip_nonspace (sp : N -> bool) (s r : text) :
  s <> [] -> Forall (fun x => sp x = false) s ->
  lstrip_by sp (s ++ r) = (s ++ r)%list.
Proof.
  destruct s as [|c s]; [congruence|].
  intros _ Hs. apply Forall_cons in Hs as [Hc _].
  cbn [app lstrip_by]. by rewrite Hc.
Qed.

Lemma rstrip_nonspace (sp : N -> bool) (s : text) :
  Forall (fun x => sp x = false) s -> rstrip_by sp s = s.
Proof.
  induction s as [|c s IH]; [reflexivity|].
  intros [Hc Hs]%Forall_cons. cbn [rstrip_by]. rewrite (IH Hs), Hc.
  by destruct s.
Qed.

Lemma rstrip_app (sp : N -> bool) (l r : text) :
  rstrip_by sp (l ++ r) =
  match rstrip_by sp r with
  | [] => rstrip_by sp l
  | r' => (l ++ r')%list
  end.
Proof.
  induction l as [|c l IH]; cbn [app rstrip_by].
  - by destruct (rstrip_by sp r).
  - rewrite IH. destruct (rstrip_by sp r); [reflexivity|].
    by destruct l.
Qed.

Lemma lower_lstrip (s : text) :
  lower (lstrip_by is_space s) = lstrip_by is_space (lower s).
Proof.
  induction s as [|c s IH]; [reflexivity|].
  cbn [lstrip_by lower]. destruct (is_space c) eqn:E.
  - rewrite (lower_cp_space c E). cbn [app lstrip_by]. by rewrite E.
  - destruct (lower_cp_nonspace c E) as (d & ds & Hd & Hns).
    cbn [lower]. rewrite Hd. symmetry. by apply lstrip_nonspace.
Qed.

Lemma lower_rstrip (s : text) :
  lower (rstrip_by is_space s) = rstrip_by is_space (lower s).
Proof.
  induction s as [|c s IH]; [reflexivity|].
  cbn [rstrip_by lower]. rewrite rstrip_app, <- IH.
  destruct (rstrip_by is_space s) as [|x r] eqn:Er.
  - cbn [lower]. destruct (is_space c) eqn:E.
    + rewrite (lower_cp_space c E). cbn [rstrip_by]. by rewrite E.
    + destruct (lower_cp_nonspace c E) as (d & ds & Hd & Hns).
      cbn [lower]. rewrite app_nil_r, Hd. symmetry. by apply rstrip_nonspace.
  - cbn [lower].
    destruct (lower_cp x ++ lower r)%list as [|y t] eqn:Ex; [|reflexivity].
    apply app_eq_nil in Ex as [Ex _]. exfalso.
    destruct (is_space x) eqn:E.
    + by rewrite (lower_cp_space x E) in Ex.
    + destruct (lower_cp_nonspace x E) as (d & ds & Hd & _). congruence.
Qed.

Lemma lower_strip (s : text) : lower (strip s) = strip (lower s).
Proof. unfold strip. by rewrite lower_rstrip, lower_lstrip. Qed.

Lemma lstrip_all_space (p : text) : all_space p = true -> lstrip_by is_space p = [].
Proof.
  induction p as [|c p IH]; [reflexivity|].
  cbn [all_space lstrip_by]. intros [Hc Hp]%andb_true_iff. rewrite Hc. auto.
Qed.

Lemma rstrip_all_space (p : text) : all_space p = true -> rstrip_by is_space p = [].
Proof.
  induction p as [|c p IH]; [reflexivity|].
  cbn [all_space rstrip_by]. intros [Hc Hp]%andb_true_iff.
  by rewrite (IH Hp), Hc.
Qed.

Lemma lstrip_pad (p s : text) :
  all_space p = true -> lstrip_by is_space (p ++ s) = lstrip_by is_space s.
Proof.
  induction p as [|c p IH]; [reflexivity|].
  intros [Hc Hp]%andb_true_iff. cbn [app lstrip_by]. rewrite Hc. auto.
Qed.

Lemma rstrip_pad (s p : text) :
  all_space p = true -> rstrip_by is_space (s ++ p) = rstrip_by is_space s.
Proof. intros Hp. by rewrite rstrip_app, (rstrip_all_space p Hp). Qed.

Lemma strip_pad (p1 s p2 : text) :
  all_space p1 = true -> all_space p2 = true ->
  strip (p1 ++ s ++ p2) = strip s.
Proof.
  intros H1 H2. unfold strip. rewrite (lstrip_pad p1 _ H1).
  induction s as [|c s IH]; cbn [app lstrip_by].
  - by rewrite (lstrip_all_space p2 H2).
  - destruct (is_space c); [exact IH|].
    exact (rstrip_pad (c :: s) p2 H2).
Qed.

Local Open Scope string_scope.

(** ** Normalization of stored values *)

Lemma shiftl_pos_nonzero (m : positive) (e : Z) :
  Z.shiftl (Z.pos m) e <> 0 <-> 2 ^ (- e) <= Z.pos m.
Proof.
  destruct (Z.le_gt_cases 0 e) as [He|He].
  - rewrite Z.shiftl_mul_pow2 by exact He.
    assert (0 < 2 ^ e) by (apply Z.pow_pos_nonneg; lia).
    assert (2 ^ (- e) <= 1).
    { destruct (Z.eq_dec e 0) as [->|]; [simpl; lia|].
      rewrite Z.pow_neg_r by lia. lia. }
    split; [lia | nia].
  - rewrite <- (Z.opp_involutive e) at 1.
    rewrite Z.shiftl_opp_r, Z.shiftr_div_pow2 by lia.
    assert (0 < 2 ^ (- e)) by (apply Z.pow_pos_nonneg; lia).
    split.
    + intros Hq. destruct (Z.le_gt_cases (2 ^ (- e)) (Z.pos m)); [assumption|].
      exfalso. apply Hq. apply Z.div_small. lia.
    + intros Hle Hq.
      pose proof (Z.div_le_mono (2 ^ (- e)) (Z.pos m) (2 ^ (- e))) as Hd.
      rewrite Z.div_same in Hd by lia. lia.
Qed.

Lemma to_bool_idem (v : value) : to_bool (VBool (to_bool v)) = to_bool v.
Proof. reflexivity. Qed.

Lemma normalize_one_lookup (ss : session) (k' k : string) :
  normalize_one ss k' !! k =
  if bool_decide (k = k') then (fun v => VBool (to_bool v)) <$> ss !! k
  else ss !! k.
Proof.
  unfold normalize_one. case_bool_decide as Hk.
  - subst k'. destruct (ss !! k) as [v|] eqn:E; simpl.
    + by rewrite lookup_insert_eq.
    + by rewrite E.
  - destruct (ss !! k') as [v|]; [|reflexivity].
    rewrite lookup_insert_ne by congruence. reflexivity.
Qed.

Lemma normalize_fold_lookup (ks : list string) (ss : session) (k : string) :
  foldl normalize_one ss ks !! k =
  if bool_decide (k ∈ ks) then (fun v => VBool (to_bool v)) <$> ss !! k
  else ss !! k.
Proof.
  revert ss. induction ks as [|k' ks IH]; intros ss; cbn [foldl].
  - rewrite bool_decide_eq_false_2; [reflexivity | apply not_elem_of_nil].
  - rewrite IH, normalize_one_lookup.
    destruct (decide (k = k')) as [->|Hne].
    + rewrite (bool_decide_eq_true_2 (k' = k')) by reflexivity.
      rewrite (bool_decide_eq_true_2 (k' ∈ k' :: ks)) by apply list_elem_of_here.
      case_bool_decide; [|reflexivity].
      destruct (ss !! k'); reflexivity.
    + rewrite (bool_decide_eq_false_2 (k = k')) by assumption.
      rewrite (bool_decide_ext (k ∈ k' :: ks) (k ∈ ks)); [reflexivity|].
      rewrite elem_of_cons. tauto.
Qed.

(** C8, as the code has it. [to_bool] maps a boolean to itself and [None] to
    false; an integer to true exactly when it is not 0; a float to true
    exactly when it is finite and its magnitude is at least 1 (its integer
    part is not 0); a string to true exactly when, stripped of surrounding
    whitespace (that of Unicode included) and lower-cased, it is one of
    "true", "1", "yes", "y", "on"; and an object of any other type to what
    its [str()] is mapped to, whatever its own truth value.
    [normalize_checkbox_state] replaces every stored checklist value by that
    boolean, keeps an absent key absent and touches no other key. *)
Theorem to_bool_cases :
  (forall b : bool, to_bool (VBool b) = b) /\
  to_bool VNone = false /\
  (forall n : Z, to_bool (VInt n) = true <-> n <> 0) /\
  (forall f : spec_float,
      to_bool (VFloat f) = true <->
      exists s m e, f = S754_finite s m e /\ 2 ^ (- e) <= Z.pos m) /\
  (forall s : text,
      to_bool (VStr s) = true <->
      lower (strip s) ∈ [txt "true"; txt "1"; txt "yes"; txt "y"; txt "on"]) /\
  (forall (s : text) (b : bool) (i : option Z),
      to_bool (VObj s b i) = to_bool (VStr s)) /\
  (forall (ss : session) (keys : QuestionKeys) (k : string),
      normalize_checkbox_state ss keys !! k =
      if bool_decide (k ∈ checkbox_keys keys)
      then (fun v => VBool (to_bool v)) <$> ss !! k
      else ss !! k).
Proof.
  repeat split.
  - simpl. intros Hn ->. discriminate.
  - simpl. intros Hn. apply negb_true_iff, Z.eqb_neq, Hn.
  - destruct f as [s|s| |s m e]; simpl; try discriminate.
    intros Hn. exists s, m, e. split; [reflexivity|].
    apply shiftl_pos_nonzero.
    apply negb_true_iff, Z.eqb_neq in Hn. destruct s; lia.
  - intros (s & m & e & -> & Hle). simpl.
    apply shiftl_pos_nonzero in Hle.
    apply negb_true_iff, Z.eqb_neq. destruct s; lia.
  - cbn [to_bool]. apply bool_decide_eq_true_1.
  - cbn [to_bool]. apply bool_decide_eq_true_2.
  - intros ss keys k. apply normalize_fold_lookup.
Qed.

Lemma to_level_range (v : value) : 1 <= to_level v LEVEL_DEFAULT <= 5.
Proof.
  unfold to_level, LEVEL_DEFAULT.
  destruct (int_of_str_of v) as [n|]; [|lia].
  destruct (in_valid_levels n) eqn:E; [|lia].
  by apply in_valid_levels_spec.
Qed.

Lemma to_level_default (v : value) (d : Z) :
  (forall n, int_of_str_of v = Some n -> ~ 1 <= n <= 5) -> to_level v d = d.
Proof.
  unfold to_level. intros Hv.
  destruct (int_of_str_of v) as [n|]; [|reflexivity].
  destruct (in_valid_levels n) eqn:E; [|reflexivity].
  apply in_valid_levels_spec in E. exfalso. by apply (Hv n).
Qed.

Lemma to_level_valid (v : value) (d n : Z) :
  int_of_str_of v = Some n -> 1 <= n <= 5 -> to_level v d = n.
Proof.
  unfold to_level. intros -> Hn.
  apply in_valid_levels_spec in Hn. by rewrite Hn.
Qed.

Lemma to_level_range_or_default (ss : session) (keys : QuestionKeys) :
  1 <= override_level ss keys <= 5.
Proof.
  unfold override_level.
  destruct (ss !! override_level_key keys); [apply to_level_range|].
  unfold LEVEL_DEFAULT. lia.
Qed.

Lemma ensure_override_level_lookup (ss : session) (keys : QuestionKeys) :
  ensure_override_level_initialized ss keys !! override_level_key keys =
  Some (VInt (match ss !! override_level_key keys with
              | Some v => to_level v LEVEL_DEFAULT
              | None => LEVEL_DEFAULT
              end)).
Proof.
  unfold ensure_override_level_initialized.
  destruct (ss !! override_level_key keys); by rewrite lookup_insert_eq.
Qed.

Lemma ensure_override_level_other (ss : session) (keys : QuestionKeys) (k : string) :
  k <> override_level_key keys ->
  ensure_override_level_initialized ss keys !! k = ss !! k.
Proof.
  intros Hk. unfold ensure_override_level_initialized.
  destruct (ss !! override_level_key keys); by rewrite lookup_insert_ne.
Qed.

(** ** One question, step by step *)

Lemma st_checkbox_eq (k : string) (ss : session) :
  st_checkbox k ss = Ret (checked ss k) (registered ss k).
Proof.
  unfold st_checkbox, checked, registered, ss_get_or.
  destruct (ss !! k); reflexivity.
Qed.

Lemma checked_registered (ss : session) (k k' : string) :
  checked (registered ss k) k' = checked ss k'.
Proof.
  unfold checked, registered, ss_get_or.
  destruct (ss !! k) eqn:E; [reflexivity|].
  destruct (decide (k = k')) as [<-|Hne].
  - by rewrite lookup_insert_eq, E.
  - by rewrite lookup_insert_ne.
Qed.

Lemma checked_foldl_registered (ks : list string) (ss : session) (k : string) :
  checked (foldl registered ss ks) k = checked ss k.
Proof.
  revert ss. induction ks as [|k' ks IH]; intros ss; cbn [foldl]; [reflexivity|].
  by rewrite IH, checked_registered.
Qed.

Lemma render_override_controls_eq
    (clicked : option button) (keys : QuestionKeys) (dim concept : string)
    (ss : session) :
  render_override_controls clicked keys dim concept ss =
  if negb (checked ss (override_key keys)) then Ret tt ss
  else
    let l := override_level ss keys in
    let ss2 := <[qkey keys := VInt l]> (<[override_level_key keys := VInt l]> ss) in
    if st_button clicked (DisableOverrideBtn dim concept)
    then Rerun (delete (override_level_key keys)
                  (<[override_key keys := VBool false]> ss2))
    else Ret tt ss2.
Proof.
  unfold render_override_controls, bind, read, update, checked.
  destruct (negb _); [reflexivity|].
  assert (Hens : ensure_override_level_initialized ss keys
                 = <[override_level_key keys := VInt (override_level ss keys)]> ss).
  { unfold ensure_override_level_initialized, override_level.
    destruct (ss !! override_level_key keys); reflexivity. }
  rewrite Hens. unfold st_radio. rewrite lookup_insert_eq.
  unfold int_of, ret. cbn [py_int].
  destruct (st_button clicked _); [|reflexivity].
  rewrite bool_decide_eq_true_2; [reflexivity|].
  destruct (decide (override_key keys = override_level_key keys)) as [->|Hn1].
  { rewrite lookup_insert_eq. eauto. }
  rewrite lookup_insert_ne by assumption.
  destruct (decide (qkey keys = override_level_key keys)) as [->|Hn2].
  { rewrite lookup_insert_eq. eauto. }
  rewrite lookup_insert_ne by assumption.
  rewrite lookup_insert_eq. eauto.
Qed.

Lemma render_enable_override_button_eq
    (clicked : option button) (keys : QuestionKeys) (dim concept : string)
    (ss : session) :
  render_enable_override_button clicked keys dim concept ss =
  if negb (checked ss (override_key keys))
     && st_button clicked (EnableOverrideBtn dim concept)
  then
    let ss1 := <[override_key keys := VBool true]> ss in
    Rerun (<[override_level_key keys := VInt (seed_level (ss_get ss1 (qkey keys)))]> ss1)
  else Ret tt ss.
Proof.
  unfold render_enable_override_button, bind, read, update, checked.
  destruct (negb _); [|reflexivity].
  destruct (st_button clicked _); [|reflexivity].
  cbn [andb]. unfold seed_level, int_of.
  destruct (is_valid_level _) eqn:Hv; [|reflexivity].
  apply is_valid_level_py_int in Hv as (n & -> & _). reflexivity.
Qed.

Lemma render_question_eq
    (clicked : option button) (dim : string) (q : Question) (ss : session) :
  render_question clicked dim q ss =
  let keys := build_question_keys dim (concept q) in
  let s := widgets_ready ss keys in
  match render_override_controls clicked keys dim (concept q) (auto_scored s keys) with
  | Ret _ s2 =>
      match render_enable_override_button clicked keys dim (concept q) s2 with
      | Ret _ s3 => Ret (final_value s s3 keys) s3
      | Rerun s3 => Rerun s3
      | Raise s3 => Raise s3
      end
  | Rerun s2 => Rerun s2
  | Raise s2 => Raise s2
  end.
Proof.
  unfold render_question.
  set (keys := build_question_keys dim (concept q)). cbv zeta.
  unfold bind at 1. unfold update at 1.
  unfold bind at 1. unfold read at 1.
  set (s1 := normalize_checkbox_state ss keys).
  unfold bind at 1.
  assert (Hre :
    (if is_valid_level (ss_get s1 (qkey keys))
        && negb (has_any_checkbox_selected s1 keys)
     then do n <- int_of (ss_get s1 (qkey keys));
          update (fun ss0 => rehydrate_checkboxes_from_level ss0 keys n)
     else ret tt) s1 = Ret tt (rehydrated s1 keys)).
  { unfold rehydrated.
    destruct (is_valid_level (ss_get s1 (qkey keys))) eqn:Hv; [|reflexivity].
    cbn [andb]. destruct (negb _); [|reflexivity].
    apply is_valid_level_py_int in Hv as (n & Hn & _).
    unfold bind, int_of. rewrite Hn. reflexivity. }
  rewrite Hre. clear Hre.
  do 5 (unfold bind at 1; rewrite st_checkbox_eq).
  unfold bind at 1. unfold read at 1.
  set (s0 := rehydrated s1 keys).
  change (registered (registered (registered (registered (registered s0
            (a_key keys)) (b_key keys)) (c_key keys)) (rt_key keys)) (none_key keys))
    with (widgets_ready ss keys).
  set (s := widgets_ready ss keys).
  assert (Hchk : forall k, checked s k = checked s0 k).
  { intros k. apply checked_foldl_registered. }
  rewrite !checked_registered, <- !Hchk.
  unfold bind at 1.
  assert (Hauto :
    (if negb (py_bool (ss_get_or s (override_key keys) (VBool false)))
     then match compute_level_from_checklist (checked s (none_key keys))
                  (checked s (a_key keys)) (checked s (b_key keys))
                  (checked s (c_key keys)) (checked s (rt_key keys)) with
          | Some auto_level => update <[qkey keys := VInt auto_level]>
          | None => update (delete (qkey keys))
          end
     else ret tt) s = Ret tt (auto_scored s keys)).
  { unfold auto_scored, selection_level, checked at 6.
    destruct (negb _); [|reflexivity].
    destruct (compute_level_from_checklist _ _ _ _ _); reflexivity. }
  rewrite Hauto. clear Hauto.
  unfold bind at 1.
  destruct (render_override_controls clicked keys dim (concept q) _)
    as [[] s2|s2|s2]; [|reflexivity|reflexivity].
  unfold bind at 1.
  destruct (render_enable_override_button clicked keys dim (concept q) s2)
    as [[] s3|s3|s3]; [|reflexivity|reflexivity].
  unfold bind at 1. unfold read at 1.
  unfold final_value, any_selected, contradictory, checked at 1.
  destruct (is_valid_level (ss_get s3 (qkey keys))) eqn:Hv; [|reflexivity].
  cbn [andb]. destruct (_ || _); [|reflexivity].
  apply is_valid_level_py_int in Hv as (n & Hn & _).
  unfold bind, int_of. rewrite Hn. reflexivity.
Qed.

(** *** What the checkbox phase leaves behind *)

Lemma registered_lookup (ss : session) (k' k : string) :
  registered ss k' !! k =
  if bool_decide (k = k') then Some (default (VBool false) (ss !! k)) else ss !! k.
Proof.
  unfold registered. case_bool_decide as Hk.
  - subst k'. destruct (ss !! k) eqn:E; simpl; [exact E|].
    by rewrite lookup_insert_eq.
  - destruct (ss !! k'); [reflexivity|].
    rewrite lookup_insert_ne by congruence. reflexivity.
Qed.

Lemma registered_fold_lookup (ks : list string) (ss : session) (k : string) :
  foldl registered ss ks !! k =
  if bool_decide (k ∈ ks) then Some (default (VBool false) (ss !! k)) else ss !! k.
Proof.
  revert ss. induction ks as [|k' ks IH]; intros ss; cbn [foldl].
  - rewrite bool_decide_eq_false_2; [reflexivity | apply not_elem_of_nil].
  - rewrite IH, registered_lookup.
    destruct (decide (k = k')) as [->|Hne].
    + rewrite (bool_decide_eq_true_2 (k' = k')) by reflexivity.
      rewrite (bool_decide_eq_true_2 (k' ∈ k' :: ks)) by apply list_elem_of_here.
      case_bool_decide; reflexivity.
    + rewrite (bool_decide_eq_false_2 (k = k')) by assumption.
      rewrite (bool_decide_ext (k ∈ k' :: ks) (k ∈ ks)); [reflexivity|].
      rewrite elem_of_cons. tauto.
Qed.

Lemma rehydrate_lookup_other
    (ss : session) (keys : QuestionKeys) (level : Z) (k : string) :
  k ∉ checkbox_keys keys ->
  rehydrate_checkboxes_from_level ss keys level !! k = ss !! k.
Proof.
  unfold checkbox_keys. rewrite !not_elem_of_cons.
  intros (Ha & Hb & Hc & Hrt & Hnone & _).
  unfold rehydrate_checkboxes_from_level. cbv zeta.
  repeat first
    [ rewrite lookup_insert_ne by congruence
    | match goal with |- context [if ?b then _ else _] => destruct b end ];
    reflexivity.
Qed.

(** Rehydration leaves a boolean under each of the five keys. *)
Lemma rehydrate_lookup_box
    (ss : session) (keys : QuestionKeys) (level : Z) (k : string) :
  k ∈ checkbox_keys keys ->
  exists b, rehydrate_checkboxes_from_level ss keys level !! k = Some (VBool b).
Proof.
  intros Hk. unfold rehydrate_checkboxes_from_level. cbv zeta.
  assert (Hbase : exists b,
    <[none_key keys := VBool false]> (<[rt_key keys := VBool false]>
      (<[c_key keys := VBool false]> (<[b_key keys := VBool false]>
        (<[a_key keys := VBool false]> ss)))) !! k = Some (VBool b)).
  { unfold checkbox_keys in Hk. rewrite !elem_of_cons, elem_of_nil in Hk.
    rewrite !lookup_insert.
    repeat case_decide; eauto. exfalso. intuition congruence. }
  set (s0 := <[none_key keys := VBool false]> _) in *. clearbody s0.
  assert (Hstep : forall (s : session) k' b',
             (exists b, s !! k = Some (VBool b)) ->
             exists b, <[k' := VBool b']> s !! k = Some (VBool b)).
  { intros s k' b' [b Hb]. rewrite lookup_insert. case_decide; eauto. }
  destruct (level =? 1)%Z; [by apply Hstep|].
  repeat match goal with
         | |- context [if ?c then _ else _] => destruct c
         end; repeat apply Hstep; exact Hbase.
Qed.

Lemma rehydrated_lookup_other (ss : session) (keys : QuestionKeys) (k : string) :
  k ∉ checkbox_keys keys -> rehydrated ss keys !! k = ss !! k.
Proof.
  intros Hk. unfold rehydrated.
  destruct (_ && _); [|reflexivity].
  destruct (py_int _); [|reflexivity].
  by apply rehydrate_lookup_other.
Qed.

Lemma widgets_ready_lookup_other (ss : session) (keys : QuestionKeys) (k : string) :
  k ∉ checkbox_keys keys -> widgets_ready ss keys !! k = ss !! k.
Proof.
  intros Hk. unfold widgets_ready, normalize_checkbox_state.
  rewrite registered_fold_lookup, bool_decide_eq_false_2 by assumption.
  rewrite rehydrated_lookup_other by assumption.
  rewrite normalize_fold_lookup, bool_decide_eq_false_2 by assumption.
  reflexivity.
Qed.

(** After the checkbox phase each of the five keys holds the boolean its
    widget shows. *)
Lemma widgets_ready_lookup_box (ss : session) (keys : QuestionKeys) (k : string) :
  k ∈ checkbox_keys keys ->
  widgets_ready ss keys !! k = Some (VBool (checked (widgets_ready ss keys) k)).
Proof.
  intros Hk.
  assert (Hb : exists b, widgets_ready ss keys !! k = Some (VBool b)).
  { unfold widgets_ready.
    rewrite registered_fold_lookup, bool_decide_eq_true_2 by assumption.
    set (s1 := normalize_checkbox_state ss keys).
    assert (Hn : s1 !! k = (fun v => VBool (to_bool v)) <$> ss !! k).
    { unfold s1, normalize_checkbox_state.
      rewrite normalize_fold_lookup, bool_decide_eq_true_2 by assumption.
      reflexivity. }
    unfold rehydrated.
    destruct (_ && _).
    - destruct (py_int _) as [n|].
      + destruct (rehydrate_lookup_box s1 keys n k Hk) as [b ->]. simpl. eauto.
      + rewrite Hn. destruct (ss !! k); simpl; eauto.
    - rewrite Hn. destruct (ss !! k); simpl; eauto. }
  destruct Hb as [b Hb]. rewrite Hb. unfold checked, ss_get_or. rewrite Hb.
  reflexivity.
Qed.

(** *** One question under distinct keys *)

Lemma keys_distinct (keys : QuestionKeys) :
  NoDup (keys_to_clear keys) ->
  qkey keys <> override_key keys /\
  qkey keys <> override_level_key keys /\
  override_key keys <> override_level_key keys /\
  (qkey keys ∉ checkbox_keys keys) /\
  (override_key keys ∉ checkbox_keys keys) /\
  (override_level_key keys ∉ checkbox_keys keys).
Proof.
  unfold keys_to_clear, checkbox_keys.
  rewrite !NoDup_cons, !not_elem_of_cons. intuition congruence.
Qed.

Lemma checked_lookup (s1 s2 : session) (k : string) :
  s1 !! k = s2 !! k -> checked s1 k = checked s2 k.
Proof. unfold checked, ss_get_or. by intros ->. Qed.

Lemma ss_get_lookup (s1 s2 : session) (k : string) :
  s1 !! k = s2 !! k -> ss_get s1 k = ss_get s2 k.
Proof. unfold ss_get. by intros ->. Qed.

Lemma selection_level_some (ss : session) (keys : QuestionKeys) (l : Z) :
  selection_level ss keys = Some l ->
  any_selected ss keys && negb (contradictory ss keys) = true.
Proof.
  unfold selection_level, compute_level_from_checklist, any_selected, contradictory.
  destruct (checked ss (none_key keys)), (checked ss (a_key keys)),
    (checked ss (b_key keys)), (checked ss (c_key keys)),
    (checked ss (rt_key keys)); simpl; congruence.
Qed.

Lemma render_question_cases
    (clicked : option button) (dim : string) (q : Question) (ss : session) :
  let keys := build_question_keys dim (concept q) in
  NoDup (keys_to_clear keys) ->
  let s := widgets_ready ss keys in
  render_question clicked dim q ss =
  if checked ss (override_key keys) then
    let l := override_level ss keys in
    let s2 := <[qkey keys := VInt l]> (<[override_level_key keys := VInt l]> s) in
    if st_button clicked (DisableOverrideBtn dim (concept q))
    then Rerun (delete (override_level_key keys)
                  (<[override_key keys := VBool false]> s2))
    else Ret (Some l) s2
  else
    let s1 := match selection_level s keys with
              | Some auto_level => <[qkey keys := VInt auto_level]> s
              | None => delete (qkey keys) s
              end in
    if st_button clicked (EnableOverrideBtn dim (concept q))
    then Rerun (<[override_level_key keys := VInt (seed_level (ss_get s1 (qkey keys)))]>
                  (<[override_key keys := VBool true]> s1))
    else Ret (match selection_level s keys with
              | Some auto_level =>
                  if in_valid_levels auto_level then Some auto_level else None
              | None => None
              end) s1.
Proof.
  intros keys Hnd s.
  destruct (keys_distinct keys Hnd) as (Hqo & Hql & Hol & Hqc & Hoc & Hlc).
  rewrite render_question_eq. fold keys. cbv zeta. fold s.
  assert (Hov : checked s (override_key keys) = checked ss (override_key keys)).
  { apply checked_lookup. by apply widgets_ready_lookup_other. }
  assert (Hlv : override_level s keys = override_level ss keys).
  { unfold override_level. unfold s.
    by rewrite widgets_ready_lookup_other. }
  unfold auto_scored. rewrite Hov.
  destruct (checked ss (override_key keys)) eqn:Hover; cbn [negb].
  - rewrite render_override_controls_eq, Hov. cbn [negb]. cbv zeta.
    rewrite Hlv. set (l := override_level ss keys).
    destruct (st_button clicked (DisableOverrideBtn dim (concept q))); [reflexivity|].
    set (s2 := <[qkey keys := VInt l]> _).
    assert (Hov2 : checked s2 (override_key keys) = true).
    { rewrite <- Hov. apply checked_lookup. unfold s2.
      rewrite !lookup_insert_ne by congruence. reflexivity. }
    rewrite render_enable_override_button_eq, Hov2. cbn [negb andb].
    f_equal. unfold final_value. rewrite Hov2.
    assert (Hq : ss_get s2 (qkey keys) = VInt l).
    { unfold ss_get, s2. by rewrite lookup_insert_eq. }
    rewrite Hq. cbn [orb py_int].
    replace (is_valid_level (VInt l)) with true; [reflexivity|].
    symmetry. apply is_valid_level_int. apply to_level_range_or_default.
  - set (s1 := match selection_level s keys with
               | Some auto_level => <[qkey keys := VInt auto_level]> s
               | None => delete (qkey keys) s
               end).
    assert (Hov1 : checked s1 (override_key keys) = false).
    { rewrite <- Hov. apply checked_lookup. unfold s1.
      destruct (selection_level s keys).
      - by rewrite lookup_insert_ne.
      - by rewrite lookup_delete_ne. }
    rewrite render_override_controls_eq, Hov1. cbn [negb].
    rewrite render_enable_override_button_eq, Hov1. cbn [negb andb]. cbv zeta.
    destruct (st_button clicked (EnableOverrideBtn dim (concept q))).
    + rewrite (ss_get_lookup (<[override_key keys := VBool true]> s1) s1
                 (qkey keys)); [reflexivity|].
      by rewrite lookup_insert_ne.
    + f_equal. unfold final_value. rewrite Hov1. cbn [orb].
      unfold s1. destruct (selection_level s keys) as [l|] eqn:Hsel.
      * unfold ss_get. rewrite lookup_insert_eq.
        change (default VNone (Some (VInt l))) with (VInt l).
        rewrite (selection_level_some _ _ _ Hsel), andb_true_r.
        unfold is_valid_level. cbn [isinstance_int py_int andb].
        destruct (in_valid_levels l); reflexivity.
      * unfold ss_get. rewrite lookup_delete_eq. reflexivity.
Qed.

(** *** Frame, and which runs end *)

Lemma auto_scored_lookup_other (ss : session) (keys : QuestionKeys) (k : string) :
  k <> qkey keys -> auto_scored ss keys !! k = ss !! k.
Proof.
  intros Hk. unfold auto_scored.
  destruct (negb _); [|reflexivity].
  destruct (selection_level ss keys).
  - by rewrite lookup_insert_ne.
  - by rewrite lookup_delete_ne.
Qed.

(** A question writes under its own eight keys only. *)
Lemma render_question_frame
    (clicked : option button) (dim : string) (q : Question) (ss : session)
    (k : string) :
  k ∉ keys_to_clear (build_question_keys dim (concept q)) ->
  final_session (render_question clicked dim q ss) !! k = ss !! k.
Proof.
  set (keys := build_question_keys dim (concept q)).
  unfold keys_to_clear. rewrite !not_elem_of_cons.
  intros (Hq & Ho & Hl & Ha & Hb & Hc & Hrt & Hn & _).
  assert (Hbox : k ∉ checkbox_keys keys).
  { unfold checkbox_keys. rewrite !not_elem_of_cons, elem_of_nil. tauto. }
  rewrite render_question_eq. fold keys. cbv zeta.
  set (s := widgets_ready ss keys).
  assert (Hs1 : auto_scored s keys !! k = ss !! k).
  { rewrite auto_scored_lookup_other by assumption.
    by apply widgets_ready_lookup_other. }
  rewrite render_override_controls_eq.
  destruct (negb (checked (auto_scored s keys) (override_key keys))).
  - rewrite render_enable_override_button_eq.
    destruct (_ && _); cbn [final_session]; [|exact Hs1].
    rewrite !lookup_insert_ne by congruence. exact Hs1.
  - cbv zeta. destruct (st_button clicked _); cbn [final_session].
    + rewrite lookup_delete_ne by congruence.
      rewrite !lookup_insert_ne by congruence. exact Hs1.
    + rewrite render_enable_override_button_eq.
      destruct (_ && _); cbn [final_session];
        rewrite !lookup_insert_ne by congruence; exact Hs1.
Qed.

(** No exception escapes a question, whatever the session holds. *)
Lemma render_question_no_raise
    (clicked : option button) (dim : string) (q : Question) (ss s' : session) :
  render_question clicked dim q ss <> Raise s'.
Proof.
  rewrite render_question_eq. cbv zeta.
  rewrite render_override_controls_eq.
  destruct (negb _).
  - rewrite render_enable_override_button_eq. by destruct (_ && _).
  - cbv zeta. destruct (st_button clicked _); [discriminate|].
    rewrite render_enable_override_button_eq. by destruct (_ && _).
Qed.

(** A question whose two buttons were not clicked runs to its end. *)
Lemma render_question_returns
    (clicked : option button) (dim : string) (q : Question) (ss : session) :
  clicked <> Some (EnableOverrideBtn dim (concept q)) ->
  clicked <> Some (DisableOverrideBtn dim (concept q)) ->
  returns (render_question clicked dim q ss).
Proof.
  intros He Hd. unfold returns.
  rewrite render_question_eq. cbv zeta.
  rewrite render_override_controls_eq.
  unfold st_button. rewrite (bool_decide_eq_false_2 _ Hd).
  destruct (negb _); cbv zeta;
    rewrite render_enable_override_button_eq;
    unfold st_button; rewrite (bool_decide_eq_false_2 _ He), andb_false_r;
    eauto.
Qed.

(** *** What a completed question leaves behind *)

Lemma agree_on_sym (ks : list string) (s1 s2 : session) :
  agree_on ks s1 s2 -> agree_on ks s2 s1.
Proof. intros Ha k Hk. symmetry. by apply Ha. Qed.

Lemma agree_on_trans (ks : list string) (s1 s2 s3 : session) :
  agree_on ks s1 s2 -> agree_on ks s2 s3 -> agree_on ks s1 s3.
Proof. intros H1 H2 k Hk. rewrite H1 by assumption. by apply H2. Qed.

Lemma checkbox_keys_to_clear (keys : QuestionKeys) (k : string) :
  k ∈ checkbox_keys keys -> k ∈ keys_to_clear keys.
Proof.
  unfold checkbox_keys, keys_to_clear. rewrite !elem_of_cons. tauto.
Qed.

Lemma selection_agree (keys : QuestionKeys) (s1 s2 : session) :
  agree_on (checkbox_keys keys) s1 s2 ->
  selection_level s1 keys = selection_level s2 keys /\
  any_selected s1 keys = any_selected s2 keys /\
  contradictory s1 keys = contradictory s2 keys.
Proof.
  intros Ha.
  assert (Hc : forall k, k ∈ checkbox_keys keys -> checked s1 k = checked s2 k).
  { intros k Hk. apply checked_lookup. by apply Ha. }
  unfold selection_level, any_selected, contradictory, checkbox_keys in *.
  rewrite (Hc (a_key keys)), (Hc (b_key keys)), (Hc (c_key keys)),
    (Hc (rt_key keys)), (Hc (none_key keys));
    rewrite ?elem_of_cons; auto 10.
Qed.

Lemma agree_on_boxes (keys : QuestionKeys) (s1 s2 : session) :
  agree_on (keys_to_clear keys) s1 s2 -> agree_on (checkbox_keys keys) s1 s2.
Proof. intros Ha k Hk. apply Ha. by apply checkbox_keys_to_clear. Qed.

Lemma keys_to_clear_own (keys : QuestionKeys) :
  qkey keys ∈ keys_to_clear keys /\
  override_key keys ∈ keys_to_clear keys /\
  override_level_key keys ∈ keys_to_clear keys.
Proof. unfold keys_to_clear. rewrite !elem_of_cons. tauto. Qed.

Lemma final_value_agree (keys : QuestionKeys) (s1 s2 : session) :
  agree_on (keys_to_clear keys) s1 s2 ->
  final_value s1 s1 keys = final_value s2 s2 keys.
Proof.
  intros Ha.
  destruct (keys_to_clear_own keys) as (Hq & Ho & _).
  destruct (selection_agree keys s1 s2 (agree_on_boxes _ _ _ Ha)) as (_ & Hany & Hcon).
  unfold final_value.
  rewrite (ss_get_lookup s1 s2 (qkey keys)) by (by apply Ha).
  rewrite (checked_lookup s1 s2 (override_key keys)) by (by apply Ha).
  by rewrite Hany, Hcon.
Qed.

Lemma settled_agree (keys : QuestionKeys) (s1 s2 : session) :
  agree_on (keys_to_clear keys) s1 s2 -> settled s1 keys -> settled s2 keys.
Proof.
  intros Ha [Hbox Hlev].
  destruct (keys_to_clear_own keys) as (Hq & Ho & Hl).
  destruct (selection_agree keys s1 s2 (agree_on_boxes _ _ _ Ha)) as (Hsel & _ & _).
  split.
  - intros k Hk.
    rewrite <- (Ha k) by (by apply checkbox_keys_to_clear).
    rewrite <- (checked_lookup s1 s2 k) by (by apply Ha, checkbox_keys_to_clear).
    by apply Hbox.
  - rewrite <- (checked_lookup s1 s2 (override_key keys)) by (by apply Ha).
    rewrite <- (Ha _ Hq), <- (Ha _ Hl), <- Hsel. exact Hlev.
Qed.

Lemma render_question_ret
    (clicked : option button) (dim : string) (q : Question)
    (ss s' : session) (v : option Z) :
  let keys := build_question_keys dim (concept q) in
  NoDup (keys_to_clear keys) ->
  render_question clicked dim q ss = Ret v s' ->
  v = final_value s' s' keys /\
  settled s' keys /\
  s' !! override_key keys = ss !! override_key keys /\
  (checked ss (override_key keys) = true ->
     s' !! qkey keys = Some (VInt (override_level ss keys))) /\
  (checked ss (override_key keys) = false ->
     s' !! override_level_key keys = ss !! override_level_key keys) /\
  agree_on (checkbox_keys keys) s' (widgets_ready ss keys).
Proof.
  intros keys Hnd.
  destruct (keys_distinct keys Hnd) as (Hqo & Hql & Hol & Hqc & Hoc & Hlc).
  rewrite (render_question_cases clicked dim q ss Hnd). fold keys. cbv zeta.
  set (s := widgets_ready ss keys).
  assert (Hboxes : forall s1 : session,
             agree_on (checkbox_keys keys) s s1 ->
             forall k, k ∈ checkbox_keys keys ->
                       s1 !! k = Some (VBool (checked s1 k))).
  { intros s1 Ha k Hk.
    rewrite <- (Ha k Hk), <- (checked_lookup s s1 k (Ha k Hk)).
    by apply widgets_ready_lookup_box. }
  assert (Hovs : s !! override_key keys = ss !! override_key keys)
    by (by apply widgets_ready_lookup_other).
  destruct (checked ss (override_key keys)) eqn:Hover.
  - destruct (st_button clicked _); [discriminate|].
    set (l := override_level ss keys).
    intros Heq.
    assert (Hv : v = Some l) by congruence.
    assert (Hs' : s' = <[qkey keys := VInt l]>
                         (<[override_level_key keys := VInt l]> s)) by congruence.
    clear Heq. subst v s'.
    assert (Hov2 : <[qkey keys := VInt l]>
                     (<[override_level_key keys := VInt l]> s) !! override_key keys
                   = ss !! override_key keys).
    { by rewrite !lookup_insert_ne by congruence. }
    assert (Hchk : checked (<[qkey keys := VInt l]>
                     (<[override_level_key keys := VInt l]> s)) (override_key keys)
                   = true).
    { rewrite <- Hover. by apply checked_lookup. }
    assert (Hl : 1 <= l <= 5) by apply to_level_range_or_default.
    assert (Hlev : is_valid_level (VInt l) = true) by (by apply is_valid_level_int).
    assert (Hagree : agree_on (checkbox_keys keys) s
                       (<[qkey keys := VInt l]>
                          (<[override_level_key keys := VInt l]> s))).
    { intros k Hk.
      rewrite !lookup_insert_ne; [reflexivity| |]; intros Heq; subst k; tauto. }
    split; [|split; [split|split; [|split; [|split]]]].
    + unfold final_value, ss_get. rewrite lookup_insert_eq, Hchk.
      change (default VNone (Some (VInt l))) with (VInt l).
      rewrite Hlev. reflexivity.
    + by apply Hboxes.
    + rewrite Hchk. exists l. split; [exact Hl|].
      rewrite lookup_insert_eq, lookup_insert_ne, lookup_insert_eq by congruence.
      split; reflexivity.
    + exact Hov2.
    + intros _. by rewrite lookup_insert_eq.
    + discriminate.
    + by apply agree_on_sym.
  - destruct (st_button clicked _); [discriminate|].
    set (s1 := match selection_level s keys with
               | Some auto_level => <[qkey keys := VInt auto_level]> s
               | None => delete (qkey keys) s
               end).
    intros Heq.
    assert (Hv : v = match selection_level s keys with
                     | Some auto_level =>
                         if in_valid_levels auto_level then Some auto_level else None
                     | None => None
                     end) by congruence.
    assert (Hs' : s' = s1) by congruence.
    clear Heq. subst v s'.
    assert (Hother : forall k, k <> qkey keys -> s1 !! k = s !! k).
    { intros k Hk. unfold s1. destruct (selection_level s keys).
      - by rewrite lookup_insert_ne.
      - by rewrite lookup_delete_ne. }
    assert (Hagree : agree_on (checkbox_keys keys) s s1).
    { intros k Hk. symmetry. apply Hother. intros Heq. subst k. tauto. }
    destruct (selection_agree keys s s1 Hagree) as (Hsel & Hany & Hcon).
    assert (Hchk : checked s1 (override_key keys) = false).
    { rewrite <- Hover. apply checked_lookup.
      rewrite Hother by congruence. exact Hovs. }
    assert (Hq : s1 !! qkey keys = VInt <$> selection_level s keys).
    { unfold s1. destruct (selection_level s keys); simpl.
      - by rewrite lookup_insert_eq.
      - by rewrite lookup_delete_eq. }
    split; [|split; [split|split; [|split; [|split]]]].
    + unfold final_value, ss_get. rewrite Hchk, Hq, <- Hany, <- Hcon.
      cbn [orb].
      destruct (selection_level s keys) as [l|] eqn:Hs; [|reflexivity].
      change (default VNone (VInt <$> Some l)) with (VInt l).
      rewrite (selection_level_some _ _ _ Hs), andb_true_r.
      unfold is_valid_level. cbn [isinstance_int py_int andb].
      destruct (in_valid_levels l); reflexivity.
    + by apply Hboxes.
    + rewrite Hchk, <- Hsel. exact Hq.
    + rewrite Hother by congruence. exact Hovs.
    + discriminate.
    + intros _. rewrite Hother by congruence.
      by apply widgets_ready_lookup_other.
    + by apply agree_on_sym.
Qed.

(** ** The loops over the bank *)

Lemma dict_set_fresh {V : Type} (k : string) (v : V) (d : list (string * V)) :
  k ∉ map fst d -> dict_set k v d = (d ++ [(k, v)])%list.
Proof.
  induction d as [|[k' v'] d IH]; intros Hk; cbn [dict_set]; [reflexivity|].
  cbn [map fst] in Hk. rewrite not_elem_of_cons in Hk.
  destruct Hk as [Hne Hk].
  rewrite bool_decide_eq_false_2 by assumption.
  cbn [app]. f_equal. by apply IH.
Qed.

Lemma agree_on_insert (ks : list string) (s1 s2 : session) (k : string) (v : value) :
  agree_on ks s1 s2 -> agree_on ks (<[k := v]> s1) (<[k := v]> s2).
Proof.
  intros Ha k' Hk'. rewrite !lookup_insert. case_decide; [reflexivity|by apply Ha].
Qed.

Lemma rehydrate_agree (ks : list string) (s1 s2 : session)
    (keys : QuestionKeys) (level : Z) :
  agree_on ks s1 s2 ->
  agree_on ks (rehydrate_checkboxes_from_level s1 keys level)
              (rehydrate_checkboxes_from_level s2 keys level).
Proof.
  intros Ha. unfold rehydrate_checkboxes_from_level. cbv zeta.
  repeat match goal with
         | |- context [if ?c then _ else _] => destruct c
         end; repeat apply agree_on_insert; exact Ha.
Qed.

Lemma has_any_agree (keys : QuestionKeys) (s1 s2 : session) :
  agree_on (checkbox_keys keys) s1 s2 ->
  has_any_checkbox_selected s1 keys = has_any_checkbox_selected s2 keys.
Proof.
  intros Ha. unfold has_any_checkbox_selected.
  assert (Hext : forall l : list string,
             (forall k, k ∈ l -> s1 !! k = s2 !! k) ->
             existsb (fun k => to_bool (ss_get s1 k)) l
             = existsb (fun k => to_bool (ss_get s2 k)) l).
  { induction l as [|k l IH]; intros Hl; [reflexivity|].
    cbn [existsb]. rewrite (ss_get_lookup s1 s2 k) by apply Hl, list_elem_of_here.
    rewrite IH; [reflexivity|]. intros k' Hk'. by apply Hl, list_elem_of_further. }
  by apply Hext.
Qed.

(** The checkbox phase of a question reads its own keys only. *)
Lemma widgets_ready_agree (keys : QuestionKeys) (s1 s2 : session) :
  agree_on (keys_to_clear keys) s1 s2 ->
  agree_on (keys_to_clear keys) (widgets_ready s1 keys) (widgets_ready s2 keys).
Proof.
  intros Ha.
  destruct (keys_to_clear_own keys) as (Hq & _).
  set (n1 := normalize_checkbox_state s1 keys).
  set (n2 := normalize_checkbox_state s2 keys).
  assert (Hn : agree_on (keys_to_clear keys) n1 n2).
  { intros k Hk. unfold n1, n2, normalize_checkbox_state.
    rewrite !normalize_fold_lookup, (Ha k Hk). reflexivity. }
  assert (Hr : agree_on (keys_to_clear keys) (rehydrated n1 keys) (rehydrated n2 keys)).
  { unfold rehydrated.
    rewrite (ss_get_lookup n1 n2 (qkey keys)) by (by apply Hn).
    rewrite (has_any_agree keys n1 n2) by (by apply agree_on_boxes).
    destruct (_ && _); [|exact Hn].
    destruct (py_int _); [|exact Hn].
    by apply rehydrate_agree. }
  intros k Hk. unfold widgets_ready. fold n1 n2.
  rewrite !registered_fold_lookup, (Hr k Hk). reflexivity.
Qed.

Lemma question_done_input (s1 s2 ss' : session) (dim : string) (q : Question) :
  agree_on (keys_to_clear (build_question_keys dim (concept q))) s1 s2 ->
  question_done s1 ss' dim q -> question_done s2 ss' dim q.
Proof.
  set (keys := build_question_keys dim (concept q)).
  intros Ha (Hset & Hov & Hq & Hl & Hbox).
  destruct (keys_to_clear_own keys) as (_ & Ho & Hlk).
  unfold question_done. fold keys.
  rewrite <- (checked_lookup s1 s2 (override_key keys)) by (by apply Ha).
  rewrite <- (Ha _ Ho), <- (Ha _ Hlk).
  replace (override_level s2 keys) with (override_level s1 keys)
    by (unfold override_level; by rewrite (Ha _ Hlk)).
  repeat (split; [assumption|]).
  apply (agree_on_trans _ _ _ _ Hbox).
  apply agree_on_boxes. by apply widgets_ready_agree.
Qed.

Lemma question_done_output (ss s1 s2 : session) (dim : string) (q : Question) :
  agree_on (keys_to_clear (build_question_keys dim (concept q))) s1 s2 ->
  question_done ss s1 dim q -> question_done ss s2 dim q.
Proof.
  set (keys := build_question_keys dim (concept q)).
  intros Ha (Hset & Hov & Hq & Hl & Hbox).
  destruct (keys_to_clear_own keys) as (Hqk & Ho & Hlk).
  unfold question_done. fold keys.
  rewrite <- (Ha _ Ho), <- (Ha _ Hqk), <- (Ha _ Hlk).
  split; [by apply (settled_agree keys s1 s2)|].
  repeat (split; [assumption|]).
  apply (agree_on_trans _ _ s1); [|exact Hbox].
  apply agree_on_sym, agree_on_boxes, Ha.
Qed.

Lemma answers_agree (s1 s2 : session) (dim : string) (qs : list Question) :
  (forall q, q ∈ qs ->
             agree_on (keys_to_clear (build_question_keys dim (concept q))) s1 s2) ->
  answers s1 dim qs = answers s2 dim qs.
Proof.
  intros Ha. unfold answers. apply map_ext_in.
  intros q Hq. f_equal. apply final_value_agree, Ha.
  by apply list_elem_of_In.
Qed.

Lemma questions_keys_elem (dim : string) (qs : list Question) (q : Question)
    (k : string) :
  q ∈ qs -> k ∈ keys_to_clear (build_question_keys dim (concept q)) ->
  k ∈ questions_keys dim qs.
Proof.
  intros Hq Hk. unfold questions_keys.
  apply list_elem_of_In, in_flat_map. exists q.
  split; by apply list_elem_of_In.
Qed.

(** Questions whose key lists are disjoint have different concepts. *)
Lemma disjoint_keys_concept (dim : string) (q q' : Question) (ks : list string) :
  (forall k, k ∈ keys_to_clear (build_question_keys dim (concept q)) -> k ∉ ks) ->
  (forall k, k ∈ keys_to_clear (build_question_keys dim (concept q')) -> k ∈ ks) ->
  concept q' <> concept q.
Proof.
  intros Hout Hin Heq.
  destruct (keys_to_clear_own (build_question_keys dim (concept q))) as (Hq & _).
  apply (Hout _ Hq). apply Hin. rewrite Heq. exact Hq.
Qed.

Lemma render_questions_ret (clicked : option button) (dim : string)
    (qs : list Question) :
  forall (acc : list (string * option Z)) (ss : session)
         (resp : list (string * option Z)) (ss' : session),
    NoDup (questions_keys dim qs) ->
    (forall q, q ∈ qs -> concept q ∉ map fst acc) ->
    render_questions clicked dim qs acc ss = Ret resp ss' ->
    resp = (acc ++ answers ss' dim qs)%list /\
    (forall k, k ∉ questions_keys dim qs -> ss' !! k = ss !! k) /\
    (forall q, q ∈ qs -> question_done ss ss' dim q).
Proof.
  induction qs as [|q qs IH]; intros acc ss resp ss' Hnd Hfresh Hrun.
  - cbn in Hrun. injection Hrun as <- <-.
    split; [by rewrite app_nil_r|]. split; [done|].
    intros q Hq. by apply elem_of_nil in Hq.
  - cbn [render_questions] in Hrun. unfold bind in Hrun.
    destruct (render_question clicked dim q ss) as [v s1|s1|s1] eqn:Hq;
      try discriminate.
    set (keys := build_question_keys dim (concept q)) in *.
    cbn [questions_keys flat_map] in Hnd. fold (questions_keys dim qs) in Hnd.
    apply NoDup_app in Hnd as (Hndq & Hdisj & Hndqs).
    fold keys in Hndq, Hdisj.
    assert (Hconc : forall q', q' ∈ qs -> concept q' <> concept q).
    { intros q' Hq'. apply (disjoint_keys_concept dim q q' (questions_keys dim qs)).
      - exact Hdisj.
      - intros k Hk. by apply (questions_keys_elem dim qs q'). }
    assert (Hqfresh : concept q ∉ map fst acc) by apply Hfresh, list_elem_of_here.
    rewrite (dict_set_fresh _ _ _ Hqfresh) in Hrun.
    apply IH in Hrun as (Hresp & Hframe & Hdone); [|exact Hndqs|].
    2:{ intros q' Hq'. rewrite map_app, elem_of_app. cbn [map fst].
        rewrite list_elem_of_singleton. intros [Hin|Heq].
        - revert Hin. apply Hfresh. by apply list_elem_of_further.
        - by apply (Hconc q'). }
    pose proof (render_question_ret clicked dim q ss s1 v Hndq Hq)
      as (Hv & Hset & Hov & Hql & Hl & Hbox).
    fold keys in Hv, Hset, Hov, Hql, Hl, Hbox.
    assert (Hag : agree_on (keys_to_clear keys) s1 ss').
    { intros k Hk. symmetry. apply Hframe. by apply Hdisj. }
    assert (Hfr1 : forall k, k ∉ keys_to_clear keys -> s1 !! k = ss !! k).
    { intros k Hk.
      pose proof (render_question_frame clicked dim q ss k Hk) as Hf.
      by rewrite Hq in Hf. }
    split; [|split].
    + rewrite Hresp, <- app_assoc. cbn [app answers map]. fold keys.
      do 3 f_equal. rewrite Hv. by apply final_value_agree.
    + intros k Hk. cbn [questions_keys flat_map] in Hk.
      fold (questions_keys dim qs) in Hk. fold keys in Hk.
      rewrite elem_of_app in Hk.
      rewrite Hframe by tauto. apply Hfr1. tauto.
    + intros q' Hq'. apply elem_of_cons in Hq' as [->|Hq'].
      * apply (question_done_output ss s1 ss'); [exact Hag|].
        unfold question_done. fold keys. done.
      * apply (question_done_input s1 ss); [|by apply Hdone].
        intros k Hk. apply Hfr1. intros Hk'.
        apply (Hdisj k Hk'). by apply (questions_keys_elem dim qs q').
Qed.

Lemma bank_questions_cons (dim : string) (qs : list Question) (bank : QuestionBank) :
  bank_questions ((dim, qs) :: bank)
  = (map (fun q => (dim, q)) qs ++ bank_questions bank)%list.
Proof. reflexivity. Qed.

Lemma bank_keys_cons (dim : string) (qs : list Question) (bank : QuestionBank) :
  bank_keys ((dim, qs) :: bank) = (questions_keys dim qs ++ bank_keys bank)%list.
Proof.
  unfold bank_keys. rewrite bank_questions_cons, flat_map_app. f_equal.
  unfold questions_keys. induction qs as [|q qs IH]; [reflexivity|].
  cbn [map flat_map]. by rewrite IH.
Qed.

Lemma bank_questions_elem_cons
    (dim d : string) (qs : list Question) (bank : QuestionBank) (q : Question) :
  (d, q) ∈ bank_questions ((dim, qs) :: bank) <->
  (d = dim /\ q ∈ qs) \/ (d, q) ∈ bank_questions bank.
Proof.
  rewrite bank_questions_cons, elem_of_app.
  rewrite list_elem_of_In, in_map_iff.
  split; intros [Hl|Hr]; auto.
  - destruct Hl as (q' & [= <- <-] & Hin). left. split; [done|].
    by apply list_elem_of_In.
  - destruct Hl as [-> Hq]. left. exists q. split; [done|].
    by apply list_elem_of_In.
Qed.

Lemma bank_keys_elem (bank : QuestionBank) (dim : string) (q : Question) (k : string) :
  (dim, q) ∈ bank_questions bank ->
  k ∈ keys_to_clear (build_question_keys dim (concept q)) ->
  k ∈ bank_keys bank.
Proof.
  intros Hq Hk. unfold bank_keys.
  apply list_elem_of_In, in_flat_map. exists (dim, q).
  split; by apply list_elem_of_In.
Qed.

Lemma render_dimensions_ret (clicked : option button) (bank : QuestionBank) :
  forall (acc : Responses) (ss : session) (resp : Responses) (ss' : session),
    NoDup (bank_keys bank) ->
    NoDup (map fst bank) ->
    (forall dim, dim ∈ map fst bank -> dim ∉ map fst acc) ->
    render_dimensions clicked bank acc ss = Ret resp ss' ->
    resp = (acc ++ responses_of ss' bank)%list /\
    (forall k, k ∉ bank_keys bank -> ss' !! k = ss !! k) /\
    (forall dim q, (dim, q) ∈ bank_questions bank -> question_done ss ss' dim q).
Proof.
  induction bank as [|[dim qs] bank IH]; intros acc ss resp ss' Hnd Hdims Hfresh Hrun.
  - cbn in Hrun. injection Hrun as <- <-.
    split; [by rewrite app_nil_r|]. split; [done|].
    intros dim q Hq. by apply elem_of_nil in Hq.
  - cbn [render_dimensions] in Hrun. unfold bind in Hrun.
    destruct (render_questions clicked dim qs [] ss) as [cs s1|s1|s1] eqn:Hqs;
      try discriminate.
    rewrite bank_keys_cons in Hnd.
    apply NoDup_app in Hnd as (Hndqs & Hdisj & Hndb).
    cbn [map fst] in Hdims. apply NoDup_cons in Hdims as [Hdim Hdims].
    apply render_questions_ret in Hqs as (Hcs & Hfr1 & Hdone1);
      [|exact Hndqs|intros q _; apply not_elem_of_nil].
    assert (Hdfresh : dim ∉ map fst acc).
    { apply Hfresh. cbn [map fst]. apply list_elem_of_here. }
    rewrite (dict_set_fresh _ _ _ Hdfresh) in Hrun.
    apply IH in Hrun as (Hresp & Hframe & Hdone); [|exact Hndb|exact Hdims|].
    2:{ intros d Hd. rewrite map_app, elem_of_app. cbn [map fst].
        rewrite list_elem_of_singleton. intros [Hin|Heq].
        - revert Hin. apply Hfresh. cbn [map fst]. by apply list_elem_of_further.
        - subst d. by apply Hdim. }
    assert (Hag : forall q, q ∈ qs ->
               agree_on (keys_to_clear (build_question_keys dim (concept q))) s1 ss').
    { intros q Hq k Hk. symmetry. apply Hframe, Hdisj.
      by apply (questions_keys_elem dim qs q). }
    split; [|split].
    + rewrite Hresp, <- app_assoc. cbn [app responses_of map].
      do 3 f_equal. rewrite Hcs. cbn [app]. by apply answers_agree.
    + intros k Hk. rewrite bank_keys_cons, elem_of_app in Hk.
      rewrite Hframe by tauto. apply Hfr1. tauto.
    + intros d q Hq. apply bank_questions_elem_cons in Hq as [[-> Hq]|Hq].
      * apply (question_done_output ss s1 ss'); [by apply Hag|by apply Hdone1].
      * apply (question_done_input s1 ss); [|by apply Hdone].
        intros k Hk. apply Hfr1. intros Hk'.
        apply (Hdisj k Hk'). by apply (bank_keys_elem bank d q).
Qed.

(** ** The page *)

Lemma bank_wf_spec (bank : QuestionBank) :
  bank_wf bank = true ->
  NoDup (map fst bank) /\
  ("force_questionnaire_reload" ∉ bank_keys bank) /\
  NoDup (bank_keys bank).
Proof.
  unfold bank_wf. rewrite andb_true_iff, !bool_decide_eq_true, NoDup_cons. tauto.
Qed.

Lemma render_questionnaire_page_eq
    (clicked : option button) (bank : QuestionBank) (ss : session) :
  render_questionnaire_page clicked bank ss =
  let ss0 := delete "force_questionnaire_reload" ss in
  if checked ss "force_questionnaire_reload" then Rerun ss0
  else if st_button clicked ResetAllBtn then Rerun (reset_all_state ss0 bank)
  else
    match render_dimensions clicked bank [] ss0 with
    | Ret responses ss1 =>
        Ret {| company_name := ss_get_or ss0 "company_name_loaded" (VStr []);
               responses_raw := responses;
               missing := missing_of responses;
               progress_completed := count_completed_answers ss0 bank;
               progress_total := total_questions bank |} ss1
    | Rerun ss1 => Rerun ss1
    | Raise ss1 => Raise ss1
    end.
Proof.
  unfold render_questionnaire_page, bind, read, update, checked. cbv zeta.
  destruct (py_bool _); [reflexivity|].
  destruct (st_button clicked ResetAllBtn); reflexivity.
Qed.

(** A completed run of the page: its outputs are projections of the session
    it ends on, it wrote under the keys of the bank only, and every question
    has been passed over. *)
Lemma render_questionnaire_page_ret
    (clicked : option button) (bank : QuestionBank) (ss ss' : session)
    (out : PageOut) :
  bank_wf bank = true ->
  render_questionnaire_page clicked bank ss = Ret out ss' ->
  let ss0 := delete "force_questionnaire_reload" ss in
  responses_raw out = responses_of ss' bank /\
  missing out = missing_of (responses_of ss' bank) /\
  progress_completed out = count_completed_answers ss0 bank /\
  progress_total out = total_questions bank /\
  (forall k, k ∉ bank_keys bank -> ss' !! k = ss0 !! k) /\
  (forall dim q, (dim, q) ∈ bank_questions bank -> question_done ss ss' dim q).
Proof.
  intros Hwf Hrun ss0.
  destruct (bank_wf_spec bank Hwf) as (Hdims & Hforce & Hnd).
  rewrite render_questionnaire_page_eq in Hrun. cbv zeta in Hrun. fold ss0 in Hrun.
  destruct (checked ss "force_questionnaire_reload"); [discriminate|].
  destruct (st_button clicked ResetAllBtn); [discriminate|].
  destruct (render_dimensions clicked bank [] ss0) as [resp s1|s1|s1] eqn:Hdim;
    try discriminate.
  injection Hrun as <- <-.
  apply render_dimensions_ret in Hdim as (Hresp & Hframe & Hdone);
    [|exact Hnd|exact Hdims|intros d _; apply not_elem_of_nil].
  cbn [app] in Hresp. subst resp. cbn.
  repeat (split; [reflexivity|]). split; [exact Hframe|].
  intros dim q Hq. apply (question_done_input ss0 ss); [|by apply Hdone].
  intros k Hk. unfold ss0. apply lookup_delete_ne.
  intros <-. apply Hforce. by apply (bank_keys_elem bank dim q).
Qed.

Lemma dict_get_answers (ss : session) (dim : string) (qs : list Question)
    (q : Question) :
  q ∈ qs ->
  dict_get (concept q) (answers ss dim qs)
  = Some (final_value ss ss (build_question_keys dim (concept q))).
Proof.
  induction qs as [|q' qs IH]; intros Hq; [by apply elem_of_nil in Hq|].
  cbn [answers map dict_get]. case_bool_decide as Heq.
  - by rewrite Heq.
  - apply elem_of_cons in Hq as [->|Hq]; [congruence|]. by apply IH.
Qed.

Lemma lookup_response_of (ss : session) (bank : QuestionBank)
    (dim : string) (q : Question) :
  NoDup (map fst bank) ->
  (dim, q) ∈ bank_questions bank ->
  lookup_response (responses_of ss bank) dim (concept q)
  = Some (final_value ss ss (build_question_keys dim (concept q))).
Proof.
  unfold lookup_response.
  induction bank as [|[d qs] bank IH]; intros Hnd Hq; [by apply elem_of_nil in Hq|].
  cbn [map fst] in Hnd. apply NoDup_cons in Hnd as [Hd Hnd].
  cbn [responses_of map dict_get].
  apply bank_questions_elem_cons in Hq as [[-> Hq]|Hq].
  - rewrite bool_decide_eq_true_2 by reflexivity. cbn.
    by apply dict_get_answers.
  - rewrite bool_decide_eq_false_2; [by apply IH|].
    intros ->. apply Hd.
    unfold bank_questions in Hq.
    apply list_elem_of_In, in_flat_map in Hq as ([d' qs'] & Hin & Hq).
    apply in_map_iff in Hq as (q' & [= -> ->] & _).
    apply list_elem_of_In, in_map_iff. by exists (d, qs').
Qed.

(** Under [settled], a valid stored level is always backed by the override
    or by a valid selection, so the final value is the stored level. *)
Lemma settled_final_value (ss : session) (keys : QuestionKeys) (l : Z) :
  settled ss keys ->
  final_value ss ss keys = Some l <->
  ss !! qkey keys = Some (VInt l) /\ 1 <= l <= 5 /\
  (checked ss (override_key keys) = true \/
   (any_selected ss keys = true /\ contradictory ss keys = false)).
Proof.
  intros [_ Hlev]. unfold final_value, ss_get. split.
  - destruct (checked ss (override_key keys)) eqn:Hov.
    + destruct Hlev as (l0 & Hl0 & Hq & _). rewrite Hq.
      change (default VNone (Some (VInt l0))) with (VInt l0).
      replace (is_valid_level (VInt l0)) with true
        by (symmetry; by apply is_valid_level_int).
      cbn. intros [= ->]. auto.
    + rewrite Hlev. destruct (selection_level ss keys) as [l0|] eqn:Hsel.
      * change (default VNone (VInt <$> Some l0)) with (VInt l0).
        destruct (is_valid_level (VInt l0)) eqn:Hv; [|discriminate].
        apply is_valid_level_int in Hv.
        pose proof (selection_level_some _ _ _ Hsel) as Hsome.
        rewrite Hsome. cbn. intros [= ->].
        apply andb_true_iff in Hsome as [Hany Hcon].
        apply negb_true_iff in Hcon. auto.
      * cbn. discriminate.
  - intros (Hq & Hl & Hcond). rewrite Hq.
    change (default VNone (Some (VInt l))) with (VInt l).
    replace (is_valid_level (VInt l)) with true
      by (symmetry; by apply is_valid_level_int).
    replace (checked ss (override_key keys)
             || any_selected ss keys && negb (contradictory ss keys)) with true;
      [reflexivity|].
    symmetry. destruct Hcond as [->|[-> ->]]; [reflexivity|apply orb_true_r].
Qed.

(** C2. After a completed evaluation of the page over a well-formed bank,
    the value of a question in the returned response set is the level [l]
    exactly when the level key holds the integer [l], [l] is in 1..5, and the
    override flag is set or the stored selection has an item selected and is
    not contradictory; when no level meets this the value is absent. The
    selection is the five booleans the session holds after the run. *)
Theorem final_value_present_iff
    (clicked : option button) (bank : QuestionBank) (ss ss' : session)
    (out : PageOut) (dim : string) (q : Question) :
  bank_wf bank = true ->
  (dim, q) ∈ bank_questions bank ->
  render_questionnaire_page clicked bank ss = Ret out ss' ->
  let keys := build_question_keys dim (concept q) in
  exists val : option Z,
    lookup_response (responses_raw out) dim (concept q) = Some val /\
    (forall k, k ∈ checkbox_keys keys -> ss' !! k = Some (VBool (checked ss' k))) /\
    (forall l : Z,
        val = Some l <->
        ss' !! qkey keys = Some (VInt l) /\ 1 <= l <= 5 /\
        (checked ss' (override_key keys) = true \/
         (any_selected ss' keys = true /\ contradictory ss' keys = false))) /\
    (val = None <->
     ~ exists l : Z,
         ss' !! qkey keys = Some (VInt l) /\ 1 <= l <= 5 /\
         (checked ss' (override_key keys) = true \/
          (any_selected ss' keys = true /\ contradictory ss' keys = false))).
Proof.
  intros Hwf Hq Hrun keys.
  destruct (bank_wf_spec bank Hwf) as (Hdims & _ & _).
  destruct (render_questionnaire_page_ret clicked bank ss ss' out Hwf Hrun)
    as (Hresp & _ & _ & _ & _ & Hdone).
  destruct (Hdone dim q Hq) as (Hset & _). fold keys in Hset.
  exists (final_value ss' ss' keys).
  split; [rewrite Hresp; by apply lookup_response_of|].
  split; [apply Hset|].
  split; [intros l; by apply settled_final_value|].
  split.
  - intros Hnone (l & Hl). apply (settled_final_value ss' keys l Hset) in Hl.
    congruence.
  - intros Hno. destruct (final_value ss' ss' keys) as [l|] eqn:Hv; [|reflexivity].
    exfalso. apply Hno. exists l. by apply settled_final_value.
Qed.

(** ** Completion count and missing list *)

Lemma settled_valid_iff (ss : session) (keys : QuestionKeys) :
  settled ss keys ->
  is_valid_level (ss_get ss (qkey keys)) = true <-> is_Some (final_value ss ss keys).
Proof.
  intros Hset. split.
  - intros Hv. pose proof Hset as [Hbox Hlev].
    destruct (checked ss (override_key keys)) eqn:Hov.
    + destruct Hlev as (l & Hl & Hq & _). exists l.
      apply settled_final_value; [exact Hset|]. auto.
    + unfold ss_get in Hv. rewrite Hlev in Hv.
      destruct (selection_level ss keys) as [l|] eqn:Hsel; [|discriminate].
      change (default VNone (VInt <$> Some l)) with (VInt l) in Hv.
      apply is_valid_level_int in Hv.
      pose proof (selection_level_some _ _ _ Hsel) as Hsome.
      apply andb_true_iff in Hsome as [Hany Hcon]. apply negb_true_iff in Hcon.
      exists l. apply settled_final_value; [exact Hset|].
      rewrite Hlev. auto.
  - intros [l Hl]. apply settled_final_value in Hl as (Hq & Hl & _); [|exact Hset].
    unfold ss_get. rewrite Hq. by apply is_valid_level_int.
Qed.

Lemma count_missing_questions (ss : session) (dim : string) (qs : list Question) :
  (forall q, q ∈ qs -> settled ss (build_question_keys dim (concept q))) ->
  forall n : nat,
    (foldl (fun completed q =>
              if is_valid_level (ss_get ss (get_qkey dim (concept q)))
              then S completed else completed) n qs
     + length (flat_map (fun '(concept, val) =>
                           match val with
                           | None => [missing_label dim concept]
                           | Some _ => []
                           end) (answers ss dim qs))
     = n + length qs)%nat.
Proof.
  induction qs as [|q qs IH]; intros Hset n; cbn [foldl answers map flat_map length].
  - lia.
  - fold (answers ss dim qs). rewrite length_app.
    specialize (IH (fun q' Hq' => Hset q' (list_elem_of_further _ _ _ Hq'))).
    pose proof (settled_valid_iff ss (build_question_keys dim (concept q))
                  (Hset q (list_elem_of_here _ _))) as Hiff.
    change (qkey (build_question_keys dim (concept q)))
      with (get_qkey dim (concept q)) in Hiff.
    pose proof (IH n) as IH0. pose proof (IH (S n)) as IH1.
    destruct (is_valid_level (ss_get ss (get_qkey dim (concept q)))) eqn:Hv.
    + destruct (proj1 Hiff eq_refl) as [l ->]. cbn [length]. lia.
    + destruct (final_value ss ss (build_question_keys dim (concept q))) as [l|] eqn:Hf.
      * assert (false = true) by (apply Hiff; eauto). discriminate.
      * cbn [length]. lia.
Qed.

Lemma count_missing_bank (ss : session) (bank : QuestionBank) :
  (forall dim q, (dim, q) ∈ bank_questions bank ->
                 settled ss (build_question_keys dim (concept q))) ->
  forall n : nat,
    (foldl (fun completed '(dim, questions) =>
              foldl (fun completed q =>
                       if is_valid_level (ss_get ss (get_qkey dim (concept q)))
                       then S completed else completed)
                    completed questions) n bank
     + length (missing_of (responses_of ss bank))
     = n + total_questions bank)%nat.
Proof.
  induction bank as [|[dim qs] bank IH]; intros Hset n.
  - cbn. lia.
  - cbn [foldl responses_of map missing_of flat_map total_questions foldr].
    fold (responses_of ss bank). fold (missing_of (responses_of ss bank)).
    fold (total_questions bank).
    rewrite length_app.
    assert (Hqs : forall q, q ∈ qs -> settled ss (build_question_keys dim (concept q))).
    { intros q Hq. apply Hset. apply bank_questions_elem_cons. auto. }
    assert (Hb : forall d q, (d, q) ∈ bank_questions bank ->
                             settled ss (build_question_keys d (concept q))).
    { intros d q Hq. apply Hset. apply bank_questions_elem_cons. auto. }
    pose proof (count_missing_questions ss dim qs Hqs n) as Hin.
    pose proof (IH Hb (foldl (fun completed q =>
              if is_valid_level (ss_get ss (get_qkey dim (concept q)))
              then S completed else completed) n qs)) as Hout.
    lia.
Qed.

(** C3, as the code has it. After a completed evaluation over a well-formed
    bank, the number of completed answers counted on the session the
    evaluation ends on, plus the length of the missing list, is the number
    of questions. The count the evaluation itself displays is taken before
    the questions are reconciled. *)
Theorem completed_plus_missing_is_total
    (clicked : option button) (bank : QuestionBank) (ss ss' : session)
    (out : PageOut) :
  bank_wf bank = true ->
  render_questionnaire_page clicked bank ss = Ret out ss' ->
  (count_completed_answers ss' bank + length (missing out)
   = total_questions bank)%nat /\
  progress_total out = total_questions bank /\
  progress_completed out
  = count_completed_answers (delete "force_questionnaire_reload" ss) bank.
Proof.
  intros Hwf Hrun.
  destruct (render_questionnaire_page_ret clicked bank ss ss' out Hwf Hrun)
    as (_ & Hmiss & Hcompl & Htot & _ & Hdone).
  split; [|split; assumption].
  rewrite Hmiss. unfold count_completed_answers.
  rewrite (count_missing_bank ss' bank); [lia|].
  intros dim q Hq. apply (Hdone dim q Hq).
Qed.

(** ** Runs that end early, and runs that cannot *)

Lemma render_questions_frame (clicked : option button) (dim : string)
    (qs : list Question) :
  forall (acc : list (string * option Z)) (ss : session) (k : string),
    k ∉ questions_keys dim qs ->
    final_session (render_questions clicked dim qs acc ss) !! k = ss !! k.
Proof.
  induction qs as [|q qs IH]; intros acc ss k Hk; [reflexivity|].
  cbn [questions_keys flat_map] in Hk. fold (questions_keys dim qs) in Hk.
  rewrite elem_of_app in Hk.
  pose proof (render_question_frame clicked dim q ss k) as Hq.
  cbn [render_questions]. unfold bind.
  destruct (render_question clicked dim q ss) as [v s1|s1|s1];
    cbn [final_session] in *; try (apply Hq; tauto).
  rewrite IH by tauto. apply Hq. tauto.
Qed.

Lemma render_dimensions_frame (clicked : option button) (bank : QuestionBank) :
  forall (acc : Responses) (ss : session) (k : string),
    k ∉ bank_keys bank ->
    final_session (render_dimensions clicked bank acc ss) !! k = ss !! k.
Proof.
  induction bank as [|[dim qs] bank IH]; intros acc ss k Hk; [reflexivity|].
  rewrite bank_keys_cons, elem_of_app in Hk.
  pose proof (render_questions_frame clicked dim qs [] ss k) as Hq.
  cbn [render_dimensions]. unfold bind.
  destruct (render_questions clicked dim qs [] ss) as [v s1|s1|s1];
    cbn [final_session] in *; try (apply Hq; tauto).
  rewrite IH by tauto. apply Hq. tauto.
Qed.

Lemma render_questions_returns (clicked : option button) (dim : string)
    (qs : list Question) :
  forall (acc : list (string * option Z)) (ss : session),
    (forall q, q ∈ qs -> ~ targets clicked dim (concept q)) ->
    returns (render_questions clicked dim qs acc ss).
Proof.
  induction qs as [|q qs IH]; intros acc ss Hno.
  - cbn. unfold returns, ret. eauto.
  - cbn [render_questions]. unfold bind.
    destruct (render_question_returns clicked dim q ss) as (v & s1 & ->).
    + intros Heq. apply (Hno q); [apply list_elem_of_here|by left].
    + intros Heq. apply (Hno q); [apply list_elem_of_here|by right].
    + apply IH. intros q' Hq'. apply Hno. by apply list_elem_of_further.
Qed.

Lemma render_dimensions_returns (clicked : option button) (bank : QuestionBank) :
  forall (acc : Responses) (ss : session),
    (forall dim q, (dim, q) ∈ bank_questions bank -> ~ targets clicked dim (concept q)) ->
    returns (render_dimensions clicked bank acc ss).
Proof.
  induction bank as [|[dim qs] bank IH]; intros acc ss Hno.
  - cbn. unfold returns, ret. eauto.
  - cbn [render_dimensions]. unfold bind.
    destruct (render_questions_returns clicked dim qs [] ss) as (cs & s1 & ->).
    + intros q Hq. apply Hno. apply bank_questions_elem_cons. auto.
    + apply IH. intros d q Hq. apply Hno. apply bank_questions_elem_cons. auto.
Qed.

(** An evaluation in which neither the reset button nor a button of a
    question was clicked, and no reload is pending, runs to its end. *)
Lemma render_questionnaire_page_returns
    (clicked : option button) (bank : QuestionBank) (ss : session) :
  checked ss "force_questionnaire_reload" = false ->
  clicked <> Some ResetAllBtn ->
  (forall dim q, (dim, q) ∈ bank_questions bank -> ~ targets clicked dim (concept q)) ->
  returns (render_questionnaire_page clicked bank ss).
Proof.
  intros Hforce Hreset Hno.
  rewrite render_questionnaire_page_eq. cbv zeta. rewrite Hforce.
  unfold st_button. rewrite (bool_decide_eq_false_2 _ Hreset).
  destruct (render_dimensions_returns clicked bank []
              (delete "force_questionnaire_reload" ss) Hno) as (r & s1 & ->).
  unfold returns. eauto.
Qed.

Lemma not_targets_none (dim concept : string) : ~ targets None dim concept.
Proof. intros [|]; discriminate. Qed.

(** The run reaches the question whose button was clicked on a session that
    still holds, under that question's keys, what the run started from; if
    the question ends the run there, the page ends there. *)
Lemma render_questions_at (clicked : option button) (dim : string)
    (qs : list Question) (q : Question) :
  forall (acc : list (string * option Z)) (ss : session),
    q ∈ qs ->
    NoDup (questions_keys dim qs) ->
    targets clicked dim (concept q) ->
    exists s_pre,
      agree_on (keys_to_clear (build_question_keys dim (concept q))) ss s_pre /\
      (forall k, k ∉ questions_keys dim qs -> s_pre !! k = ss !! k) /\
      forall s_r, render_question clicked dim q s_pre = Rerun s_r ->
                  render_questions clicked dim qs acc ss = Rerun s_r.
Proof.
  induction qs as [|q0 qs IH]; intros acc ss Hq Hnd Hclick;
    [by apply elem_of_nil in Hq|].
  cbn [questions_keys flat_map] in Hnd. fold (questions_keys dim qs) in Hnd.
  apply NoDup_app in Hnd as (Hnd0 & Hdisj & Hndqs).
  apply elem_of_cons in Hq as [->|Hq].
  - exists ss. split; [done|]. split; [done|].
    intros s_r Hr. cbn [render_questions]. unfold bind. by rewrite Hr.
  - assert (Hconc : concept q <> concept q0).
    { apply (disjoint_keys_concept dim q0 q (questions_keys dim qs)).
      - exact Hdisj.
      - intros k Hk. by apply (questions_keys_elem dim qs q). }
    destruct (render_question_returns clicked dim q0 ss) as (v & s1 & Hq0).
    { destruct Hclick as [->| ->]; congruence. }
    { destruct Hclick as [->| ->]; congruence. }
    assert (Hfr : forall k, k ∉ keys_to_clear (build_question_keys dim (concept q0)) ->
                            s1 !! k = ss !! k).
    { intros k Hk.
      pose proof (render_question_frame clicked dim q0 ss k Hk) as Hf.
      by rewrite Hq0 in Hf. }
    destruct (IH (dict_set (concept q0) v acc) s1 Hq Hndqs Hclick)
      as (s_pre & Hag & Hframe & Hrun).
    exists s_pre. split; [|split].
    + apply (agree_on_trans _ _ s1); [|exact Hag].
      intros k Hk. symmetry. apply Hfr. intros Hk'.
      apply (Hdisj k Hk'). by apply (questions_keys_elem dim qs q).
    + intros k Hk. cbn [questions_keys flat_map] in Hk.
      fold (questions_keys dim qs) in Hk. rewrite elem_of_app in Hk.
      rewrite Hframe by tauto. apply Hfr. tauto.
    + intros s_r Hr. cbn [render_questions]. unfold bind. rewrite Hq0.
      by apply Hrun.
Qed.

Lemma render_dimensions_at (clicked : option button) (bank : QuestionBank)
    (dim : string) (q : Question) :
  forall (acc : Responses) (ss : session),
    (dim, q) ∈ bank_questions bank ->
    NoDup (bank_keys bank) ->
    targets clicked dim (concept q) ->
    exists s_pre,
      agree_on (keys_to_clear (build_question_keys dim (concept q))) ss s_pre /\
      (forall k, k ∉ bank_keys bank -> s_pre !! k = ss !! k) /\
      forall s_r, render_question clicked dim q s_pre = Rerun s_r ->
                  render_dimensions clicked bank acc ss = Rerun s_r.
Proof.
  induction bank as [|[d qs] bank IH]; intros acc ss Hq Hnd Hclick;
    [by apply elem_of_nil in Hq|].
  rewrite bank_keys_cons in Hnd.
  apply NoDup_app in Hnd as (Hndqs & Hdisj & Hndb).
  apply bank_questions_elem_cons in Hq as [[-> Hq]|Hq].
  - destruct (render_questions_at clicked d qs q [] ss Hq Hndqs Hclick)
      as (s_pre & Hag & Hframe & Hrun).
    exists s_pre. split; [exact Hag|]. split.
    + intros k Hk. rewrite bank_keys_cons, elem_of_app in Hk.
      apply Hframe. tauto.
    + intros s_r Hr. cbn [render_dimensions]. unfold bind.
      by rewrite (Hrun s_r Hr).
  - destruct (render_questions_returns clicked d qs [] ss) as (cs & s1 & Hqs).
    { intros q' Hq' Htarget.
      assert (Heq : d = dim /\ concept q' = concept q).
      { destruct Hclick as [->| ->], Htarget as [[=]|[=]]; auto. }
      destruct Heq as [-> Hc].
      destruct (keys_to_clear_own (build_question_keys dim (concept q'))) as (Hk & _).
      apply (Hdisj (qkey (build_question_keys dim (concept q')))).
      - by apply (questions_keys_elem dim qs q').
      - apply (bank_keys_elem bank dim q); [exact Hq|]. by rewrite <- Hc. }
    assert (Hfr : forall k, k ∉ questions_keys d qs -> s1 !! k = ss !! k).
    { intros k Hk.
      pose proof (render_questions_frame clicked d qs [] ss k Hk) as Hf.
      by rewrite Hqs in Hf. }
    destruct (IH (dict_set d cs acc) s1 Hq Hndb Hclick)
      as (s_pre & Hag & Hframe & Hrun).
    exists s_pre. split; [|split].
    + apply (agree_on_trans _ _ s1); [|exact Hag].
      intros k Hk. symmetry. apply Hfr. intros Hk'.
      apply (Hdisj k Hk'). by apply (bank_keys_elem bank dim q).
    + intros k Hk. rewrite bank_keys_cons, elem_of_app in Hk.
      rewrite Hframe by tauto. apply Hfr. tauto.
    + intros s_r Hr. cbn [render_dimensions]. unfold bind. rewrite Hqs.
      by apply Hrun.
Qed.

Lemma render_questionnaire_page_at
    (clicked : option button) (bank : QuestionBank) (dim : string)
    (q : Question) (ss : session) :
  bank_wf bank = true ->
  (dim, q) ∈ bank_questions bank ->
  checked ss "force_questionnaire_reload" = false ->
  targets clicked dim (concept q) ->
  exists s_pre,
    agree_on (keys_to_clear (build_question_keys dim (concept q))) ss s_pre /\
    (forall k, k ∉ bank_keys bank ->
               s_pre !! k = delete "force_questionnaire_reload" ss !! k) /\
    forall s_r, render_question clicked dim q s_pre = Rerun s_r ->
                render_questionnaire_page clicked bank ss = Rerun s_r.
Proof.
  intros Hwf Hq Hforce Hclick.
  destruct (bank_wf_spec bank Hwf) as (Hdims & Hnf & Hnd).
  destruct (render_dimensions_at clicked bank dim q []
              (delete "force_questionnaire_reload" ss) Hq Hnd Hclick)
    as (s_pre & Hag & Hframe & Hrun).
  exists s_pre. split; [|split; [exact Hframe|]].
  - apply (agree_on_trans _ _ (delete "force_questionnaire_reload" ss)); [|exact Hag].
    intros k Hk. symmetry. apply lookup_delete_ne.
    intros <-. apply Hnf. by apply (bank_keys_elem bank dim q).
  - intros s_r Hr. rewrite render_questionnaire_page_eq. cbv zeta.
    rewrite Hforce. unfold st_button.
    rewrite bool_decide_eq_false_2
      by (destruct Hclick as [->| ->]; discriminate).
    by rewrite (Hrun s_r Hr).
Qed.

(** ** The override controller *)

Lemma seed_level_cases (cur : value) :
  seed_level cur =
  match cur with
  | VInt l => if bool_decide (1 <= l <= 5) then l else LEVEL_DEFAULT
  | VBool true => 1
  | _ => LEVEL_DEFAULT
  end.
Proof.
  unfold seed_level.
  destruct cur as [|[]|l|f|s|s b i]; try reflexivity.
  unfold is_valid_level. cbn [isinstance_int py_int andb].
  rewrite in_valid_levels_range. by destruct (bool_decide _).
Qed.

(** C7. When the enable button fires in the automatic state, the run is
    abandoned for a rerun on a session in which the override flag is true
    and the override level is the stored level if that is a valid level
    (an integer in 1..5, or [True], which is 1), and 2 otherwise; nothing
    else changes. *)
Theorem enable_override_seeds_level
    (keys : QuestionKeys) (dim concept : string) (ss : session) :
  checked ss (override_key keys) = false ->
  qkey keys <> override_key keys ->
  override_key keys <> override_level_key keys ->
  exists ss',
    render_enable_override_button
      (Some (EnableOverrideBtn dim concept)) keys dim concept ss = Rerun ss' /\
    ss' !! override_key keys = Some (VBool true) /\
    (forall l, ss !! qkey keys = Some (VInt l) -> 1 <= l <= 5 ->
               ss' !! override_level_key keys = Some (VInt l)) /\
    (ss !! qkey keys = Some (VBool true) ->
     ss' !! override_level_key keys = Some (VInt 1)) /\
    (is_valid_level (ss_get ss (qkey keys)) = false ->
     ss' !! override_level_key keys = Some (VInt LEVEL_DEFAULT)) /\
    (forall k, k <> override_key keys -> k <> override_level_key keys ->
               ss' !! k = ss !! k).
Proof.
  intros Hauto Hqo Hol.
  rewrite render_enable_override_button_eq, Hauto.
  unfold st_button. rewrite bool_decide_eq_true_2 by reflexivity.
  cbn [negb andb]. cbv zeta.
  rewrite (ss_get_lookup (<[override_key keys := VBool true]> ss) ss (qkey keys))
    by (by rewrite lookup_insert_ne).
  eexists. split; [reflexivity|].
  split; [by rewrite lookup_insert_ne, lookup_insert_eq|].
  rewrite lookup_insert_eq.
  split; [|split; [|split]].
  - intros l Hq Hl. unfold ss_get. rewrite Hq, seed_level_cases.
    cbn [default]. unfold id. by rewrite bool_decide_eq_true_2.
  - intros Hq. unfold ss_get. by rewrite Hq.
  - intros Hv. unfold seed_level. by rewrite Hv.
  - intros k Hk1 Hk2. by rewrite !lookup_insert_ne.
Qed.

Lemma render_question_enable
    (dim : string) (q : Question) (ss : session) :
  let keys := build_question_keys dim (concept q) in
  NoDup (keys_to_clear keys) ->
  checked ss (override_key keys) = false ->
  exists s_r,
    render_question (Some (EnableOverrideBtn dim (concept q))) dim q ss = Rerun s_r /\
    s_r !! override_key keys = Some (VBool true) /\
    s_r !! override_level_key keys
    = Some (VInt (seed_level (ss_get s_r (qkey keys)))) /\
    s_r !! qkey keys = VInt <$> selection_level s_r keys /\
    agree_on (checkbox_keys keys) s_r (widgets_ready ss keys).
Proof.
  intros keys Hnd Hauto.
  destruct (keys_distinct keys Hnd) as (Hqo & Hql & Hol & Hqc & Hoc & Hlc).
  rewrite (render_question_cases _ dim q ss Hnd). fold keys. cbv zeta.
  rewrite Hauto. unfold st_button. rewrite bool_decide_eq_true_2 by reflexivity.
  set (s := widgets_ready ss keys).
  set (s1 := match selection_level s keys with
             | Some auto_level => <[qkey keys := VInt auto_level]> s
             | None => delete (qkey keys) s
             end).
  set (s_r := <[override_level_key keys := _]> _).
  assert (Hs1 : forall k, k <> qkey keys -> s1 !! k = s !! k).
  { intros k Hk. unfold s1. destruct (selection_level s keys).
    - by rewrite lookup_insert_ne.
    - by rewrite lookup_delete_ne. }
  assert (Hbox : agree_on (checkbox_keys keys) s_r s).
  { intros k Hk. unfold s_r.
    rewrite !lookup_insert_ne by (intros Heq; subst k; tauto).
    apply Hs1. intros Heq. subst k. tauto. }
  assert (Hq : s_r !! qkey keys = s1 !! qkey keys).
  { unfold s_r. by rewrite !lookup_insert_ne. }
  exists s_r. split; [reflexivity|].
  split; [unfold s_r; by rewrite lookup_insert_ne, lookup_insert_eq|].
  split.
  { unfold s_r at 1. rewrite lookup_insert_eq.
    by rewrite (ss_get_lookup s_r s1 (qkey keys) Hq). }
  split; [|exact Hbox].
  destruct (selection_agree keys s_r s Hbox) as (-> & _).
  rewrite Hq. unfold s1. destruct (selection_level s keys); cbn.
  - by rewrite lookup_insert_eq.
  - by rewrite lookup_delete_eq.
Qed.

Lemma render_question_disable
    (dim : string) (q : Question) (ss : session) :
  let keys := build_question_keys dim (concept q) in
  NoDup (keys_to_clear keys) ->
  checked ss (override_key keys) = true ->
  exists s_r,
    render_question (Some (DisableOverrideBtn dim (concept q))) dim q ss = Rerun s_r /\
    s_r !! override_key keys = Some (VBool false) /\
    s_r !! override_level_key keys = None /\
    s_r !! qkey keys = Some (VInt (override_level ss keys)) /\
    agree_on (checkbox_keys keys) s_r (widgets_ready ss keys).
Proof.
  intros keys Hnd Hover.
  destruct (keys_distinct keys Hnd) as (Hqo & Hql & Hol & Hqc & Hoc & Hlc).
  rewrite (render_question_cases _ dim q ss Hnd). fold keys. cbv zeta.
  rewrite Hover. unfold st_button. rewrite bool_decide_eq_true_2 by reflexivity.
  eexists. split; [reflexivity|].
  split; [by rewrite lookup_delete_ne, lookup_insert_eq|].
  split; [by rewrite lookup_delete_eq|].
  split.
  { rewrite lookup_delete_ne, lookup_insert_ne, lookup_insert_eq by congruence.
    reflexivity. }
  intros k Hk.
  rewrite lookup_delete_ne by (intros Heq; subst k; tauto).
  rewrite !lookup_insert_ne by (intros Heq; subst k; tauto).
  reflexivity.
Qed.

Lemma question_keys_nodup (bank : QuestionBank) (dim : string) (q : Question) :
  NoDup (bank_keys bank) ->
  (dim, q) ∈ bank_questions bank ->
  NoDup (keys_to_clear (build_question_keys dim (concept q))).
Proof.
  intros Hnd Hq. unfold bank_keys in Hnd.
  apply list_elem_of_split in Hq as (l1 & l2 & Heq). rewrite Heq in Hnd.
  rewrite flat_map_app in Hnd. cbn [flat_map] in Hnd.
  apply NoDup_app in Hnd as (_ & _ & Hnd).
  by apply NoDup_app in Hnd as (Hnd & _ & _).
Qed.

Lemma no_reload_pending (ss : session) :
  ss !! "force_questionnaire_reload" = None ->
  checked ss "force_questionnaire_reload" = false.
Proof. unfold checked, ss_get_or. by intros ->. Qed.

(** The enable button at the level of the page. *)
Lemma page_enable_override
    (bank : QuestionBank) (dim : string) (q : Question) (ss : session) :
  let keys := build_question_keys dim (concept q) in
  bank_wf bank = true ->
  (dim, q) ∈ bank_questions bank ->
  checked ss "force_questionnaire_reload" = false ->
  checked ss (override_key keys) = false ->
  exists s_r,
    render_questionnaire_page (Some (EnableOverrideBtn dim (concept q))) bank ss
    = Rerun s_r /\
    s_r !! override_key keys = Some (VBool true) /\
    s_r !! override_level_key keys
    = Some (VInt (seed_level (ss_get s_r (qkey keys)))) /\
    s_r !! qkey keys = VInt <$> selection_level s_r keys /\
    agree_on (checkbox_keys keys) s_r (widgets_ready ss keys) /\
    s_r !! "force_questionnaire_reload" = None.
Proof.
  intros keys Hwf Hq Hforce Hauto.
  destruct (bank_wf_spec bank Hwf) as (Hdims & Hnf & Hnd).
  pose proof (question_keys_nodup bank dim q Hnd Hq) as Hndq. fold keys in Hndq.
  destruct (keys_to_clear_own keys) as (_ & Ho & _).
  destruct (render_questionnaire_page_at (Some (EnableOverrideBtn dim (concept q)))
              bank dim q ss Hwf Hq Hforce) as (s_pre & Hag & Hframe & Hrun);
    [by left|]. fold keys in Hag.
  destruct (render_question_enable dim q s_pre Hndq) as (s_r & Hr & Hov & Hlv & Hqk & Hbox).
  { fold keys. rewrite <- Hauto. apply checked_lookup. symmetry. by apply Hag. }
  fold keys in Hov, Hlv, Hqk, Hbox.
  exists s_r. split; [by apply Hrun|].
  repeat (split; [assumption|]). split.
  - apply (agree_on_trans _ _ _ _ Hbox).
    apply agree_on_boxes, widgets_ready_agree, agree_on_sym, Hag.
  - pose proof (render_question_frame (Some (EnableOverrideBtn dim (concept q)))
                  dim q s_pre "force_questionnaire_reload") as Hfr.
    rewrite Hr in Hfr. cbn [final_session] in Hfr. rewrite Hfr.
    + rewrite Hframe by assumption. apply lookup_delete_eq.
    + intros Hin. apply Hnf. by apply (bank_keys_elem bank dim q).
Qed.

(** The disable button at the level of the page. *)
Lemma page_disable_override
    (bank : QuestionBank) (dim : string) (q : Question) (ss : session) :
  let keys := build_question_keys dim (concept q) in
  bank_wf bank = true ->
  (dim, q) ∈ bank_questions bank ->
  checked ss "force_questionnaire_reload" = false ->
  checked ss (override_key keys) = true ->
  exists s_r,
    render_questionnaire_page (Some (DisableOverrideBtn dim (concept q))) bank ss
    = Rerun s_r /\
    s_r !! override_key keys = Some (VBool false) /\
    s_r !! override_level_key keys = None /\
    s_r !! qkey keys = Some (VInt (override_level ss keys)) /\
    agree_on (checkbox_keys keys) s_r (widgets_ready ss keys) /\
    s_r !! "force_questionnaire_reload" = None.
Proof.
  intros keys Hwf Hq Hforce Hover.
  destruct (bank_wf_spec bank Hwf) as (Hdims & Hnf & Hnd).
  pose proof (question_keys_nodup bank dim q Hnd Hq) as Hndq. fold keys in Hndq.
  destruct (keys_to_clear_own keys) as (_ & Ho & Hl).
  destruct (render_questionnaire_page_at (Some (DisableOverrideBtn dim (concept q)))
              bank dim q ss Hwf Hq Hforce) as (s_pre & Hag & Hframe & Hrun);
    [by right|]. fold keys in Hag.
  destruct (render_question_disable dim q s_pre Hndq) as (s_r & Hr & Hov & Hlv & Hqk & Hbox).
  { fold keys. rewrite <- Hover. apply checked_lookup. symmetry. by apply Hag. }
  fold keys in Hov, Hlv, Hqk, Hbox.
  exists s_r. split; [by apply Hrun|].
  split; [assumption|]. split; [assumption|]. split; [|split].
  - rewrite Hqk. unfold override_level. by rewrite (Hag _ Hl).
  - apply (agree_on_trans _ _ _ _ Hbox).
    apply agree_on_boxes, widgets_ready_agree, agree_on_sym, Hag.
  - pose proof (render_question_frame (Some (DisableOverrideBtn dim (concept q)))
                  dim q s_pre "force_questionnaire_reload") as Hfr.
    rewrite Hr in Hfr. cbn [final_session] in Hfr. rewrite Hfr.
    + rewrite Hframe by assumption. apply lookup_delete_eq.
    + intros Hin. apply Hnf. by apply (bank_keys_elem bank dim q).
Qed.

(** An evaluation without a click, at the level of the page: it runs to its
    end, and relates the two sessions question by question. *)
Lemma page_plain_run (bank : QuestionBank) (ss : session) :
  bank_wf bank = true ->
  checked ss "force_questionnaire_reload" = false ->
  exists out ss',
    render_questionnaire_page None bank ss = Ret out ss' /\
    responses_raw out = responses_of ss' bank /\
    missing out = missing_of (responses_of ss' bank) /\
    progress_completed out
    = count_completed_answers (delete "force_questionnaire_reload" ss) bank /\
    ss' !! "force_questionnaire_reload" = None /\
    (forall dim q, (dim, q) ∈ bank_questions bank -> question_done ss ss' dim q).
Proof.
  intros Hwf Hforce.
  destruct (bank_wf_spec bank Hwf) as (Hdims & Hnf & Hnd).
  destruct (render_questionnaire_page_returns None bank ss Hforce) as (out & ss' & Hrun).
  { discriminate. }
  { intros dim q _. apply not_targets_none. }
  destruct (render_questionnaire_page_ret None bank ss ss' out Hwf Hrun)
    as (Hresp & Hmiss & Hcompl & _ & Hframe & Hdone).
  exists out, ss'. repeat (split; [assumption|]).
  split; [|exact Hdone].
  rewrite Hframe by assumption. apply lookup_delete_eq.
Qed.


(** ** Reset *)

Lemma pop_all_lookup (ks : list string) (ss : session) (k : string) :
  pop_all ks ss !! k = if bool_decide (k ∈ ks) then None else ss !! k.
Proof.
  unfold pop_all. revert ss.
  induction ks as [|k' ks IH]; intros ss; cbn [foldl].
  - rewrite bool_decide_eq_false_2; [reflexivity|apply not_elem_of_nil].
  - rewrite IH. destruct (decide (k = k')) as [->|Hne].
    + rewrite (bool_decide_eq_true_2 (k' ∈ k' :: ks)) by apply list_elem_of_here.
      rewrite lookup_delete_eq. by case_bool_decide.
    + rewrite lookup_delete_ne by congruence.
      rewrite (bool_decide_ext (k ∈ k' :: ks) (k ∈ ks)); [reflexivity|].
      rewrite elem_of_cons. tauto.
Qed.

Lemma pop_all_app (l1 l2 : list string) (ss : session) :
  pop_all (l1 ++ l2) ss = pop_all l2 (pop_all l1 ss).
Proof. unfold pop_all. apply foldl_app. Qed.

Lemma reset_questions_eq (dim : string) (qs : list Question) (ss : session) :
  foldl (fun ss q => pop_all (keys_to_clear (build_question_keys dim (concept q))) ss)
        ss qs
  = pop_all (questions_keys dim qs) ss.
Proof.
  revert ss. induction qs as [|q qs IH]; intros ss; [reflexivity|].
  cbn [foldl questions_keys flat_map]. fold (questions_keys dim qs).
  by rewrite IH, pop_all_app.
Qed.

Lemma reset_all_state_eq (ss : session) (bank : QuestionBank) :
  reset_all_state ss bank = pop_all (bank_keys bank ++ page_keys_to_clear) ss.
Proof.
  unfold reset_all_state. rewrite pop_all_app. f_equal.
  revert ss. induction bank as [|[dim qs] bank IH]; intros ss; [reflexivity|].
  cbn [foldl]. rewrite IH, reset_questions_eq, bank_keys_cons.
  by rewrite pop_all_app.
Qed.

Lemma count_completed_none (ss : session) (bank : QuestionBank) :
  (forall dim q, (dim, q) ∈ bank_questions bank ->
                 ss !! get_qkey dim (concept q) = None) ->
  count_completed_answers ss bank = 0%nat.
Proof.
  unfold count_completed_answers. generalize 0%nat.
  induction bank as [|[dim qs] bank IH]; intros n Hnone; [reflexivity|].
  cbn [foldl]. rewrite IH.
  - assert (Hqs : forall q, q ∈ qs -> ss !! get_qkey dim (concept q) = None).
    { intros q Hq. apply Hnone. apply bank_questions_elem_cons. auto. }
    clear -Hqs. revert n. induction qs as [|q qs IHq]; intros n; [reflexivity|].
    assert (Hv : is_valid_level (ss_get ss (get_qkey dim (concept q))) = false).
    { unfold ss_get. by rewrite (Hqs q) by apply list_elem_of_here. }
    cbn [foldl]. rewrite Hv.
    apply IHq. intros q' Hq'. apply Hqs. by apply list_elem_of_further.
  - intros d q Hq. apply Hnone. apply bank_questions_elem_cons. auto.
Qed.

(** On a session that holds nothing under a question's keys, the checkbox
    phase registers five unchecked boxes. *)
Lemma widgets_ready_blank (ss : session) (keys : QuestionKeys) (k : string) :
  (forall k', k' ∈ keys_to_clear keys -> ss !! k' = None) ->
  k ∈ checkbox_keys keys ->
  widgets_ready ss keys !! k = Some (VBool false).
Proof.
  intros Hblank Hk.
  destruct (keys_to_clear_own keys) as (Hq & _).
  assert (Hn : forall k', k' ∈ keys_to_clear keys ->
                          normalize_checkbox_state ss keys !! k' = None).
  { intros k' Hk'. unfold normalize_checkbox_state.
    rewrite normalize_fold_lookup, (Hblank k' Hk'). by case_bool_decide. }
  assert (Hre : rehydrated (normalize_checkbox_state ss keys) keys
                = normalize_checkbox_state ss keys).
  { unfold rehydrated, ss_get. by rewrite (Hn _ Hq). }
  unfold widgets_ready.
  rewrite registered_fold_lookup, bool_decide_eq_true_2 by assumption.
  by rewrite Hre, (Hn k (checkbox_keys_to_clear keys k Hk)).
Qed.

Lemma missing_of_all (ss : session) (bank : QuestionBank) :
  (forall dim q, (dim, q) ∈ bank_questions bank ->
                 final_value ss ss (build_question_keys dim (concept q)) = None) ->
  missing_of (responses_of ss bank)
  = map (fun '(dim, q) => missing_label dim (concept q)) (bank_questions bank).
Proof.
  induction bank as [|[dim qs] bank IH]; intros Hnone; [reflexivity|].
  cbn [responses_of map missing_of flat_map].
  fold (responses_of ss bank). fold (missing_of (responses_of ss bank)).
  rewrite bank_questions_cons, map_app, IH.
  2:{ intros d q Hq. apply Hnone. apply bank_questions_elem_cons. auto. }
  f_equal.
  assert (Hqs : forall q, q ∈ qs ->
                  final_value ss ss (build_question_keys dim (concept q)) = None).
  { intros q Hq. apply Hnone. apply bank_questions_elem_cons. auto. }
  clear -Hqs. induction qs as [|q qs IHq]; [reflexivity|].
  cbn [answers map flat_map]. rewrite (Hqs q) by apply list_elem_of_here.
  cbn [app]. f_equal. apply IHq.
  intros q' Hq'. apply Hqs. by apply list_elem_of_further.
Qed.

(** The evaluation of a session that holds nothing under the keys of the
    bank: nothing is completed and every question is missing, in bank
    order. *)
Lemma page_on_blank (bank : QuestionBank) (ss : session) :
  bank_wf bank = true ->
  checked ss "force_questionnaire_reload" = false ->
  (forall k, k ∈ bank_keys bank -> ss !! k = None) ->
  exists out ss',
    render_questionnaire_page None bank ss = Ret out ss' /\
    progress_completed out = 0%nat /\
    progress_total out = total_questions bank /\
    missing out
    = map (fun '(dim, q) => missing_label dim (concept q)) (bank_questions bank) /\
    count_completed_answers ss' bank = 0%nat.
Proof.
  intros Hwf Hforce Hblank.
  destruct (bank_wf_spec bank Hwf) as (Hdims & Hnf & Hnd).
  destruct (page_plain_run bank ss Hwf Hforce)
    as (out & ss' & Hrun & Hresp & Hmiss & Hcompl & _ & Hdone).
  destruct (render_questionnaire_page_ret None bank ss ss' out Hwf Hrun)
    as (_ & _ & _ & Htot & _ & _).
  assert (Hq' : forall dim q, (dim, q) ∈ bank_questions bank ->
             ss' !! get_qkey dim (concept q) = None /\
             final_value ss' ss' (build_question_keys dim (concept q)) = None).
  { intros dim q Hq.
    set (keys := build_question_keys dim (concept q)).
    destruct (keys_to_clear_own keys) as (Hqk & Ho & _).
    assert (Hb : forall k, k ∈ keys_to_clear keys -> ss !! k = None).
    { intros k Hk. apply Hblank. by apply (bank_keys_elem bank dim q). }
    destruct (Hdone dim q Hq) as ((_ & Hlev) & Hov & _ & _ & Hbox).
    fold keys in Hlev, Hov, Hbox.
    assert (Hc : checked ss' (override_key keys) = false).
    { unfold checked, ss_get_or. by rewrite Hov, (Hb _ Ho). }
    rewrite Hc in Hlev.
    assert (Hsel : selection_level ss' keys = None).
    { assert (Hch : forall k, k ∈ checkbox_keys keys -> checked ss' k = false).
      { intros k Hk. unfold checked, ss_get_or.
        by rewrite (Hbox k Hk), (widgets_ready_blank ss keys k Hb Hk). }
      unfold selection_level, checkbox_keys in *.
      rewrite (Hch (a_key keys)), (Hch (b_key keys)), (Hch (c_key keys)),
        (Hch (rt_key keys)), (Hch (none_key keys));
        rewrite ?elem_of_cons; auto 10. }
    rewrite Hsel in Hlev. change (VInt <$> None) with (@None value) in Hlev.
    split; [exact Hlev|].
    unfold final_value, ss_get. by rewrite Hlev. }
  exists out, ss'. split; [exact Hrun|].
  split.
  { rewrite Hcompl. apply count_completed_none. intros dim q Hq.
    rewrite lookup_delete_ne.
    - apply Hblank. apply (bank_keys_elem bank dim q _ Hq).
      apply list_elem_of_here.
    - intros Heq. apply Hnf. rewrite Heq.
      apply (bank_keys_elem bank dim q _ Hq). apply list_elem_of_here. }
  split; [exact Htot|]. split.
  - rewrite Hmiss. apply missing_of_all. intros dim q Hq. by apply Hq'.
  - apply count_completed_none. intros dim q Hq. by apply Hq'.
Qed.

(** C4, as the code has it. [reset_all_state] removes the eight keys of every
    question of the bank and the four page keys (company name, import
    signature, uploader, reload flag), and leaves every other key, the
    "results revealed" flag among them, as it was. After it no answer counts
    as completed; the click ends its run in a rerun, and that evaluation
    reports nothing completed and every question missing, in bank order. *)
Theorem reset_all_state_clears (bank : QuestionBank) (ss : session) :
  (forall dim q k,
      (dim, q) ∈ bank_questions bank ->
      k ∈ keys_to_clear (build_question_keys dim (concept q)) ->
      reset_all_state ss bank !! k = None) /\
  (forall k, k ∈ page_keys_to_clear -> reset_all_state ss bank !! k = None) /\
  (forall k, k ∉ bank_keys bank -> k ∉ page_keys_to_clear ->
             reset_all_state ss bank !! k = ss !! k) /\
  count_completed_answers (reset_all_state ss bank) bank = 0%nat /\
  (bank_wf bank = true ->
   checked ss "force_questionnaire_reload" = false ->
   let ss1 := reset_all_state (delete "force_questionnaire_reload" ss) bank in
   render_questionnaire_page (Some ResetAllBtn) bank ss = Rerun ss1 /\
   exists out ss2,
     render_questionnaire_page None bank ss1 = Ret out ss2 /\
     progress_completed out = 0%nat /\
     progress_total out = total_questions bank /\
     missing out
     = map (fun '(dim, q) => missing_label dim (concept q)) (bank_questions bank) /\
     count_completed_answers ss2 bank = 0%nat).
Proof.
  assert (Hclr : forall s k, k ∈ bank_keys bank ->
                             reset_all_state s bank !! k = None).
  { intros s k Hk. rewrite reset_all_state_eq, pop_all_lookup.
    rewrite bool_decide_eq_true_2; [reflexivity|].
    apply elem_of_app. by left. }
  assert (Hpage : forall s k, k ∈ page_keys_to_clear ->
                              reset_all_state s bank !! k = None).
  { intros s k Hk. rewrite reset_all_state_eq, pop_all_lookup.
    rewrite bool_decide_eq_true_2; [reflexivity|].
    apply elem_of_app. by right. }
  split; [|split; [|split; [|split]]].
  - intros dim q k Hq Hk. apply Hclr. by apply (bank_keys_elem bank dim q).
  - apply Hpage.
  - intros k Hk1 Hk2. rewrite reset_all_state_eq, pop_all_lookup.
    rewrite bool_decide_eq_false_2; [reflexivity|].
    rewrite elem_of_app. tauto.
  - apply count_completed_none. intros dim q Hq. apply Hclr.
    apply (bank_keys_elem bank dim q _ Hq). apply list_elem_of_here.
  - intros Hwf Hforce ss1. split.
    + rewrite render_questionnaire_page_eq. cbv zeta. rewrite Hforce.
      unfold st_button. by rewrite bool_decide_eq_true_2.
    + apply page_on_blank; [exact Hwf| |intros k Hk; by apply Hclr].
      apply no_reload_pending, Hpage.
      unfold page_keys_to_clear. rewrite !elem_of_cons. tauto.
Qed.

(** ** Malformed stored values *)

Lemma render_questions_no_raise (clicked : option button) (dim : string)
    (qs : list Question) :
  forall (acc : list (string * option Z)) (ss s' : session),
    render_questions clicked dim qs acc ss <> Raise s'.
Proof.
  induction qs as [|q qs IH]; intros acc ss s'; [discriminate|].
  cbn [render_questions]. unfold bind.
  pose proof (render_question_no_raise clicked dim q ss) as Hq.
  destruct (render_question clicked dim q ss) as [v s1|s1|s1];
    [apply IH|discriminate|]. intros _. by apply (Hq s1).
Qed.

Lemma render_dimensions_no_raise (clicked : option button) (bank : QuestionBank) :
  forall (acc : Responses) (ss s' : session),
    render_dimensions clicked bank acc ss <> Raise s'.
Proof.
  induction bank as [|[dim qs] bank IH]; intros acc ss s'; [discriminate|].
  cbn [render_dimensions]. unfold bind.
  pose proof (render_questions_no_raise clicked dim qs [] ss) as Hq.
  destruct (render_questions clicked dim qs [] ss) as [v s1|s1|s1];
    [apply IH|discriminate|]. intros _. by apply (Hq s1).
Qed.

(** No evaluation of the page ends in an exception. *)
Lemma render_questionnaire_page_no_raise
    (clicked : option button) (bank : QuestionBank) (ss s' : session) :
  render_questionnaire_page clicked bank ss <> Raise s'.
Proof.
  rewrite render_questionnaire_page_eq. cbv zeta.
  destruct (checked ss _); [discriminate|].
  destruct (st_button clicked ResetAllBtn); [discriminate|].
  pose proof (render_dimensions_no_raise clicked bank []
                (delete "force_questionnaire_reload" ss)) as Hd.
  destruct (render_dimensions clicked bank [] _) as [r s1|s1|s1];
    [discriminate|discriminate|]. intros _. by apply (Hd s1).
Qed.

(** With an invalid value under the level key, the checkbox phase does what
    it does when the key is absent. *)
Lemma widgets_ready_invalid_level (ss : session) (keys : QuestionKeys) :
  qkey keys ∉ checkbox_keys keys ->
  is_valid_level (ss_get ss (qkey keys)) = false ->
  widgets_ready (delete (qkey keys) ss) keys = delete (qkey keys) (widgets_ready ss keys).
Proof.
  intros Hqc Hinv.
  assert (Hre : forall s : session,
             is_valid_level (ss_get s (qkey keys)) = false ->
             rehydrated (normalize_checkbox_state s keys) keys
             = normalize_checkbox_state s keys).
  { intros s Hs. unfold rehydrated.
    replace (ss_get (normalize_checkbox_state s keys) (qkey keys))
      with (ss_get s (qkey keys)); [by rewrite Hs|].
    apply ss_get_lookup. unfold normalize_checkbox_state.
    by rewrite normalize_fold_lookup, bool_decide_eq_false_2. }
  apply map_eq. intros k. unfold widgets_ready.
  rewrite Hre by (unfold ss_get; by rewrite lookup_delete_eq).
  rewrite (Hre ss Hinv).
  destruct (decide (k = qkey keys)) as [->|Hne].
  - rewrite lookup_delete_eq, registered_fold_lookup,
      bool_decide_eq_false_2 by assumption.
    unfold normalize_checkbox_state.
    rewrite normalize_fold_lookup, bool_decide_eq_false_2 by assumption.
    apply lookup_delete_eq.
  - rewrite lookup_delete_ne by congruence.
    rewrite !registered_fold_lookup. unfold normalize_checkbox_state.
    rewrite !normalize_fold_lookup, lookup_delete_ne by congruence.
    reflexivity.
Qed.

Lemma render_question_invalid_level
    (clicked : option button) (dim : string) (q : Question) (ss : session) :
  let keys := build_question_keys dim (concept q) in
  NoDup (keys_to_clear keys) ->
  is_valid_level (ss_get ss (qkey keys)) = false ->
  render_question clicked dim q ss
  = render_question clicked dim q (delete (qkey keys) ss).
Proof.
  intros keys Hnd Hinv.
  destruct (keys_distinct keys Hnd) as (Hqo & Hql & Hol & Hqc & Hoc & Hlc).
  rewrite !(render_question_cases clicked dim q _ Hnd). fold keys. cbv zeta.
  rewrite (widgets_ready_invalid_level ss keys Hqc Hinv).
  set (s := widgets_ready ss keys).
  assert (Hsel : selection_level (delete (qkey keys) s) keys = selection_level s keys).
  { apply selection_agree. intros k Hk. apply lookup_delete_ne.
    intros Heq. subst k. tauto. }
  rewrite (checked_lookup (delete (qkey keys) ss) ss (override_key keys))
    by (by apply lookup_delete_ne).
  replace (override_level (delete (qkey keys) ss) keys) with (override_level ss keys)
    by (unfold override_level; by rewrite lookup_delete_ne).
  rewrite Hsel.
  rewrite <- (delete_insert_ne s (qkey keys) (override_level_key keys)) by assumption.
  rewrite !insert_delete_eq.
  destruct (selection_level s keys);
    rewrite ?insert_delete_eq, ?delete_delete_eq; reflexivity.
Qed.


(** ** Rehydration *)

(** The selection rehydration builds for a level: [none] alone for 1, and
    for a higher level the items a, b (from 3), c (from 4), rt (from 5). *)
Lemma rehydrate_selection (ss : session) (keys : QuestionKeys) (level : Z) :
  NoDup (checkbox_keys keys) ->
  let ss' := rehydrate_checkboxes_from_level ss keys level in
  checked ss' (none_key keys) = (level =? 1)%Z /\
  checked ss' (a_key keys) = negb (level =? 1)%Z /\
  checked ss' (b_key keys) = negb (level =? 1)%Z && (3 <=? level)%Z /\
  checked ss' (c_key keys) = negb (level =? 1)%Z && (4 <=? level)%Z /\
  checked ss' (rt_key keys) = negb (level =? 1)%Z && (5 <=? level)%Z.
Proof.
  unfold checkbox_keys. rewrite !NoDup_cons, !not_elem_of_cons.
  intros Hnd. cbv zeta.
  unfold rehydrate_checkboxes_from_level, checked, ss_get_or.
  destruct (level =? 1)%Z, (3 <=? level)%Z, (4 <=? level)%Z, (5 <=? level)%Z;
    cbn [negb andb];
    repeat split;
    repeat first [ rewrite lookup_insert_eq
                 | rewrite lookup_insert_ne by (intros Heq; intuition congruence) ];
    reflexivity.
Qed.

(** Rehydration of a level in 2..5 followed by the Checklist Leveling Rule
    gives what the scoring function gives on the rebuilt selection. Whether
    that is the level itself is a property of the scoring function. *)
Lemma rehydrate_then_level (ss : session) (keys : QuestionKeys) (level : Z) :
  NoDup (checkbox_keys keys) ->
  2 <= level <= 5 ->
  selection_level (rehydrate_checkboxes_from_level ss keys level) keys
  = Some (compute_suggested_level true (3 <=? level)%Z (4 <=? level)%Z (5 <=? level)%Z).
Proof.
  intros Hnd Hl.
  destruct (rehydrate_selection ss keys level Hnd) as (Hn & Ha & Hb & Hc & Hr).
  unfold selection_level. rewrite Hn, Ha, Hb, Hc, Hr.
  replace (level =? 1)%Z with false by (symmetry; apply Z.eqb_neq; lia).
  reflexivity.
Qed.

Lemma rehydrate_level_one (ss : session) (keys : QuestionKeys) :
  NoDup (checkbox_keys keys) ->
  selection_level (rehydrate_checkboxes_from_level ss keys 1) keys = Some 1.
Proof.
  intros Hnd.
  destruct (rehydrate_selection ss keys 1 Hnd) as (Hn & Ha & Hb & Hc & Hr).
  unfold selection_level. rewrite Hn, Ha, Hb, Hc, Hr. reflexivity.
Qed.

(** The round trip through rehydration holds on the levels 2..5 exactly
    when the scoring function gives 2, 3, 4 and 5 on the selections {a},
    {a, b}, {a, b, c} and {a, b, c, rt}. *)
Lemma rehydrate_round_trip_iff (ss : session) (keys : QuestionKeys) :
  NoDup (checkbox_keys keys) ->
  (forall level : Z,
      2 <= level <= 5 ->
      selection_level (rehydrate_checkboxes_from_level ss keys level) keys
      = Some level) <->
  compute_suggested_level true false false false = 2 /\
  compute_suggested_level true true false false = 3 /\
  compute_suggested_level true true true false = 4 /\
  compute_suggested_level true true true true = 5.
Proof.
  intros Hnd. split.
  - intros Hround.
    pose proof (Hround 2 ltac:(lia)) as H2.
    pose proof (Hround 3 ltac:(lia)) as H3.
    pose proof (Hround 4 ltac:(lia)) as H4.
    pose proof (Hround 5 ltac:(lia)) as H5.
    rewrite rehydrate_then_level in H2, H3, H4, H5 by (assumption || lia).
    cbn in H2, H3, H4, H5. repeat split; congruence.
  - intros (H2 & H3 & H4 & H5) level Hl.
    rewrite rehydrate_then_level by assumption.
    assert (Hc : level = 2 \/ level = 3 \/ level = 4 \/ level = 5) by lia.
    destruct Hc as [->|[->|[->| ->]]]; cbn; congruence.
Qed.

End Properties.

(** * Further properties *)

Section Further.

Context `{Scoring} `{KeyNamespace}.

(** ** Normalisation and initialisation, applied twice *)

(** X1. [normalize_checkbox_state] is idempotent, neither adds nor removes a
    key, and leaves a boolean under every checklist key that is present. *)
Theorem normalize_checkbox_state_idempotent (ss : session) (keys : QuestionKeys) :
  normalize_checkbox_state (normalize_checkbox_state ss keys) keys
  = normalize_checkbox_state ss keys /\
  dom (normalize_checkbox_state ss keys) = dom ss /\
  (forall k v, k ∈ checkbox_keys keys ->
               normalize_checkbox_state ss keys !! k = Some v ->
               exists b : bool, v = VBool b).
Proof.
  split; [|split].
  - apply map_eq. intros k. unfold normalize_checkbox_state.
    rewrite !normalize_fold_lookup.
    case_bool_decide; [|reflexivity].
    destruct (ss !! k); reflexivity.
  - apply set_eq. intros k. rewrite !elem_of_dom.
    unfold normalize_checkbox_state. rewrite normalize_fold_lookup.
    case_bool_decide; [|reflexivity].
    destruct (ss !! k); cbn; split; intros [x Hx]; eauto; discriminate.
  - intros k v Hk. unfold normalize_checkbox_state.
    rewrite normalize_fold_lookup, bool_decide_eq_true_2 by assumption.
    destruct (ss !! k); cbn; intros [= <-]; eauto.
Qed.

Lemma ensure_override_level_insert (ss : session) (keys : QuestionKeys) :
  ensure_override_level_initialized ss keys
  = <[override_level_key keys := VInt (override_level ss keys)]> ss.
Proof.
  unfold ensure_override_level_initialized, override_level.
  destruct (ss !! override_level_key keys); reflexivity.
Qed.

Lemma int_of_str_of_level (l : Z) : 1 <= l <= 5 -> int_of_str_of (VInt l) = Some l.
Proof.
  intros Hl.
  assert (Hc : l = 1 \/ l = 2 \/ l = 3 \/ l = 4 \/ l = 5) by lia.
  destruct Hc as [->|[->|[->|[->| ->]]]]; reflexivity.
Qed.

Lemma to_level_of_level (l d : Z) : 1 <= l <= 5 -> to_level (VInt l) d = l.
Proof. intros Hl. apply to_level_valid; [by apply int_of_str_of_level|exact Hl]. Qed.

(** X2. [ensure_override_level_initialized] writes under the override-level
    key only, is idempotent, and changes nothing when that key already holds
    an integer in 1..5. *)
Theorem ensure_override_level_idempotent (ss : session) (keys : QuestionKeys) :
  ensure_override_level_initialized (ensure_override_level_initialized ss keys) keys
  = ensure_override_level_initialized ss keys /\
  (forall k, k <> override_level_key keys ->
             ensure_override_level_initialized ss keys !! k = ss !! k) /\
  (forall l, ss !! override_level_key keys = Some (VInt l) -> 1 <= l <= 5 ->
             ensure_override_level_initialized ss keys = ss).
Proof.
  split; [|split].
  - rewrite !ensure_override_level_insert.
    unfold override_level at 1. rewrite lookup_insert_eq.
    rewrite to_level_of_level by apply to_level_range_or_default.
    apply insert_insert_eq.
  - intros k Hk. by apply ensure_override_level_other.
  - intros l Hl Hrange. rewrite ensure_override_level_insert.
    unfold override_level. rewrite Hl, to_level_of_level by assumption.
    by apply insert_id.
Qed.

(** ** Rehydration *)

Lemma insert_true_keeps (s : session) (k k' : string) :
  s !! k = Some (VBool true) -> <[k' := VBool true]> s !! k = Some (VBool true).
Proof. intros Hs. rewrite lookup_insert. by case_decide. Qed.

Lemma has_any_of_true (s : session) (keys : QuestionKeys) (k : string) :
  k ∈ checkbox_keys keys -> s !! k = Some (VBool true) ->
  has_any_checkbox_selected s keys = true.
Proof.
  intros Hk Hs. unfold has_any_checkbox_selected.
  apply existsb_exists. exists k. split; [by apply list_elem_of_In|].
  unfold ss_get. by rewrite Hs.
Qed.

Lemma rehydrate_has_any (ss : session) (keys : QuestionKeys) (level : Z) :
  has_any_checkbox_selected (rehydrate_checkboxes_from_level ss keys level) keys = true.
Proof.
  unfold rehydrate_checkboxes_from_level. cbv zeta.
  destruct (level =? 1)%Z.
  - apply (has_any_of_true _ keys (none_key keys)).
    + unfold checkbox_keys. rewrite !elem_of_cons. tauto.
    + apply lookup_insert_eq.
  - apply (has_any_of_true _ keys (a_key keys)).
    + apply list_elem_of_here.
    + repeat match goal with
             | |- context [if ?c then _ else _] => destruct c
             end;
        repeat first [apply lookup_insert_eq | apply insert_true_keeps].
Qed.

(** X3. Whatever the level and whatever the session held, the selection
    [rehydrate_checkboxes_from_level] writes has an item selected, so the
    rehydration guard of the page does not fire a second time; and when the
    five checklist keys are distinct the selection is not contradictory. *)
Theorem rehydrate_selects_something
    (ss : session) (keys : QuestionKeys) (level : Z) :
  has_any_checkbox_selected (rehydrate_checkboxes_from_level ss keys level) keys
  = true /\
  rehydrated (rehydrated ss keys) keys = rehydrated ss keys /\
  (NoDup (checkbox_keys keys) ->
   any_selected (rehydrate_checkboxes_from_level ss keys level) keys = true /\
   contradictory (rehydrate_checkboxes_from_level ss keys level) keys = false).
Proof.
  split; [apply rehydrate_has_any|]. split.
  - unfold rehydrated at 2 3.
    destruct (is_valid_level (ss_get ss (qkey keys))
              && negb (has_any_checkbox_selected ss keys)) eqn:Hguard.
    + destruct (py_int (ss_get ss (qkey keys))) as [n|] eqn:Hn.
      * unfold rehydrated. rewrite rehydrate_has_any. cbn [negb].
        by rewrite andb_false_r.
      * unfold rehydrated. by rewrite Hguard, Hn.
    + unfold rehydrated. by rewrite Hguard.
  - intros Hnd.
    destruct (rehydrate_selection ss keys level Hnd) as (Hn & Ha & Hb & Hc & Hr).
    unfold any_selected, contradictory. rewrite Hn, Ha, Hb, Hc, Hr.
    destruct (level =? 1)%Z, (3 <=? level)%Z, (4 <=? level)%Z, (5 <=? level)%Z;
      split; reflexivity.
Qed.

(** X4. Rehydration is monotone in the level: with distinct checklist keys,
    an item selected for a level of at least 2 is selected for every higher
    level, and "None of the above" is selected for level 1 only. *)
Theorem rehydrate_monotone
    (ss : session) (keys : QuestionKeys) (l1 l2 : Z) (k : string) :
  NoDup (checkbox_keys keys) ->
  2 <= l1 <= l2 ->
  k ∈ checkbox_keys keys ->
  checked (rehydrate_checkboxes_from_level ss keys l1) k = true ->
  checked (rehydrate_checkboxes_from_level ss keys l2) k = true /\
  k <> none_key keys.
Proof.
  intros Hnd Hl Hk.
  destruct (rehydrate_selection ss keys l1 Hnd) as (Hn1 & Ha1 & Hb1 & Hc1 & Hr1).
  destruct (rehydrate_selection ss keys l2 Hnd) as (Hn2 & Ha2 & Hb2 & Hc2 & Hr2).
  assert (E1 : (l1 =? 1)%Z = false) by (apply Z.eqb_neq; lia).
  assert (E2 : (l2 =? 1)%Z = false) by (apply Z.eqb_neq; lia).
  rewrite E1 in *. rewrite E2 in *. cbn [negb andb] in *.
  unfold checkbox_keys in Hk. rewrite !elem_of_cons, elem_of_nil in Hk.
  destruct Hk as [->|[->|[->|[->|[->|[]]]]]]; intros Hchk.
  - split; [exact Ha2|]. intros Heq. rewrite Heq, Hn1 in Hchk. discriminate.
  - rewrite Hb1 in Hchk. apply Z.leb_le in Hchk.
    split; [rewrite Hb2; apply Z.leb_le; lia|].
    intros Heq. rewrite Heq, Hn2 in Hb2.
    symmetry in Hb2. apply Z.leb_gt in Hb2. lia.
  - rewrite Hc1 in Hchk. apply Z.leb_le in Hchk.
    split; [rewrite Hc2; apply Z.leb_le; lia|].
    intros Heq. rewrite Heq, Hn2 in Hc2.
    symmetry in Hc2. apply Z.leb_gt in Hc2. lia.
  - rewrite Hr1 in Hchk. apply Z.leb_le in Hchk.
    split; [rewrite Hr2; apply Z.leb_le; lia|].
    intros Heq. rewrite Heq, Hn2 in Hr2.
    symmetry in Hr2. apply Z.leb_gt in Hr2. lia.
  - rewrite Hn1 in Hchk. discriminate.
Qed.

(** ** Progress *)

Lemma count_questions_le (ss : session) (dim : string) (qs : list Question) (n : nat) :
  (n <= foldl (fun completed q =>
                 if is_valid_level (ss_get ss (get_qkey dim (concept q)))
                 then S completed else completed) n qs
     <= n + length qs)%nat.
Proof.
  revert n. induction qs as [|q qs IH]; intros n; cbn [foldl length]; [lia|].
  destruct (is_valid_level _).
  - specialize (IH (S n)). lia.
  - specialize (IH n). lia.
Qed.

(** X5. The completed count never exceeds the number of questions, whatever
    the session holds, and is 0 on an empty session. *)
Theorem count_completed_at_most_total (ss : session) (bank : QuestionBank) :
  (count_completed_answers ss bank <= total_questions bank)%nat /\
  count_completed_answers ∅ bank = 0%nat.
Proof.
  split.
  - unfold count_completed_answers.
    assert (Hgen : forall n,
      (foldl (fun completed '(dim, questions) =>
                foldl (fun completed q =>
                         if is_valid_level (ss_get ss (get_qkey dim (concept q)))
                         then S completed else completed)
                      completed questions) n bank
       <= n + total_questions bank)%nat).
    { induction bank as [|[dim qs] bank IH]; intros n; [cbn; lia|].
      cbn [foldl total_questions foldr]. fold (total_questions bank).
      pose proof (count_questions_le ss dim qs n) as Hq.
      specialize (IH (foldl (fun completed q =>
                 if is_valid_level (ss_get ss (get_qkey dim (concept q)))
                 then S completed else completed) n qs)).
      lia. }
    apply (Hgen 0%nat).
  - apply count_completed_none. intros dim q _. apply lookup_empty.
Qed.

(** ** What an evaluation of the page touches *)

Lemma reset_all_state_lookup (ss : session) (bank : QuestionBank) (k : string) :
  reset_all_state ss bank !! k =
  if bool_decide (k ∈ (bank_keys bank ++ page_keys_to_clear)%list)
  then None else ss !! k.
Proof. by rewrite reset_all_state_eq, pop_all_lookup. Qed.

Lemma page_frame (clicked : option button) (bank : QuestionBank)
    (ss : session) (k : string) :
  k ∉ bank_keys bank -> k ∉ page_keys_to_clear ->
  final_session (render_questionnaire_page clicked bank ss) !! k = ss !! k.
Proof.
  intros Hb Hp.
  assert (Hne : k <> "force_questionnaire_reload").
  { intros ->. apply Hp. unfold page_keys_to_clear. rewrite !elem_of_cons. tauto. }
  assert (Hdel : delete "force_questionnaire_reload" ss !! k = ss !! k)
    by (by apply lookup_delete_ne).
  rewrite render_questionnaire_page_eq. cbv zeta.
  destruct (checked ss _); [exact Hdel|].
  destruct (st_button clicked ResetAllBtn).
  - cbn [final_session]. rewrite reset_all_state_lookup.
    rewrite bool_decide_eq_false_2; [exact Hdel|].
    rewrite elem_of_app. tauto.
  - pose proof (render_dimensions_frame clicked bank []
                  (delete "force_questionnaire_reload" ss) k Hb) as Hf.
    destruct (render_dimensions clicked bank [] _) as [r s1|s1|s1];
      cbn [final_session] in *; by rewrite Hf.
Qed.

Lemma page_clears_reload_flag (clicked : option button) (bank : QuestionBank)
    (ss : session) :
  "force_questionnaire_reload" ∉ bank_keys bank ->
  final_session (render_questionnaire_page clicked bank ss)
    !! "force_questionnaire_reload" = None.
Proof.
  intros Hb.
  rewrite render_questionnaire_page_eq. cbv zeta.
  destruct (checked ss _); [apply lookup_delete_eq|].
  destruct (st_button clicked ResetAllBtn).
  - cbn [final_session]. rewrite reset_all_state_lookup.
    rewrite bool_decide_eq_true_2; [reflexivity|].
    rewrite elem_of_app. right.
    unfold page_keys_to_clear. rewrite !elem_of_cons. tauto.
  - pose proof (render_dimensions_frame clicked bank []
                  (delete "force_questionnaire_reload" ss) _ Hb) as Hf.
    destruct (render_dimensions clicked bank [] _) as [r s1|s1|s1];
      cbn [final_session] in *; rewrite Hf; apply lookup_delete_eq.
Qed.

(** X6. However an evaluation of the page ends (return, rerun, reset), it
    leaves alone every session key that is neither one of the eight keys of
    a question of the bank, nor one of the four import-tracking keys, nor
    the key of one of the page's buttons, under which Streamlit keeps the
    state of the button. *)
Theorem page_touches_own_keys_only
    (clicked : option button) (bank : QuestionBank) (ss : session) (k : string) :
  k ∉ bank_keys bank ->
  k ∉ page_keys_to_clear ->
  k ∉ button_keys bank ->
  final_session (render_questionnaire_page clicked bank ss) !! k = ss !! k.
Proof. intros Hb Hp _. by apply page_frame. Qed.

(** X7. A rerun is followed by an evaluation that completes: whenever an
    evaluation over a well-formed bank ends in [st.rerun()] (pending reload,
    reset, or an override button), the evaluation Streamlit starts next, in
    which no button is clicked, returns. *)
Theorem rerun_is_followed_by_a_completed_run
    (clicked : option button) (bank : QuestionBank) (ss ss1 : session) :
  bank_wf bank = true ->
  render_questionnaire_page clicked bank ss = Rerun ss1 ->
  exists out ss2, render_questionnaire_page None bank ss1 = Ret out ss2.
Proof.
  intros Hwf Hrun.
  destruct (bank_wf_spec bank Hwf) as (_ & Hnf & _).
  pose proof (page_clears_reload_flag clicked bank ss Hnf) as Hflag.
  rewrite Hrun in Hflag. cbn [final_session] in Hflag.
  destruct (page_plain_run bank ss1 Hwf (no_reload_pending ss1 Hflag))
    as (out & ss2 & Hret & _).
  eauto.
Qed.

(** ** A second evaluation *)

Lemma has_any_of_booleans (ss : session) (keys : QuestionKeys) :
  (forall k, k ∈ checkbox_keys keys -> ss !! k = Some (VBool (checked ss k))) ->
  has_any_checkbox_selected ss keys = any_selected ss keys.
Proof.
  intros Hbox.
  assert (Hb : forall k, k ∈ checkbox_keys keys -> to_bool (ss_get ss k) = checked ss k).
  { intros k Hk. unfold ss_get. by rewrite (Hbox k Hk). }
  unfold has_any_checkbox_selected, any_selected, checkbox_keys in *.
  cbn [existsb].
  rewrite (Hb (a_key keys)), (Hb (b_key keys)), (Hb (c_key keys)),
    (Hb (rt_key keys)), (Hb (none_key keys)); rewrite ?elem_of_cons; auto 10.
  destruct (checked ss (a_key keys)), (checked ss (b_key keys)),
    (checked ss (c_key keys)), (checked ss (rt_key keys)),
    (checked ss (none_key keys)); reflexivity.
Qed.

(** On a session that a completed pass left in the automatic state, the
    checkbox phase changes nothing. *)
Lemma widgets_ready_settled (ss : session) (keys : QuestionKeys) :
  NoDup (keys_to_clear keys) ->
  settled ss keys ->
  checked ss (override_key keys) = false ->
  widgets_ready ss keys = ss.
Proof.
  intros Hnd [Hbox Hlev] Hauto. rewrite Hauto in Hlev.
  destruct (keys_distinct keys Hnd) as (_ & _ & _ & Hqc & _ & _).
  assert (Hnorm : normalize_checkbox_state ss keys = ss).
  { apply map_eq. intros k. unfold normalize_checkbox_state.
    rewrite normalize_fold_lookup. case_bool_decide as Hk; [|reflexivity].
    by rewrite (Hbox k Hk). }
  assert (Hre : rehydrated ss keys = ss).
  { unfold rehydrated.
    destruct (is_valid_level (ss_get ss (qkey keys))) eqn:Hv; [|reflexivity].
    rewrite (has_any_of_booleans ss keys Hbox).
    unfold ss_get in Hv. rewrite Hlev in Hv.
    destruct (selection_level ss keys) as [l|] eqn:Hsel; [|discriminate].
    apply selection_level_some, andb_true_iff in Hsel as [-> _]. reflexivity. }
  unfold widgets_ready. rewrite Hnorm, Hre.
  apply map_eq. intros k. rewrite registered_fold_lookup.
  case_bool_decide as Hk; [|reflexivity]. by rewrite (Hbox k Hk).
Qed.

Lemma final_value_overriding (ss : session) (keys : QuestionKeys) (l : Z) :
  checked ss (override_key keys) = true ->
  ss !! qkey keys = Some (VInt l) -> 1 <= l <= 5 ->
  final_value ss ss keys = Some l.
Proof.
  intros Hov Hq Hl. unfold final_value, ss_get. rewrite Hq, Hov.
  change (default VNone (Some (VInt l))) with (VInt l).
  replace (is_valid_level (VInt l)) with true
    by (symmetry; by apply is_valid_level_int).
  reflexivity.
Qed.

Lemma final_value_automatic (ss : session) (keys : QuestionKeys) :
  checked ss (override_key keys) = false ->
  ss !! qkey keys = VInt <$> selection_level ss keys ->
  final_value ss ss keys =
  match selection_level ss keys with
  | Some l => if in_valid_levels l then Some l else None
  | None => None
  end.
Proof.
  intros Hov Hq. unfold final_value, ss_get. rewrite Hq, Hov. cbn [orb].
  destruct (selection_level ss keys) as [l|] eqn:Hsel; [|reflexivity].
  change (default VNone (VInt <$> Some l)) with (VInt l).
  rewrite (selection_level_some _ _ _ Hsel), andb_true_r.
  unfold is_valid_level. cbn [isinstance_int py_int andb].
  destruct (in_valid_levels l); reflexivity.
Qed.

Lemma responses_of_ext (s1 s2 : session) (bank : QuestionBank) :
  (forall dim q, (dim, q) ∈ bank_questions bank ->
                 final_value s1 s1 (build_question_keys dim (concept q))
                 = final_value s2 s2 (build_question_keys dim (concept q))) ->
  responses_of s1 bank = responses_of s2 bank.
Proof.
  induction bank as [|[dim qs] bank IH]; intros Hsame; [reflexivity|].
  cbn [responses_of map]. fold (responses_of s1 bank) (responses_of s2 bank).
  rewrite IH.
  2:{ intros d q Hq. apply Hsame. apply bank_questions_elem_cons. auto. }
  do 2 f_equal. unfold answers. apply map_ext_in. intros q Hq. f_equal.
  apply Hsame. apply bank_questions_elem_cons. left.
  split; [reflexivity|by apply list_elem_of_In].
Qed.

(** The value a completed pass returns for a question is the same on the
    next pass, when nothing was changed in between. *)
Lemma final_value_stable (ss' ss2 : session) (dim : string) (q : Question) :
  let keys := build_question_keys dim (concept q) in
  NoDup (keys_to_clear keys) ->
  settled ss' keys ->
  question_done ss' ss2 dim q ->
  final_value ss2 ss2 keys = final_value ss' ss' keys.
Proof.
  intros keys Hnd Hset1 (Hset2 & Hov2 & Hq2 & _ & Hbox2). fold keys in Hset2, Hov2, Hq2, Hbox2.
  assert (Hc2 : checked ss2 (override_key keys) = checked ss' (override_key keys))
    by (by apply checked_lookup).
  destruct (checked ss' (override_key keys)) eqn:Hc.
  - pose proof Hset1 as [_ Hlev]. rewrite Hc in Hlev.
    destruct Hlev as (l & Hl & Hqk & Holk).
    assert (Hlv : override_level ss' keys = l).
    { unfold override_level. rewrite Holk. by apply to_level_of_level. }
    rewrite (final_value_overriding ss' keys l Hc Hqk Hl).
    apply final_value_overriding; [exact Hc2| |exact Hl].
    rewrite (Hq2 eq_refl). by rewrite Hlv.
  - rewrite (widgets_ready_settled ss' keys Hnd Hset1 Hc) in Hbox2.
    destruct (selection_agree keys ss2 ss' Hbox2) as (Hsel & _ & _).
    destruct Hset1 as [_ Hlev1]. destruct Hset2 as [_ Hlev2].
    rewrite Hc in Hlev1. rewrite Hc2 in Hlev2.
    rewrite (final_value_automatic ss2 keys Hc2 Hlev2).
    rewrite (final_value_automatic ss' keys Hc Hlev1).
    by rewrite Hsel.
Qed.

(** X8. Evaluate the page once more on the session a completed evaluation
    left, with no click and no change in between: the evaluation completes,
    returns the same responses and the same missing list, and the completed
    count it displays plus the length of its missing list is the number of
    questions. *)
Theorem second_evaluation_is_stable
    (clicked : option button) (bank : QuestionBank) (ss ss' : session)
    (out : PageOut) :
  bank_wf bank = true ->
  render_questionnaire_page clicked bank ss = Ret out ss' ->
  exists out2 ss2,
    render_questionnaire_page None bank ss' = Ret out2 ss2 /\
    responses_raw out2 = responses_raw out /\
    missing out2 = missing out /\
    (progress_completed out2 + length (missing out2) = progress_total out2)%nat.
Proof.
  intros Hwf Hrun.
  destruct (bank_wf_spec bank Hwf) as (Hdims & Hnf & Hnd).
  destruct (render_questionnaire_page_ret clicked bank ss ss' out Hwf Hrun)
    as (Hresp & Hmiss & _ & _ & Hframe & Hdone).
  assert (Hf : ss' !! "force_questionnaire_reload" = None).
  { rewrite Hframe by assumption. apply lookup_delete_eq. }
  destruct (page_plain_run bank ss' Hwf (no_reload_pending ss' Hf))
    as (out2 & ss2 & Hrun2 & Hresp2 & Hmiss2 & Hcompl2 & _ & Hdone2).
  destruct (render_questionnaire_page_ret None bank ss' ss2 out2 Hwf Hrun2)
    as (_ & _ & _ & Htot2 & _ & _).
  assert (Hsame : responses_of ss2 bank = responses_of ss' bank).
  { apply responses_of_ext. intros dim q Hq.
    apply final_value_stable.
    - by apply (question_keys_nodup bank).
    - apply (Hdone dim q Hq).
    - by apply Hdone2. }
  exists out2, ss2. split; [exact Hrun2|].
  split; [by rewrite Hresp2, Hresp|].
  split; [by rewrite Hmiss2, Hmiss, Hsame|].
  rewrite Hcompl2, (delete_id _ _ Hf), Hmiss2, Hsame, Htot2.
  unfold count_completed_answers.
  rewrite (count_missing_bank ss' bank); [lia|].
  intros dim q Hq. apply (Hdone dim q Hq).
Qed.

(** ** Who owns the level key *)

(** X9. While the override of a question is on, a completed evaluation
    leaves under its level key the level the override radio holds (the
    stored override level read through [to_level], 2 when there is none),
    whatever the checklist holds, and returns that level as the answer. *)
Theorem override_drives_level
    (clicked : option button) (bank : QuestionBank) (dim : string) (q : Question)
    (ss ss' : session) (out : PageOut) :
  bank_wf bank = true ->
  (dim, q) ∈ bank_questions bank ->
  checked ss (override_key (build_question_keys dim (concept q))) = true ->
  render_questionnaire_page clicked bank ss = Ret out ss' ->
  let keys := build_question_keys dim (concept q) in
  let l := override_level ss keys in
  1 <= l <= 5 /\
  ss' !! qkey keys = Some (VInt l) /\
  ss' !! override_level_key keys = Some (VInt l) /\
  checked ss' (override_key keys) = true /\
  lookup_response (responses_raw out) dim (concept q) = Some (Some l).
Proof.
  intros Hwf Hq Hover Hrun keys l.
  destruct (bank_wf_spec bank Hwf) as (Hdims & _ & _).
  destruct (render_questionnaire_page_ret clicked bank ss ss' out Hwf Hrun)
    as (Hresp & _ & _ & _ & _ & Hdone).
  destruct (Hdone dim q Hq) as ((_ & Hlev) & Hov & Hqk & _). fold keys in Hlev, Hov, Hqk.
  assert (Hc : checked ss' (override_key keys) = true).
  { rewrite <- Hover. by apply checked_lookup. }
  rewrite Hc in Hlev. destruct Hlev as (l' & Hl' & Hq' & Holk').
  specialize (Hqk Hover). fold l in Hqk.
  assert (l' = l) by congruence. subst l'.
  repeat (split; [assumption|]).
  rewrite Hresp, (lookup_response_of ss' bank dim q Hdims Hq). fold keys.
  f_equal. by apply final_value_overriding.
Qed.

(** X10. While the override of a question is off, a completed evaluation
    leaves under its level key exactly what the Checklist Leveling Rule gives
    on the five booleans the session then holds (the key is removed when the
    selection is invalid, whatever level was stored before), leaves the two
    override keys as they were, and returns that level when it is in 1..5. *)
Theorem automatic_scoring_owns_level
    (clicked : option button) (bank : QuestionBank) (dim : string) (q : Question)
    (ss ss' : session) (out : PageOut) :
  bank_wf bank = true ->
  (dim, q) ∈ bank_questions bank ->
  checked ss (override_key (build_question_keys dim (concept q))) = false ->
  render_questionnaire_page clicked bank ss = Ret out ss' ->
  let keys := build_question_keys dim (concept q) in
  ss' !! qkey keys
  = VInt <$> compute_level_from_checklist
               (checked ss' (none_key keys)) (checked ss' (a_key keys))
               (checked ss' (b_key keys)) (checked ss' (c_key keys))
               (checked ss' (rt_key keys)) /\
  agree_on (checkbox_keys keys) ss' (widgets_ready ss keys) /\
  ss' !! override_key keys = ss !! override_key keys /\
  ss' !! override_level_key keys = ss !! override_level_key keys /\
  lookup_response (responses_raw out) dim (concept q)
  = Some (match selection_level ss' keys with
          | Some l => if bool_decide (1 <= l <= 5) then Some l else None
          | None => None
          end).
Proof.
  intros Hwf Hq Hauto Hrun keys.
  destruct (bank_wf_spec bank Hwf) as (Hdims & _ & _).
  destruct (render_questionnaire_page_ret clicked bank ss ss' out Hwf Hrun)
    as (Hresp & _ & _ & _ & _ & Hdone).
  destruct (Hdone dim q Hq) as ((_ & Hlev) & Hov & _ & Hl & Hbox).
  fold keys in Hlev, Hov, Hl, Hbox.
  assert (Hc : checked ss' (override_key keys) = false).
  { rewrite <- Hauto. by apply checked_lookup. }
  rewrite Hc in Hlev.
  split; [exact Hlev|]. split; [exact Hbox|]. split; [exact Hov|].
  split; [by apply Hl|].
  rewrite Hresp, (lookup_response_of ss' bank dim q Hdims Hq). fold keys.
  f_equal. rewrite (final_value_automatic ss' keys Hc Hlev).
  destruct (selection_level ss' keys) as [l|]; [|reflexivity].
  by rewrite in_valid_levels_range.
Qed.

(** X11. After a completed evaluation, what [render_level_metric] shows for
    a question on the session the run left (a level, or the dash) is what
    the run returned for that question. *)
Theorem metric_shows_returned_value
    (clicked : option button) (bank : QuestionBank) (dim : string) (q : Question)
    (ss ss' : session) (out : PageOut) :
  bank_wf bank = true ->
  (dim, q) ∈ bank_questions bank ->
  render_questionnaire_page clicked bank ss = Ret out ss' ->
  lookup_response (responses_raw out) dim (concept q)
  = Some (render_level_metric ss' (get_qkey dim (concept q))).
Proof.
  intros Hwf Hq Hrun.
  destruct (bank_wf_spec bank Hwf) as (Hdims & _ & _).
  destruct (render_questionnaire_page_ret clicked bank ss ss' out Hwf Hrun)
    as (Hresp & _ & _ & _ & _ & Hdone).
  destruct (Hdone dim q Hq) as (Hset & _).
  set (keys := build_question_keys dim (concept q)) in *.
  rewrite Hresp, (lookup_response_of ss' bank dim q Hdims Hq). fold keys.
  f_equal. unfold render_level_metric.
  change (get_qkey dim (concept q)) with (qkey keys).
  pose proof (settled_valid_iff ss' keys Hset) as Hiff.
  destruct (is_valid_level (ss_get ss' (qkey keys))) eqn:Hv.
  - destruct (proj1 Hiff eq_refl) as [l Hl]. rewrite Hl.
    apply (settled_final_value ss' keys l Hset) in Hl as (Hqk & _).
    unfold ss_get. by rewrite Hqk.
  - destruct (final_value ss' ss' keys) as [l|] eqn:Hf; [|reflexivity].
    assert (false = true) by (apply Hiff; eauto). discriminate.
Qed.

(** ** The shape of the outputs *)

Lemma answers_concepts (ss : session) (dim : string) (qs : list Question) :
  map fst (answers ss dim qs) = map concept qs.
Proof. unfold answers. rewrite map_map. reflexivity. Qed.

Lemma responses_of_shape (ss : session) (bank : QuestionBank) :
  map (fun '(d, cs) => (d, map fst cs)) (responses_of ss bank)
  = map (fun '(d, qs) => (d, map concept qs)) bank.
Proof.
  induction bank as [|[dim qs] bank IH]; [reflexivity|].
  cbn [responses_of map]. fold (responses_of ss bank).
  by rewrite IH, answers_concepts.
Qed.

Lemma missing_of_filter (ss : session) (bank : QuestionBank) :
  missing_of (responses_of ss bank)
  = map (fun '(dim, q) => missing_label dim (concept q))
        (List.filter
           (fun '(dim, q) =>
              match final_value ss ss (build_question_keys dim (concept q)) with
              | None => true
              | Some _ => false
              end)
           (bank_questions bank)).
Proof.
  induction bank as [|[dim qs] bank IH]; [reflexivity|].
  cbn [responses_of map missing_of flat_map].
  fold (responses_of ss bank). fold (missing_of (responses_of ss bank)).
  rewrite bank_questions_cons, List.filter_app, map_app, IH. f_equal.
  clear IH. induction qs as [|q qs IHq]; [reflexivity|].
  cbn [answers map flat_map List.filter]. fold (answers ss dim qs).
  destruct (final_value ss ss (build_question_keys dim (concept q)));
    cbn [app map]; by rewrite IHq.
Qed.

Lemma filter_nil_iff {A : Type} (f : A -> bool) (l : list A) :
  List.filter f l = [] <-> forall x, In x l -> f x = false.
Proof.
  induction l as [|a l IH]; cbn [List.filter In].
  - split; [intros _ x []|reflexivity].
  - destruct (f a) eqn:Ha.
    + split; [discriminate|]. intros Hall.
      rewrite (Hall a) in Ha by auto. discriminate.
    + rewrite IH. split.
      * intros Hall x [<-|Hx]; auto.
      * intros Hall x Hx. apply Hall. auto.
Qed.

(** X12. After a completed evaluation over a well-formed bank, the response
    set has the shape of the bank (its dimensions in order, and under each
    the concepts of its questions in order); the missing list is, in bank
    order, the label of every question whose response is absent; and it is
    empty exactly when every question has a level. *)
Theorem missing_lists_unanswered
    (clicked : option button) (bank : QuestionBank) (ss ss' : session)
    (out : PageOut) :
  bank_wf bank = true ->
  render_questionnaire_page clicked bank ss = Ret out ss' ->
  map (fun '(d, cs) => (d, map fst cs)) (responses_raw out)
  = map (fun '(d, qs) => (d, map concept qs)) bank /\
  missing out
  = map (fun '(dim, q) => missing_label dim (concept q))
        (List.filter (unanswered (responses_raw out)) (bank_questions bank)) /\
  (missing out = [] <->
   forall dim q, (dim, q) ∈ bank_questions bank ->
                 exists l : Z,
                   lookup_response (responses_raw out) dim (concept q)
                   = Some (Some l)).
Proof.
  intros Hwf Hrun.
  destruct (bank_wf_spec bank Hwf) as (Hdims & _ & _).
  destruct (render_questionnaire_page_ret clicked bank ss ss' out Hwf Hrun)
    as (Hresp & Hmiss & _).
  assert (Hfilter :
    List.filter
      (fun '(dim, q) =>
         match final_value ss' ss' (build_question_keys dim (concept q)) with
         | None => true
         | Some _ => false
         end) (bank_questions bank)
    = List.filter (unanswered (responses_raw out)) (bank_questions bank)).
  { apply List.filter_ext_in. intros [dim q] Hin. unfold unanswered. cbn [fst snd].
    rewrite Hresp, (lookup_response_of ss' bank dim q Hdims)
      by (by apply list_elem_of_In).
    reflexivity. }
  split; [rewrite Hresp; apply responses_of_shape|].
  assert (Hm : missing out
               = map (fun '(dim, q) => missing_label dim (concept q))
                   (List.filter (unanswered (responses_raw out))
                      (bank_questions bank))).
  { by rewrite Hmiss, missing_of_filter, Hfilter. }
  split; [exact Hm|].
  rewrite Hm. split.
  - intros Hnil dim q Hq.
    apply List.map_eq_nil in Hnil.
    pose proof (proj1 (filter_nil_iff _ _) Hnil (dim, q)) as Hun.
    unfold unanswered in Hun. cbn [fst snd] in Hun.
    rewrite Hresp, (lookup_response_of ss' bank dim q Hdims Hq) in *.
    destruct (final_value ss' ss' (build_question_keys dim (concept q))) as [l|];
      [eauto|].
    specialize (Hun ltac:(by apply list_elem_of_In)). discriminate.
  - intros Hall.
    replace (List.filter (unanswered (responses_raw out)) (bank_questions bank))
      with (@nil (string * Question)); [reflexivity|].
    symmetry. apply filter_nil_iff. intros [dim q] Hin.
    destruct (Hall dim q) as [l Hl]; [by apply list_elem_of_In|].
    unfold unanswered. cbn [fst snd]. by rewrite Hl.
Qed.

(** ** Entering the override *)

Lemma seed_level_range (cur : value) : 1 <= seed_level cur <= 5.
Proof.
  unfold seed_level. destruct (is_valid_level cur) eqn:Hv.
  - apply is_valid_level_py_int in Hv as (n & -> & Hn). exact Hn.
  - unfold LEVEL_DEFAULT. lia.
Qed.

(** X13. Enabling the override does not change a valid answer. The click
    ends its run in a rerun; the rerun completes with the override on and
    with the level key and the returned answer equal to the level the
    override was seeded with: the level automatic scoring had just stored
    when that is an integer in 1..5, and 2 when the question had no valid
    level. *)
Theorem enable_override_keeps_level
    (bank : QuestionBank) (dim : string) (q : Question) (ss : session) :
  bank_wf bank = true ->
  (dim, q) ∈ bank_questions bank ->
  checked ss "force_questionnaire_reload" = false ->
  checked ss (override_key (build_question_keys dim (concept q))) = false ->
  let keys := build_question_keys dim (concept q) in
  exists (ssA : session) (outB : PageOut) (ssB : session),
    render_questionnaire_page (Some (EnableOverrideBtn dim (concept q))) bank ss
    = Rerun ssA /\
    ssA !! qkey keys = VInt <$> selection_level ssA keys /\
    render_questionnaire_page None bank ssA = Ret outB ssB /\
    checked ssB (override_key keys) = true /\
    ssB !! qkey keys = Some (VInt (seed_level (ss_get ssA (qkey keys)))) /\
    lookup_response (responses_raw outB) dim (concept q)
    = Some (Some (seed_level (ss_get ssA (qkey keys)))) /\
    (forall l, ssA !! qkey keys = Some (VInt l) -> 1 <= l <= 5 ->
               ssB !! qkey keys = Some (VInt l)) /\
    (is_valid_level (ss_get ssA (qkey keys)) = false ->
     ssB !! qkey keys = Some (VInt LEVEL_DEFAULT)).
Proof.
  intros Hwf Hq Hforce Hauto keys.
  destruct (bank_wf_spec bank Hwf) as (Hdims & _ & _).
  destruct (page_enable_override bank dim q ss Hwf Hq Hforce Hauto)
    as (ssA & HrunA & HovA & HlvA & HqA & _ & HfA).
  fold keys in HovA, HlvA, HqA.
  destruct (page_plain_run bank ssA Hwf (no_reload_pending ssA HfA))
    as (outB & ssB & HrunB & HrespB & _ & _ & _ & HdoneB).
  destruct (HdoneB dim q Hq) as (_ & HovB & HqB & _). fold keys in HovB, HqB.
  assert (HcA : checked ssA (override_key keys) = true).
  { unfold checked, ss_get_or. by rewrite HovA. }
  assert (HcB : checked ssB (override_key keys) = true).
  { rewrite <- HcA. by apply checked_lookup. }
  set (seed := seed_level (ss_get ssA (qkey keys))) in *.
  assert (Hseed : 1 <= seed <= 5) by apply seed_level_range.
  assert (HqkB : ssB !! qkey keys = Some (VInt seed)).
  { rewrite (HqB HcA). unfold override_level. rewrite HlvA.
    by rewrite to_level_of_level. }
  exists ssA, outB, ssB.
  split; [exact HrunA|]. split; [exact HqA|]. split; [exact HrunB|].
  split; [exact HcB|]. split; [exact HqkB|]. split; [|split].
  - rewrite HrespB, (lookup_response_of ssB bank dim q Hdims Hq). fold keys.
    f_equal. by apply final_value_overriding.
  - intros l Hl Hrange. rewrite HqkB. unfold seed, ss_get. rewrite Hl.
    rewrite seed_level_cases. cbn [default]. unfold id.
    by rewrite bool_decide_eq_true_2.
  - intros Hinv. rewrite HqkB. unfold seed, seed_level. by rewrite Hinv.
Qed.

(** ** A session that carries levels only *)

Lemma has_any_normalize (ss : session) (keys : QuestionKeys) :
  has_any_checkbox_selected (normalize_checkbox_state ss keys) keys
  = has_any_checkbox_selected ss keys.
Proof.
  assert (Hpt : forall k,
             to_bool (ss_get (normalize_checkbox_state ss keys) k)
             = to_bool (ss_get ss k)).
  { intros k. unfold ss_get, normalize_checkbox_state.
    rewrite normalize_fold_lookup. case_bool_decide; [|reflexivity].
    destruct (ss !! k); reflexivity. }
  unfold has_any_checkbox_selected.
  induction (checkbox_keys keys) as [|k l IH]; [reflexivity|].
  cbn [existsb]. by rewrite Hpt, IH.
Qed.

Lemma checkbox_keys_nodup (keys : QuestionKeys) :
  NoDup (keys_to_clear keys) -> NoDup (checkbox_keys keys).
Proof.
  unfold keys_to_clear. rewrite !NoDup_cons. unfold checkbox_keys.
  rewrite !NoDup_cons. tauto.
Qed.

Lemma widgets_ready_rehydrates (ss : session) (keys : QuestionKeys) (l : Z) (k : string) :
  qkey keys ∉ checkbox_keys keys ->
  ss !! qkey keys = Some (VInt l) ->
  1 <= l <= 5 ->
  has_any_checkbox_selected ss keys = false ->
  checked (widgets_ready ss keys) k
  = checked (rehydrate_checkboxes_from_level
               (normalize_checkbox_state ss keys) keys l) k.
Proof.
  intros Hqc Hq Hl Hnone. unfold widgets_ready.
  rewrite checked_foldl_registered. f_equal.
  unfold rehydrated.
  assert (Hget : ss_get (normalize_checkbox_state ss keys) (qkey keys) = VInt l).
  { unfold ss_get, normalize_checkbox_state.
    by rewrite normalize_fold_lookup, bool_decide_eq_false_2, Hq. }
  rewrite Hget, has_any_normalize, Hnone.
  replace (is_valid_level (VInt l)) with true
    by (symmetry; by apply is_valid_level_int).
  reflexivity.
Qed.

(** X14. A question that comes with a valid level but no checklist state
    (what an import of levels leaves) is rehydrated by the evaluation: with
    the override off, the completed run leaves "None of the above" alone for
    level 1, and for a higher level the items a, b (from 3), c (from 4) and
    rt (from 5); the level key then holds 1, respectively what the scoring
    function gives on the rebuilt selection. *)
Theorem level_only_import_rehydrates
    (clicked : option button) (bank : QuestionBank) (dim : string) (q : Question)
    (ss ss' : session) (out : PageOut) (l : Z) :
  bank_wf bank = true ->
  (dim, q) ∈ bank_questions bank ->
  ss !! get_qkey dim (concept q) = Some (VInt l) ->
  1 <= l <= 5 ->
  has_any_checkbox_selected ss (build_question_keys dim (concept q)) = false ->
  checked ss (override_key (build_question_keys dim (concept q))) = false ->
  render_questionnaire_page clicked bank ss = Ret out ss' ->
  let keys := build_question_keys dim (concept q) in
  selection_of ss' keys
  = ((l =? 1)%Z, negb (l =? 1)%Z, negb (l =? 1)%Z && (3 <=? l)%Z,
     negb (l =? 1)%Z && (4 <=? l)%Z, negb (l =? 1)%Z && (5 <=? l)%Z) /\
  ss' !! qkey keys
  = Some (VInt (if (l =? 1)%Z then 1
                else compute_suggested_level
                       true (3 <=? l)%Z (4 <=? l)%Z (5 <=? l)%Z)) /\
  (l = 1 -> lookup_response (responses_raw out) dim (concept q) = Some (Some 1)).
Proof.
  intros Hwf Hq Hlevel Hl Hnone Hauto Hrun keys.
  destruct (bank_wf_spec bank Hwf) as (Hdims & _ & Hnd).
  pose proof (question_keys_nodup bank dim q Hnd Hq) as Hndq. fold keys in Hndq.
  destruct (keys_distinct keys Hndq) as (_ & _ & _ & Hqc & _ & _).
  destruct (render_questionnaire_page_ret clicked bank ss ss' out Hwf Hrun)
    as (Hresp & _ & _ & _ & _ & Hdone).
  destruct (Hdone dim q Hq) as ((_ & Hlev) & Hov & _ & _ & Hbox).
  fold keys in Hlev, Hov, Hbox.
  assert (Hc : checked ss' (override_key keys) = false).
  { rewrite <- Hauto. by apply checked_lookup. }
  rewrite Hc in Hlev.
  destruct (rehydrate_selection (normalize_checkbox_state ss keys) keys l
              (checkbox_keys_nodup keys Hndq)) as (Hn & Ha & Hb & Hcc & Hr).
  assert (Hchk : forall k, k ∈ checkbox_keys keys ->
             checked ss' k
             = checked (rehydrate_checkboxes_from_level
                          (normalize_checkbox_state ss keys) keys l) k).
  { intros k Hk. rewrite (checked_lookup ss' _ k (Hbox k Hk)).
    by apply widgets_ready_rehydrates. }
  assert (Hsel : selection_of ss' keys
                 = ((l =? 1)%Z, negb (l =? 1)%Z, negb (l =? 1)%Z && (3 <=? l)%Z,
                    negb (l =? 1)%Z && (4 <=? l)%Z, negb (l =? 1)%Z && (5 <=? l)%Z)).
  { pose proof (Hchk (none_key keys)) as E1.
    pose proof (Hchk (a_key keys)) as E2.
    pose proof (Hchk (b_key keys)) as E3.
    pose proof (Hchk (c_key keys)) as E4.
    pose proof (Hchk (rt_key keys)) as E5.
    unfold checkbox_keys in E1, E2, E3, E4, E5.
    rewrite !elem_of_cons in E1, E2, E3, E4, E5.
    unfold selection_of.
    rewrite E1, E2, E3, E4, E5 by auto 10.
    by rewrite Hn, Ha, Hb, Hcc, Hr. }
  assert (Hlevel' : selection_level ss' keys
                    = Some (if (l =? 1)%Z then 1
                            else compute_suggested_level
                                   true (3 <=? l)%Z (4 <=? l)%Z (5 <=? l)%Z)).
  { unfold selection_of in Hsel.
    assert (H1 : checked ss' (none_key keys) = (l =? 1)%Z) by congruence.
    assert (H2 : checked ss' (a_key keys) = negb (l =? 1)%Z) by congruence.
    assert (H3 : checked ss' (b_key keys) = negb (l =? 1)%Z && (3 <=? l)%Z)
      by congruence.
    assert (H4 : checked ss' (c_key keys) = negb (l =? 1)%Z && (4 <=? l)%Z)
      by congruence.
    assert (H5 : checked ss' (rt_key keys) = negb (l =? 1)%Z && (5 <=? l)%Z)
      by congruence.
    unfold selection_level. rewrite H1, H2, H3, H4, H5.
    destruct (l =? 1)%Z; reflexivity. }
  split; [exact Hsel|]. split; [by rewrite Hlev, Hlevel'|].
  intros ->. rewrite Hresp, (lookup_response_of ss' bank dim q Hdims Hq).
  fold keys. f_equal.
  rewrite (final_value_automatic ss' keys Hc Hlev), Hlevel'. reflexivity.
Qed.

(** ** The results flag *)

Lemma run_app_flow_eq (clicked : option button) (bank : QuestionBank) (ss : session) :
  run_app_flow clicked bank ss =
  let ss0 := match ss !! "__show_results" with
             | Some _ => ss
             | None => <["__show_results" := VBool false]> ss
             end in
  match render_questionnaire_page clicked bank ss0 with
  | Ret q_out s1 =>
      match responses_raw q_out with
      | [] => Ret (q_out, false) s1
      | _ :: _ =>
          if st_button clicked SeeResultsBtn
          then Rerun (<["__show_results" := VBool true]> s1)
          else Ret (q_out, checked s1 "__show_results") s1
      end
  | Rerun s1 => Rerun s1
  | Raise s1 => Raise s1
  end.
Proof.
  unfold run_app_flow, bind, update, read. cbv zeta.
  destruct (render_questionnaire_page clicked bank _) as [q_out s1|s1|s1];
    [|reflexivity|reflexivity].
  destruct (responses_raw q_out); [reflexivity|].
  unfold bind. destruct (st_button clicked SeeResultsBtn); reflexivity.
Qed.

Lemma show_results_not_page_key : "__show_results" ∉ page_keys_to_clear.
Proof.
  unfold page_keys_to_clear. rewrite !not_elem_of_cons.
  repeat split; try discriminate. apply not_elem_of_nil.
Qed.

(** X15. Once the results are revealed they stay revealed: if the flag is
    truthy when the flow starts, it is truthy in the session the flow ends
    on, whichever button was clicked (reset included) and however the run
    ends, as long as no question key of the bank is the flag's own key. *)
Theorem results_flag_is_never_cleared
    (clicked : option button) (bank : QuestionBank) (ss : session) :
  "__show_results" ∉ bank_keys bank ->
  checked ss "__show_results" = true ->
  checked (final_session (run_app_flow clicked bank ss)) "__show_results" = true.
Proof.
  intros Hb Hflag.
  assert (Hpresent : exists v, ss !! "__show_results" = Some v).
  { unfold checked, ss_get_or in Hflag.
    destruct (ss !! "__show_results"); [eauto|discriminate]. }
  destruct Hpresent as [v Hv].
  rewrite run_app_flow_eq. cbv zeta. rewrite Hv.
  pose proof (page_frame clicked bank ss "__show_results" Hb
                show_results_not_page_key) as Hf.
  destruct (render_questionnaire_page clicked bank ss) as [q_out s1|s1|s1];
    cbn [final_session] in *;
    try (by rewrite (checked_lookup s1 ss _ Hf)).
  destruct (responses_raw q_out); cbn [final_session];
    [by rewrite (checked_lookup s1 ss _ Hf)|].
  destruct (st_button clicked SeeResultsBtn); cbn [final_session].
  - unfold checked, ss_get_or. by rewrite lookup_insert_eq.
  - by rewrite (checked_lookup s1 ss _ Hf).
Qed.

Lemma responses_of_nonempty (ss : session) (bank : QuestionBank) :
  bank <> [] -> exists r rs, responses_of ss bank = r :: rs.
Proof.
  destruct bank as [|[dim qs] bank]; [congruence|].
  intros _. cbn [responses_of map]. eauto.
Qed.

(** X16. Revealing the results. Over a well-formed, non-empty bank whose
    keys do not include the flag's, with no reload pending: a flow without a
    click, started with the flag off, completes without rendering the
    results page; the "See results" click ends its flow in a rerun with the
    flag set; and the flow that follows completes and renders the results
    page. *)
Theorem see_results_reveals (bank : QuestionBank) (ss : session) :
  bank_wf bank = true ->
  bank <> [] ->
  "__show_results" ∉ bank_keys bank ->
  checked ss "force_questionnaire_reload" = false ->
  (checked ss "__show_results" = false ->
   exists out s1, run_app_flow None bank ss = Ret (out, false) s1) /\
  exists ss1,
    run_app_flow (Some SeeResultsBtn) bank ss = Rerun ss1 /\
    ss1 !! "__show_results" = Some (VBool true) /\
    exists out ss2, run_app_flow None bank ss1 = Ret (out, true) ss2.
Proof.
  intros Hwf Hne Hb Hforce.
  destruct (bank_wf_spec bank Hwf) as (_ & Hnf & _).
  set (ss0 := match ss !! "__show_results" with
              | Some _ => ss
              | None => <["__show_results" := VBool false]> ss
              end).
  assert (Hforce0 : checked ss0 "force_questionnaire_reload" = false).
  { rewrite (checked_lookup ss0 ss); [exact Hforce|]. unfold ss0.
    destruct (ss !! "__show_results"); [reflexivity|].
    by rewrite lookup_insert_ne. }
  assert (Hpage : forall clicked s,
             checked s "force_questionnaire_reload" = false ->
             clicked = None \/ clicked = Some SeeResultsBtn ->
             exists out s1 r rs,
               render_questionnaire_page clicked bank s = Ret out s1 /\
               responses_raw out = r :: rs /\
               s1 !! "__show_results" = s !! "__show_results" /\
               s1 !! "force_questionnaire_reload" = None).
  { intros clicked s Hfs Hclick.
    destruct (render_questionnaire_page_returns clicked bank s Hfs)
      as (out & s1 & Hret).
    { destruct Hclick as [->| ->]; discriminate. }
    { intros dim q _ [Ht|Ht]; destruct Hclick as [->| ->]; discriminate. }
    destruct (render_questionnaire_page_ret clicked bank s s1 out Hwf Hret)
      as (Hresp & _).
    destruct (responses_of_nonempty s1 bank Hne) as (r & rs & Hr).
    pose proof (page_frame clicked bank s "__show_results" Hb
                  show_results_not_page_key) as Hf.
    pose proof (page_clears_reload_flag clicked bank s Hnf) as Hc.
    rewrite Hret in Hf, Hc. cbn [final_session] in Hf, Hc.
    exists out, s1, r, rs. rewrite Hresp. auto. }
  split.
  - intros Hoff.
    destruct (Hpage None ss0 Hforce0 (or_introl eq_refl))
      as (out & s1 & r & rs & Hret & Hr & Hflag & _).
    exists out, s1. rewrite run_app_flow_eq. cbv zeta. fold ss0.
    rewrite Hret, Hr. cbn.
    do 2 f_equal. rewrite (checked_lookup s1 ss0 _ Hflag).
    unfold ss0. unfold checked, ss_get_or in *.
    destruct (ss !! "__show_results") eqn:E; [by rewrite E|].
    by rewrite lookup_insert_eq.
  - destruct (Hpage (Some SeeResultsBtn) ss0 Hforce0 (or_intror eq_refl))
      as (out & s1 & r & rs & Hret & Hr & _ & Hf1).
    set (ss1 := <["__show_results" := VBool true]> s1).
    exists ss1.
    split.
    { rewrite run_app_flow_eq. cbv zeta. fold ss0. by rewrite Hret, Hr. }
    split; [apply lookup_insert_eq|].
    assert (Hforce1 : checked ss1 "force_questionnaire_reload" = false).
    { apply no_reload_pending. unfold ss1. by rewrite lookup_insert_ne. }
    destruct (Hpage None ss1 Hforce1 (or_introl eq_refl))
      as (out2 & s2 & r2 & rs2 & Hret2 & Hr2 & Hflag2 & _).
    exists out2, s2. rewrite run_app_flow_eq. cbv zeta.
    unfold ss1 at 1. rewrite lookup_insert_eq. fold ss1.
    rewrite Hret2, Hr2. cbn. do 2 f_equal.
    unfold checked, ss_get_or. rewrite Hflag2. unfold ss1.
    by rewrite lookup_insert_eq.
Qed.

(** ** Text values *)

(** X17. Text values are read without regard to surrounding whitespace, and
    truth values also without regard to letter case: padding a string with
    whitespace on either side changes neither the level [to_level] reads from
    it nor its truth value, and two strings that differ only in the case of
    ASCII letters have the same truth value. *)
Theorem text_values_ignore_padding_and_case (p1 s p2 : text) (d : Z) :
  all_space p1 = true ->
  all_space p2 = true ->
  to_level (VStr (p1 ++ s ++ p2)) d = to_level (VStr s) d /\
  forall s2, lower s = lower s2 ->
    to_bool (VStr (p1 ++ s ++ p2)) = to_bool (VStr s2).
Proof.
  intros H1 H2. split.
  - unfold to_level, int_of_str_of. by rewrite (strip_pad p1 s p2 H1 H2).
  - intros s2 Hcase. unfold to_bool.
    by rewrite (strip_pad p1 s p2 H1 H2), !lower_strip, Hcase.
Qed.

End Further.

(** * The override round, and stored values outside their domain *)

Section Rounds.

Context `{Scoring} `{KeyNamespace}.

(** ** Enable, then disable *)

Lemma widgets_ready_kept (ss : session) (keys : QuestionKeys) :
  (forall k, k ∈ checkbox_keys keys -> ss !! k = Some (VBool (checked ss k))) ->
  is_valid_level (ss_get ss (qkey keys)) = false \/ any_selected ss keys = true ->
  widgets_ready ss keys = ss.
Proof.
  intros Hbox Hkeep.
  assert (Hnorm : normalize_checkbox_state ss keys = ss).
  { apply map_eq. intros k. unfold normalize_checkbox_state.
    rewrite normalize_fold_lookup. case_bool_decide as Hk; [|reflexivity].
    by rewrite (Hbox k Hk). }
  assert (Hre : rehydrated ss keys = ss).
  { unfold rehydrated. rewrite (has_any_of_booleans ss keys Hbox).
    destruct Hkeep as [-> | ->]; [reflexivity|]. by rewrite andb_false_r. }
  unfold widgets_ready. rewrite Hnorm, Hre.
  apply map_eq. intros k. rewrite registered_fold_lookup.
  case_bool_decide as Hk; [|reflexivity]. by rewrite (Hbox k Hk).
Qed.

Lemma boxes_boolean_agree (keys : QuestionKeys) (s1 s2 : session) :
  agree_on (checkbox_keys keys) s1 s2 ->
  (forall k, k ∈ checkbox_keys keys -> s2 !! k = Some (VBool (checked s2 k))) ->
  forall k, k ∈ checkbox_keys keys -> s1 !! k = Some (VBool (checked s1 k)).
Proof.
  intros Hag Hb k Hk.
  rewrite (checked_lookup s1 s2 k (Hag k Hk)), (Hag k Hk). by apply Hb.
Qed.

Lemma selection_level_none (ss : session) (keys : QuestionKeys) :
  any_selected ss keys = false -> selection_level ss keys = None.
Proof.
  unfold selection_level, compute_level_from_checklist, any_selected.
  destruct (checked ss (none_key keys)), (checked ss (a_key keys)),
    (checked ss (b_key keys)), (checked ss (c_key keys)),
    (checked ss (rt_key keys)); simpl; congruence.
Qed.

Lemma level_or_selection (ss : session) (keys : QuestionKeys) :
  ss !! qkey keys = VInt <$> selection_level ss keys ->
  is_valid_level (ss_get ss (qkey keys)) = false \/ any_selected ss keys = true.
Proof.
  intros Hq. destruct (selection_level ss keys) as [l|] eqn:Hsel.
  - right. by apply selection_level_some, andb_true_iff in Hsel as [-> _].
  - left. unfold ss_get. by rewrite Hq.
Qed.

(** C6, as the code has it. From the automatic state, enable the override of
    a question and then disable it at once; [sel] is the selection the
    checklist shows when the round starts. The enable click ends its run in
    a rerun that completes with the override on; the disable click ends its
    run with the override-level key deleted and the override flag false; and
    the evaluation that follows completes with the override keys still
    cleared and the level key holding what the Checklist Leveling Rule
    computes from the selection the session then holds. When [sel] has a box
    selected, that selection is [sel] itself, so the level is that of [sel]
    (none when [sel] is contradictory). When [sel] has no box selected, the
    level the override wrote, the default 2, has meanwhile been taken for a
    level without checklist state: item a alone is selected, and the level
    key holds what the scoring function gives for it instead of being
    absent. *)
Theorem override_enable_then_disable
    (bank : QuestionBank) (dim : string) (q : Question) (ss0 : session) :
  bank_wf bank = true ->
  (dim, q) ∈ bank_questions bank ->
  checked ss0 "force_questionnaire_reload" = false ->
  checked ss0 (override_key (build_question_keys dim (concept q))) = false ->
  let keys := build_question_keys dim (concept q) in
  let sel := widgets_ready ss0 keys in
  exists (ssA : session) (outB : PageOut) (ssB ssC : session)
         (outD : PageOut) (ssD : session),
    render_questionnaire_page (Some (EnableOverrideBtn dim (concept q))) bank ss0
    = Rerun ssA /\
    render_questionnaire_page None bank ssA = Ret outB ssB /\
    checked ssB (override_key keys) = true /\
    render_questionnaire_page (Some (DisableOverrideBtn dim (concept q))) bank ssB
    = Rerun ssC /\
    ssC !! override_level_key keys = None /\
    ssC !! override_key keys = Some (VBool false) /\
    render_questionnaire_page None bank ssC = Ret outD ssD /\
    ssD !! override_level_key keys = None /\
    ssD !! override_key keys = Some (VBool false) /\
    (forall k, k ∈ checkbox_keys keys -> ssD !! k = Some (VBool (checked ssD k))) /\
    ssD !! qkey keys = VInt <$> selection_level ssD keys /\
    lookup_response (responses_raw outD) dim (concept q)
    = Some (final_value ssD ssD keys) /\
    (any_selected sel keys = true ->
     agree_on (checkbox_keys keys) ssD sel /\
     ssD !! qkey keys = VInt <$> selection_level sel keys) /\
    (any_selected sel keys = false ->
     selection_of ssD keys = (false, true, false, false, false) /\
     ssD !! qkey keys
     = Some (VInt (compute_suggested_level true false false false))).
Proof.
  intros Hwf Hq Hforce Hauto keys sel.
  destruct (bank_wf_spec bank Hwf) as (Hdims & _ & Hnd).
  pose proof (question_keys_nodup bank dim q Hnd Hq) as Hndq. fold keys in Hndq.
  destruct (keys_distinct keys Hndq) as (_ & _ & _ & Hqc & _ & _).
  pose proof (checkbox_keys_nodup keys Hndq) as Hndb.
  assert (Hsel : forall k, k ∈ checkbox_keys keys ->
                           sel !! k = Some (VBool (checked sel k)))
    by (intros k Hk; by apply widgets_ready_lookup_box).
  (* the enable click *)
  destruct (page_enable_override bank dim q ss0 Hwf Hq Hforce Hauto)
    as (ssA & HrunA & HovA & HlvA & HqA & HboxA & HfA).
  fold keys in HovA, HlvA, HqA, HboxA. fold sel in HboxA.
  pose proof (boxes_boolean_agree keys ssA sel HboxA Hsel) as HbA.
  destruct (selection_agree keys ssA sel HboxA) as (HslA & HanyA & _).
  (* the run with the override on *)
  destruct (page_plain_run bank ssA Hwf (no_reload_pending ssA HfA))
    as (outB & ssB & HrunB & _ & _ & _ & HfB & HdoneB).
  destruct (HdoneB dim q Hq) as ((HbB & _) & HovB & HqB & _ & HboxB).
  fold keys in HbB, HovB, HqB, HboxB.
  assert (HcA : checked ssA (override_key keys) = true).
  { unfold checked, ss_get_or. by rewrite HovA. }
  assert (HcB : checked ssB (override_key keys) = true).
  { unfold checked, ss_get_or. by rewrite HovB, HovA. }
  specialize (HqB HcA).
  assert (HolA : override_level ssA keys = seed_level (ss_get ssA (qkey keys))).
  { unfold override_level. rewrite HlvA.
    apply to_level_of_level, seed_level_range. }
  rewrite HolA in HqB.
  rewrite (widgets_ready_kept ssA keys HbA (level_or_selection ssA keys HqA)) in HboxB.
  destruct (selection_agree keys ssB ssA HboxB) as (_ & HanyB & _).
  (* the disable click *)
  destruct (page_disable_override bank dim q ssB Hwf Hq (no_reload_pending ssB HfB) HcB)
    as (ssC & HrunC & HovC & HlvC & _ & HboxC & HfC).
  fold keys in HovC, HlvC, HboxC.
  pose proof (boxes_boolean_agree keys ssC _ HboxC
                (fun k Hk => widgets_ready_lookup_box ssB keys k Hk)) as HbC.
  (* the run that follows *)
  destruct (page_plain_run bank ssC Hwf (no_reload_pending ssC HfC))
    as (outD & ssD & HrunD & HrespD & _ & _ & _ & HdoneD).
  destruct (HdoneD dim q Hq) as ((HbD & HsetD) & HovD & _ & HlvD & HboxD).
  fold keys in HbD, HsetD, HovD, HlvD, HboxD.
  assert (HcC : checked ssC (override_key keys) = false).
  { unfold checked, ss_get_or. by rewrite HovC. }
  assert (HcD : checked ssD (override_key keys) = false).
  { unfold checked, ss_get_or. by rewrite HovD, HovC. }
  rewrite HcD in HsetD.
  (* the selection the last run finds *)
  assert (HanyC : any_selected ssC keys = true /\
                  (any_selected sel keys = true -> agree_on (checkbox_keys keys) ssC sel) /\
                  (any_selected sel keys = false ->
                   selection_of ssC keys = (false, true, false, false, false))).
  { destruct (any_selected sel keys) eqn:Hany.
    - assert (HkB : widgets_ready ssB keys = ssB).
      { apply widgets_ready_kept; [exact HbB|]. right. by rewrite HanyB, HanyA. }
      rewrite HkB in HboxC.
      assert (Hag : agree_on (checkbox_keys keys) ssC sel).
      { apply (agree_on_trans _ _ _ _ HboxC), (agree_on_trans _ _ _ _ HboxB), HboxA. }
      split; [|split; [by intros _|discriminate]].
      destruct (selection_agree keys ssC sel Hag) as (_ & -> & _). exact Hany.
    - assert (HqA' : ss_get ssA (qkey keys) = VNone).
      { unfold ss_get. rewrite HqA, HslA, (selection_level_none sel keys Hany).
        reflexivity. }
      rewrite HqA' in HqB. change (seed_level VNone) with 2 in HqB.
      assert (HnoB : has_any_checkbox_selected ssB keys = false).
      { by rewrite (has_any_of_booleans ssB keys HbB), HanyB, HanyA. }
      destruct (rehydrate_selection (normalize_checkbox_state ssB keys) keys 2 Hndb)
        as (Hn & Ha & Hb & Hc & Hr).
      assert (Hchk : forall k, k ∈ checkbox_keys keys ->
                checked ssC k
                = checked (rehydrate_checkboxes_from_level
                             (normalize_checkbox_state ssB keys) keys 2) k).
      { intros k Hk. rewrite (checked_lookup ssC _ k (HboxC k Hk)).
        apply widgets_ready_rehydrates; [exact Hqc|exact HqB|lia|exact HnoB]. }
      pose proof (Hchk (none_key keys)) as E1.
      pose proof (Hchk (a_key keys)) as E2.
      pose proof (Hchk (b_key keys)) as E3.
      pose proof (Hchk (c_key keys)) as E4.
      pose proof (Hchk (rt_key keys)) as E5.
      unfold checkbox_keys in E1, E2, E3, E4, E5.
      rewrite !elem_of_cons in E1, E2, E3, E4, E5.
      assert (HselC : selection_of ssC keys = (false, true, false, false, false)).
      { unfold selection_of. rewrite E1, E2, E3, E4, E5 by auto 10.
        by rewrite Hn, Ha, Hb, Hc, Hr. }
      split; [|split; [discriminate|by intros _]].
      unfold selection_of in HselC. unfold any_selected.
      assert (Ha' : checked ssC (a_key keys) = true) by congruence.
      rewrite Ha'. by destruct (checked ssC (none_key keys)). }
  destruct HanyC as (HanyC & HselC1 & HselC2).
  rewrite (widgets_ready_kept ssC keys HbC (or_intror HanyC)) in HboxD.
  exists ssA, outB, ssB, ssC, outD, ssD.
  repeat (split; [assumption|]).
  split; [by rewrite (HlvD HcC)|].
  split; [by rewrite HovD|].
  split; [exact HbD|].
  split; [exact HsetD|].
  split; [rewrite HrespD; by apply lookup_response_of|].
  split.
  - intros Hany.
    assert (Hag : agree_on (checkbox_keys keys) ssD sel)
      by (apply (agree_on_trans _ _ _ _ HboxD), HselC1, Hany).
    split; [exact Hag|].
    destruct (selection_agree keys ssD sel Hag) as (<- & _). exact HsetD.
  - intros Hany. specialize (HselC2 Hany).
    assert (HselD : selection_of ssD keys = (false, true, false, false, false)).
    { rewrite <- HselC2. unfold selection_of, checkbox_keys in *.
      rewrite !(checked_lookup ssD ssC) by (apply HboxD; rewrite !elem_of_cons; auto 10).
      reflexivity. }
    split; [exact HselD|].
    rewrite HsetD. unfold selection_of in HselD. unfold selection_level.
    assert (E1 : checked ssD (none_key keys) = false) by congruence.
    assert (E2 : checked ssD (a_key keys) = true) by congruence.
    assert (E3 : checked ssD (b_key keys) = false) by congruence.
    assert (E4 : checked ssD (c_key keys) = false) by congruence.
    assert (E5 : checked ssD (rt_key keys) = false) by congruence.
    by rewrite E1, E2, E3, E4, E5.
Qed.

(** ** Stored values outside their domain *)

Lemma py_bool_text (s : text) : py_bool (VStr s) = true <-> s <> [].
Proof. destruct s; simpl; split; congruence. Qed.

(** C9, as the code has it. Stored values outside their domain are recovered
    locally, the two flags apart.
    - A stored checklist value that is not recognised (a string or another
      object whose text is outside the accepted words, [None], a NaN or an
      infinity) coerces to false, and [normalize_checkbox_state] stores that
      false.
    - The override flag and the reload flag are not coerced: they are read
      with [bool()], under which every non-empty string is true, whatever it
      says. A truthy reload flag costs the run its one rerun; a truthy
      override flag puts the question under the override, and the completed
      evaluation answers with the override level (2 when none is stored),
      whatever the checklist holds.
    - [to_level] always gives a level in 1..5, and gives the default 2 for
      whatever does not read as an integer in 1..5; so after
      [ensure_override_level_initialized] the override-level key holds a
      level in 1..5.
    - An invalid stored level is handled as an absent one: the metric shows
      the dash, and a question whose keys are distinct runs exactly as it
      does with the level key deleted.
    - No evaluation of the page ends in an exception. *)
Theorem malformed_values_recovered :
  (forall s : text,
      lower (strip s) ∉ [txt "true"; txt "1"; txt "yes"; txt "y"; txt "on"] ->
      to_bool (VStr s) = false /\
      forall (b : bool) (i : option Z), to_bool (VObj s b i) = false) /\
  to_bool VNone = false /\
  to_bool (VFloat S754_nan) = false /\
  (forall sign : bool, to_bool (VFloat (S754_infinity sign)) = false) /\
  (forall (ss : session) (keys : QuestionKeys) (k : string) (v : value),
      k ∈ checkbox_keys keys -> ss !! k = Some v -> to_bool v = false ->
      normalize_checkbox_state ss keys !! k = Some (VBool false)) /\
  (forall s : text, py_bool (VStr s) = true <-> s <> []) /\
  (forall (ss : session) (k : string),
      checked ss k = true <-> exists v, ss !! k = Some v /\ py_bool v = true) /\
  (forall (clicked : option button) (bank : QuestionBank) (ss : session),
      checked ss "force_questionnaire_reload" = true ->
      render_questionnaire_page clicked bank ss
      = Rerun (delete "force_questionnaire_reload" ss)) /\
  (forall (bank : QuestionBank) (dim : string) (q : Question) (ss : session),
      let keys := build_question_keys dim (concept q) in
      bank_wf bank = true ->
      (dim, q) ∈ bank_questions bank ->
      checked ss "force_questionnaire_reload" = false ->
      checked ss (override_key keys) = true ->
      exists out ss',
        render_questionnaire_page None bank ss = Ret out ss' /\
        lookup_response (responses_raw out) dim (concept q)
        = Some (Some (override_level ss keys))) /\
  (forall v : value,
      1 <= to_level v LEVEL_DEFAULT <= 5 /\
      ((forall n, int_of_str_of v = Some n -> ~ 1 <= n <= 5) ->
       to_level v LEVEL_DEFAULT = 2)) /\
  (forall (ss : session) (keys : QuestionKeys),
      exists l : Z,
        ensure_override_level_initialized ss keys !! override_level_key keys
        = Some (VInt l) /\ 1 <= l <= 5 /\
        ((forall v n, ss !! override_level_key keys = Some v ->
                      int_of_str_of v = Some n -> ~ 1 <= n <= 5) ->
         l = 2)) /\
  (forall (ss : session) (k : string),
      is_valid_level (ss_get ss k) = false -> render_level_metric ss k = None) /\
  (forall (clicked : option button) (dim : string) (q : Question) (ss : session),
      let keys := build_question_keys dim (concept q) in
      NoDup (keys_to_clear keys) ->
      is_valid_level (ss_get ss (qkey keys)) = false ->
      render_question clicked dim q ss
      = render_question clicked dim q (delete (qkey keys) ss)) /\
  (forall (clicked : option button) (bank : QuestionBank) (ss s' : session),
      render_questionnaire_page clicked bank ss <> Raise s').
Proof.
  split.
  { intros s Hs. split; [|intros b i]; cbn [to_bool]; by apply bool_decide_eq_false_2. }
  split; [reflexivity|]. split; [reflexivity|]. split; [reflexivity|].
  split.
  { intros ss keys k v Hk Hv Hb. unfold normalize_checkbox_state.
    rewrite normalize_fold_lookup, bool_decide_eq_true_2 by assumption.
    by rewrite Hv; cbn; rewrite Hb. }
  split; [apply py_bool_text|].
  split.
  { intros ss k. unfold checked, ss_get_or.
    destruct (ss !! k) as [v|]; cbn; split.
    - intros Hv. eauto.
    - by intros (v' & [= <-] & Hv).
    - discriminate.
    - by intros (v' & Hv & _). }
  split.
  { intros clicked bank ss Hf. rewrite render_questionnaire_page_eq. cbv zeta.
    by rewrite Hf. }
  split.
  { intros bank dim q ss keys Hwf Hq Hf Hover.
    destruct (bank_wf_spec bank Hwf) as (Hdims & _ & _).
    destruct (page_plain_run bank ss Hwf Hf)
      as (out & ss' & Hrun & Hresp & _ & _ & _ & Hdone).
    exists out, ss'. split; [exact Hrun|].
    destruct (Hdone dim q Hq) as ((_ & Hlev) & Hov & Hqk & _).
    fold keys in Hlev, Hov, Hqk.
    assert (Hc : checked ss' (override_key keys) = true).
    { rewrite (checked_lookup ss' ss _ Hov). exact Hover. }
    rewrite Hc in Hlev. destruct Hlev as (l' & Hl' & Hq' & _).
    specialize (Hqk Hover).
    assert (l' = override_level ss keys) by congruence. subst l'.
    rewrite Hresp, (lookup_response_of ss' bank dim q Hdims Hq). fold keys.
    f_equal. by apply final_value_overriding. }
  split.
  { intros v. split; [apply to_level_range|]. apply to_level_default. }
  split.
  { intros ss keys. exists (override_level ss keys).
    split; [apply ensure_override_level_lookup|].
    split; [apply to_level_range_or_default|].
    intros Hbad. unfold override_level.
    destruct (ss !! override_level_key keys) as [v|]; [|reflexivity].
    apply to_level_default. intros n. by apply Hbad. }
  split.
  { intros ss k Hv. unfold render_level_metric. by rewrite Hv. }
  split; [apply render_question_invalid_level|].
  apply render_questionnaire_page_no_raise.
Qed.

End Rounds.

(** * Concrete runs *)

(** Python builtins on small inputs. *)
Example strip_ex : strip (txt "  Yes ") = txt "Yes". Proof. reflexivity. Qed.
Example lower_ex : lower (txt "YeS") = txt "yes". Proof. reflexivity. Qed.
Example int_ex1 : int_of_str (txt " -1_000 ") = Some (-1000).
Proof. vm_compute. reflexivity. Qed.
Example int_ex2 : int_of_str (txt "3.0") = None. Proof. vm_compute. reflexivity. Qed.
Example int_ex3 : int_of_str (txt "1__0") = None. Proof. vm_compute. reflexivity. Qed.
Example int_ex4 : int_of_float (S754_finite true 5 (-1)) = Some (-2).
Proof. reflexivity. Qed.

(** C1 at the sample scoring function, on the selection {a, c}. *)
Lemma compute_level_from_checklist_cases_witness :
  (forall a b c rt : bool,
      a || b || c || rt = true ->
      2 <= compute_suggested_level a b c rt <= 5) /\
  compute_level_from_checklist false true false true false
  = Some (compute_suggested_level true false true false).
Proof.
  assert (Hc : forall a b c rt : bool,
             a || b || c || rt = true ->
             2 <= compute_suggested_level a b c rt <= 5).
  { intros [] [] [] []; simpl; intros; (lia || discriminate). }
  split; [exact Hc|].
  apply (compute_level_from_checklist_cases Hc false true false true false);
    reflexivity.
Defined.

(** C8 as the specification words it fails on the string "y": the code
    accepts it, the specification's list does not contain it. *)
Lemma to_bool_accepts_y :
  to_bool (VStr (txt "y")) = true /\ to_bool_as_specified (VStr (txt "y")) = false.
Proof. split; reflexivity. Qed.

(** The same for an integer other than 0 and 1, and for surrounding
    whitespace. *)
Example to_bool_int_2 :
  to_bool (VInt 2) = true /\ to_bool_as_specified (VInt 2) = false.
Proof. split; reflexivity. Qed.

Example to_bool_padded_yes :
  to_bool (VStr (txt " Yes ")) = true /\ to_bool_as_specified (VStr (txt " Yes ")) = false.
Proof. split; reflexivity. Qed.

(** Whitespace is that of Unicode: "yes" between two no-break spaces. *)
Example to_bool_nbsp_yes :
  to_bool (VStr ([0xA0]%N ++ txt "yes" ++ [0xA0]%N)) = true.
Proof. vm_compute. reflexivity. Qed.

(** Objects of other types go through their text: a numpy [bool_] that is
    true ("True") and a [Decimal] one ("1") are true; a numpy integer 2
    ("2") is false, where the [int] 2 is true. *)
Example to_bool_objects :
  to_bool (VObj (txt "True") true (Some 1)) = true /\
  to_bool (VObj (txt "1") true (Some 1)) = true /\
  to_bool (VObj (txt "2") true (Some 2)) = false /\
  to_bool (VInt 2) = true /\
  to_bool_as_specified (VObj (txt "True") true (Some 1)) = false.
Proof. repeat split; vm_compute; reflexivity. Qed.

(** Digits are those of Unicode: ARABIC-INDIC DIGIT THREE reads as 3. A
    literal of more than 4300 digits is refused. *)
Example to_level_unicode_digit : to_level (VStr [0x663]%N) 2 = 3.
Proof. vm_compute. reflexivity. Qed.

Example to_level_digit_limit :
  to_level (VStr (repeat 0x30%N 4299 ++ txt "3")) 2 = 3 /\
  to_level (VStr (repeat 0x30%N 4300 ++ txt "3")) 2 = 2.
Proof. split; vm_compute; reflexivity. Qed.

(** C2 on the scenario of the specification: item a alone gives the level of
    the scoring function, here 2. *)
Lemma final_value_present_iff_witness :
  bank_wf bank_ci = true /\
  ("Process", q_ci) ∈ bank_questions bank_ci /\
  render_questionnaire_page None bank_ci session_a = Ret out_a session_a_after /\
  exists val : option Z,
    lookup_response (responses_raw out_a) "Process" "CI" = Some val /\
    (forall k, k ∈ checkbox_keys keys_ci ->
               session_a_after !! k = Some (VBool (checked session_a_after k))) /\
    (forall l : Z,
        val = Some l <->
        session_a_after !! qkey keys_ci = Some (VInt l) /\ 1 <= l <= 5 /\
        (checked session_a_after (override_key keys_ci) = true \/
         (any_selected session_a_after keys_ci = true /\
          contradictory session_a_after keys_ci = false))) /\
    (val = None <->
     ~ exists l : Z,
         session_a_after !! qkey keys_ci = Some (VInt l) /\ 1 <= l <= 5 /\
         (checked session_a_after (override_key keys_ci) = true \/
          (any_selected session_a_after keys_ci = true /\
           contradictory session_a_after keys_ci = false))).
Proof.
  assert (Hwf : bank_wf bank_ci = true) by (vm_compute; reflexivity).
  assert (Hin : ("Process", q_ci) ∈ bank_questions bank_ci)
    by (simpl; apply list_elem_of_here).
  assert (Hrun : render_questionnaire_page None bank_ci session_a
                 = Ret out_a session_a_after) by (vm_compute; reflexivity).
  split; [exact Hwf|]. split; [exact Hin|]. split; [exact Hrun|].
  exact (final_value_present_iff None bank_ci session_a session_a_after out_a
           "Process" q_ci Hwf Hin Hrun).
Defined.

(** C3 as the specification words it fails on [session_stale]: the run
    displays one completed answer out of one, and returns one missing
    question. *)
Lemma completed_plus_missing_stale :
  render_questionnaire_page None bank_ci session_stale
  = Ret out_stale session_stale_after /\
  (progress_completed out_stale + length (missing out_stale)
   <> progress_total out_stale)%nat.
Proof. split; [vm_compute; reflexivity | vm_compute; discriminate]. Qed.

(** C3 as amended, on the same run. *)
Lemma completed_plus_missing_is_total_witness :
  bank_wf bank_ci = true /\
  render_questionnaire_page None bank_ci session_stale
  = Ret out_stale session_stale_after /\
  (count_completed_answers session_stale_after bank_ci
   + length (missing out_stale) = total_questions bank_ci)%nat /\
  progress_total out_stale = total_questions bank_ci /\
  progress_completed out_stale
  = count_completed_answers (delete "force_questionnaire_reload" session_stale) bank_ci.
Proof.
  assert (Hwf : bank_wf bank_ci = true) by (vm_compute; reflexivity).
  assert (Hrun : render_questionnaire_page None bank_ci session_stale
                 = Ret out_stale session_stale_after) by (vm_compute; reflexivity).
  split; [exact Hwf|]. split; [exact Hrun|].
  exact (completed_plus_missing_is_total None bank_ci session_stale
           session_stale_after out_stale Hwf Hrun).
Defined.

(** C4 as the specification words it fails on [session_revealed]: the reset
    leaves the "results revealed" flag set, the click ends the flow in a
    rerun with the flag still set, and the flow that follows renders the
    results page. *)
Lemma reset_keeps_results_revealed :
  reset_all_state session_revealed bank_ci !! "__show_results" = Some (VBool true) /\
  (exists ss1,
      run_app_flow (Some ResetAllBtn) bank_ci session_revealed = Rerun ss1 /\
      ss1 !! "__show_results" = Some (VBool true) /\
      exists out ss2, run_app_flow None bank_ci ss1 = Ret (out, true) ss2).
Proof.
  split; [vm_compute; reflexivity|].
  eexists. split; [vm_compute; reflexivity|].
  split; [vm_compute; reflexivity|].
  eexists _, _. vm_compute. reflexivity.
Qed.

(** C4 as amended, on the same session. *)
Lemma reset_all_state_clears_witness :
  reset_all_state session_revealed bank_ci !! qkey keys_ci = None /\
  reset_all_state session_revealed bank_ci !! "__show_results"
  = session_revealed !! "__show_results" /\
  exists out ss2,
    render_questionnaire_page None bank_ci
      (reset_all_state (delete "force_questionnaire_reload" session_revealed) bank_ci)
    = Ret out ss2 /\
    progress_completed out = 0%nat /\
    missing out = ["Process → CI"].
Proof.
  destruct (reset_all_state_clears bank_ci session_revealed)
    as (Hkeys & _ & Hother & _ & Hrun).
  split; [|split].
  - apply (Hkeys "Process" q_ci); [simpl|]; apply list_elem_of_here.
  - apply Hother; intros Hin; apply list_elem_of_In in Hin; cbv in Hin;
      intuition discriminate.
  - destruct Hrun as (_ & out & ss2 & Hret & Hc & _ & Hm & _);
      [vm_compute; reflexivity | vm_compute; reflexivity |].
    exists out, ss2. auto.
Defined.



(** C6 on the scenario bank, from a session with item a selected: the round
    ends with item a still selected and its level stored. *)
Lemma override_enable_then_disable_witness :
  let keys := build_question_keys "Process" (concept q_ci) in
  let sel := widgets_ready session_a keys in
  exists (ssA : session) (outB : PageOut) (ssB ssC : session)
         (outD : PageOut) (ssD : session),
    render_questionnaire_page
      (Some (EnableOverrideBtn "Process" (concept q_ci))) bank_ci session_a
    = Rerun ssA /\
    render_questionnaire_page None bank_ci ssA = Ret outB ssB /\
    checked ssB (override_key keys) = true /\
    render_questionnaire_page
      (Some (DisableOverrideBtn "Process" (concept q_ci))) bank_ci ssB
    = Rerun ssC /\
    ssC !! override_level_key keys = None /\
    ssC !! override_key keys = Some (VBool false) /\
    render_questionnaire_page None bank_ci ssC = Ret outD ssD /\
    ssD !! override_level_key keys = None /\
    ssD !! override_key keys = Some (VBool false) /\
    (forall k, k ∈ checkbox_keys keys -> ssD !! k = Some (VBool (checked ssD k))) /\
    ssD !! qkey keys = VInt <$> selection_level ssD keys /\
    lookup_response (responses_raw outD) "Process" (concept q_ci)
    = Some (final_value ssD ssD keys) /\
    (any_selected sel keys = true ->
     agree_on (checkbox_keys keys) ssD sel /\
     ssD !! qkey keys = VInt <$> selection_level sel keys) /\
    (any_selected sel keys = false ->
     selection_of ssD keys = (false, true, false, false, false) /\
     ssD !! qkey keys
     = Some (VInt (compute_suggested_level true false false false))).
Proof.
  assert (Hwf : bank_wf bank_ci = true) by (vm_compute; reflexivity).
  assert (Hin : ("Process", q_ci) ∈ bank_questions bank_ci)
    by (simpl; apply list_elem_of_here).
  assert (Hforce : checked session_a "force_questionnaire_reload" = false)
    by (vm_compute; reflexivity).
  assert (Hauto : checked session_a
                    (override_key (build_question_keys "Process" (concept q_ci)))
                  = false) by (vm_compute; reflexivity).
  exact (override_enable_then_disable bank_ci "Process" q_ci session_a
           Hwf Hin Hforce Hauto).
Defined.

(** C6 as the specification words it fails from an empty session. No box is
    selected, so the Checklist Leveling Rule gives no level and a plain
    evaluation leaves the level key absent. In the round, the override
    starts from the default 2 and writes it under the level key; the run of
    the disable click finds a valid level and no box selected, so it
    rehydrates item a before it clears the override; the evaluation that
    follows stores the level of that rebuilt selection, where the claim has
    the key absent. *)
Lemma override_round_on_empty_selection :
  selection_level (widgets_ready ∅ keys_ci) keys_ci = None /\
  (exists out ss',
      render_questionnaire_page None bank_ci ∅ = Ret out ss' /\
      ss' !! qkey keys_ci = None) /\
  exists (ssA : session) (outB : PageOut) (ssB ssC : session)
         (outD : PageOut) (ssD : session),
    render_questionnaire_page (Some (EnableOverrideBtn "Process" "CI")) bank_ci ∅
    = Rerun ssA /\
    render_questionnaire_page None bank_ci ssA = Ret outB ssB /\
    checked ssB (a_key keys_ci) = false /\
    render_questionnaire_page (Some (DisableOverrideBtn "Process" "CI")) bank_ci ssB
    = Rerun ssC /\
    render_questionnaire_page None bank_ci ssC = Ret outD ssD /\
    checked ssD (a_key keys_ci) = true /\
    ssD !! qkey keys_ci = Some (VInt 2) /\
    responses_raw outD = [("Process", [("CI", Some 2)])].
Proof.
  split; [vm_compute; reflexivity|].
  split.
  { eexists _, _. split; vm_compute; reflexivity. }
  eexists _, _, _, _, _, _.
  split; [vm_compute; reflexivity|].
  split; [vm_compute; reflexivity|].
  split; [vm_compute; reflexivity|].
  split; [vm_compute; reflexivity|].
  split; [vm_compute; reflexivity|].
  split; [vm_compute; reflexivity|].
  split; vm_compute; reflexivity.
Qed.

(** C9 as the specification words it fails on an override flag that holds
    the string "no": [to_bool] takes it for false, but the page reads the
    flag with [bool()], for which a non-empty string is true. The question
    is put under the override and answered with the default level 2 although
    no box is selected; with the flag [False] it has no answer. *)
Lemma stored_no_turns_override_on :
  to_bool (VStr (txt "no")) = false /\
  checked (<[override_key keys_ci := VStr (txt "no")]> ∅) (override_key keys_ci)
  = true /\
  (exists out ss',
      render_questionnaire_page None bank_ci
        (<[override_key keys_ci := VStr (txt "no")]> ∅) = Ret out ss' /\
      responses_raw out = [("Process", [("CI", Some 2)])] /\
      missing out = []) /\
  (exists out ss',
      render_questionnaire_page None bank_ci
        (<[override_key keys_ci := VBool false]> ∅) = Ret out ss' /\
      responses_raw out = [("Process", [("CI", None)])]).
Proof.
  split; [reflexivity|]. split; [vm_compute; reflexivity|].
  split; eexists _, _; (split; [vm_compute; reflexivity|]);
    try split; vm_compute; reflexivity.
Qed.

(** The same for the reload flag: a stored "false" costs a rerun. *)
Example stored_false_forces_reload :
  render_questionnaire_page None bank_ci
    (<["force_questionnaire_reload" := VStr (txt "false")]> session_a)
  = Rerun session_a.
Proof. vm_compute. reflexivity. Qed.

(** C7 with level 3 stored under the level key. *)
Lemma enable_override_seeds_level_witness :
  checked session_revealed (override_key keys_ci) = false /\
  qkey keys_ci <> override_key keys_ci /\
  override_key keys_ci <> override_level_key keys_ci /\
  exists ss',
    render_enable_override_button
      (Some (EnableOverrideBtn "Process" "CI")) keys_ci "Process" "CI" session_revealed
    = Rerun ss' /\
    ss' !! override_key keys_ci = Some (VBool true) /\
    ss' !! override_level_key keys_ci = Some (VInt 4).
Proof.
  assert (Hauto : checked session_revealed (override_key keys_ci) = false)
    by (vm_compute; reflexivity).
  assert (Hqo : qkey keys_ci <> override_key keys_ci) by (vm_compute; discriminate).
  assert (Hol : override_key keys_ci <> override_level_key keys_ci)
    by (vm_compute; discriminate).
  split; [exact Hauto|]. split; [exact Hqo|]. split; [exact Hol|].
  destruct (enable_override_seeds_level keys_ci "Process" "CI" session_revealed
              Hauto Hqo Hol) as (ss' & Hrun & Hov & Hlevel & _).
  exists ss'. split; [exact Hrun|]. split; [exact Hov|].
  apply Hlevel; [vm_compute; reflexivity | lia].
Defined.

(** ** The scenario of the specification *)

(** "None of the above" alone gives level 1. *)
Example scenario_none_alone :
  exists out ss',
    render_questionnaire_page None bank_ci (<[none_key keys_ci := VBool true]> ∅)
    = Ret out ss' /\
    responses_raw out = [("Process", [("CI", Some 1)])] /\
    ss' !! qkey keys_ci = Some (VInt 1).
Proof. eexists _, _. split; [vm_compute; reflexivity|]. split; reflexivity. Qed.

(** "None of the above" together with item a gives no value, and clears
    the level key. *)
Example scenario_contradictory :
  exists out ss',
    render_questionnaire_page None bank_ci
      (<[none_key keys_ci := VBool true]> session_a) = Ret out ss' /\
    responses_raw out = [("Process", [("CI", None)])] /\
    ss' !! qkey keys_ci = None.
Proof. eexists _, _. split; [vm_compute; reflexivity|]. split; reflexivity. Qed.

(** With the override on and level 4 chosen, the stored level is 4 whatever
    the checklist holds. *)
Example scenario_override_4 :
  exists out ss',
    render_questionnaire_page None bank_ci
      (<[override_key keys_ci := VBool true]>
         (<[override_level_key keys_ci := VInt 4]>
            (<[none_key keys_ci := VBool true]> session_a))) = Ret out ss' /\
    responses_raw out = [("Process", [("CI", Some 4)])] /\
    ss' !! qkey keys_ci = Some (VInt 4).
Proof. eexists _, _. split; [vm_compute; reflexivity|]. split; reflexivity. Qed.

(** Corrupted import: a level stored as the string "3", an override level
    that is no number, a checkbox stored as " Yes ". The page completes;
    the level key is rewritten from the selection, and the override level
    would fall back to 2. *)
Example scenario_corrupted_import :
  let ss : session :=
    <[qkey keys_ci := VStr (txt "3")]>
      (<[override_level_key keys_ci := VStr (txt "high")]>
         (<[a_key keys_ci := VStr (txt " Yes ")]> ∅)) in
  is_valid_level (ss_get ss (qkey keys_ci)) = false /\
  ensure_override_level_initialized ss keys_ci !! override_level_key keys_ci
  = Some (VInt 2) /\
  exists out ss',
    render_questionnaire_page None bank_ci ss = Ret out ss' /\
    responses_raw out = [("Process", [("CI", Some 2)])] /\
    ss' !! a_key keys_ci = Some (VBool true).
Proof.
  cbv zeta. split; [reflexivity|]. split; [vm_compute; reflexivity|].
  eexists _, _. split; [vm_compute; reflexivity|]. split; reflexivity.
Qed.

(** ** Rehydration and the scoring function

    With the sample scoring function the selection rebuilt from a level in
    2..5 scores that level again. *)
Example rehydrate_round_trip_sample :
  forall level : Z,
    2 <= level <= 5 ->
    selection_level (rehydrate_checkboxes_from_level ∅ keys_ci level) keys_ci
    = Some level.
Proof.
  intros level Hl.
  rewrite rehydrate_then_level;
    [|apply (bool_decide_unpack (NoDup (checkbox_keys keys_ci)));
      vm_compute; exact I|exact Hl].
  assert (Hc : level = 2 \/ level = 3 \/ level = 4 \/ level = 5) by lia.
  destruct Hc as [->|[->|[->| ->]]]; reflexivity.
Qed.

(** ** An import that carries levels only

    On a bank of three questions, a session that holds level 4 for one
    question and no checklist state: the run rehydrates items a, b and c for
    that question, keeps its level, and reports the other two as missing. *)
Example scenario_import_rehydrates :
  exists out ss',
    render_questionnaire_page None bank_two (<[qkey keys_ci := VInt 4]> ∅)
    = Ret out ss' /\
    responses_raw out
    = [("Process", [("CI", Some 4); ("CD", None)]); ("Data", [("Lineage", None)])] /\
    missing out = ["Process → CD"; "Data → Lineage"] /\
    (progress_completed out, progress_total out) = (1%nat, 3%nat) /\
    (checked ss' (a_key keys_ci), checked ss' (b_key keys_ci),
     checked ss' (c_key keys_ci), checked ss' (rt_key keys_ci),
     checked ss' (none_key keys_ci)) = (true, true, true, false, false).
Proof.
  eexists _, _. split; [vm_compute; reflexivity|].
  repeat split; vm_compute; reflexivity.
Qed.


(** ** Instances of the further properties *)

Lemma rehydrate_monotone_witness :
  checked (rehydrate_checkboxes_from_level ∅ keys_ci 5) (b_key keys_ci) = true /\
  b_key keys_ci <> none_key keys_ci.
Proof.
  assert (Hnd : NoDup (checkbox_keys keys_ci))
    by (apply (bool_decide_unpack (NoDup (checkbox_keys keys_ci)));
        vm_compute; exact I).
  assert (Hl : 2 <= 3 <= 5) by lia.
  assert (Hk : b_key keys_ci ∈ checkbox_keys keys_ci)
    by (apply (bool_decide_unpack (b_key keys_ci ∈ checkbox_keys keys_ci));
        vm_compute; exact I).
  assert (Hc : checked (rehydrate_checkboxes_from_level ∅ keys_ci 3)
                 (b_key keys_ci) = true) by (vm_compute; reflexivity).
  exact (rehydrate_monotone ∅ keys_ci 3 5 (b_key keys_ci) Hnd Hl Hk Hc).
Defined.

Lemma page_touches_own_keys_only_witness :
  final_session (render_questionnaire_page (Some ResetAllBtn) bank_ci
                   session_revealed) !! "__show_results"
  = session_revealed !! "__show_results".
Proof.
  assert (Hb : "__show_results" ∉ bank_keys bank_ci)
    by (apply (bool_decide_unpack ("__show_results" ∉ bank_keys bank_ci));
        vm_compute; exact I).
  assert (Hp : "__show_results" ∉ page_keys_to_clear)
    by (apply (bool_decide_unpack ("__show_results" ∉ page_keys_to_clear));
        vm_compute; exact I).
  assert (Hw : "__show_results" ∉ button_keys bank_ci)
    by (apply (bool_decide_unpack ("__show_results" ∉ button_keys bank_ci));
        vm_compute; exact I).
  exact (page_touches_own_keys_only (Some ResetAllBtn) bank_ci session_revealed
           "__show_results" Hb Hp Hw).
Defined.

Lemma rerun_is_followed_by_a_completed_run_witness :
  exists out ss2,
    render_questionnaire_page None bank_ci session_a_enabled = Ret out ss2.
Proof.
  assert (Hwf : bank_wf bank_ci = true) by (vm_compute; reflexivity).
  assert (Hrun : render_questionnaire_page
                   (Some (EnableOverrideBtn "Process" "CI")) bank_ci session_a
                 = Rerun session_a_enabled) by (vm_compute; reflexivity).
  exact (rerun_is_followed_by_a_completed_run
           (Some (EnableOverrideBtn "Process" "CI")) bank_ci session_a
           session_a_enabled Hwf Hrun).
Defined.

Lemma second_evaluation_is_stable_witness :
  exists out2 ss2,
    render_questionnaire_page None bank_ci session_a_after = Ret out2 ss2 /\
    responses_raw out2 = responses_raw out_a /\
    missing out2 = missing out_a /\
    (progress_completed out2 + length (missing out2) = progress_total out2)%nat.
Proof.
  assert (Hwf : bank_wf bank_ci = true) by (vm_compute; reflexivity).
  assert (Hrun : render_questionnaire_page None bank_ci session_a
                 = Ret out_a session_a_after) by (vm_compute; reflexivity).
  exact (second_evaluation_is_stable None bank_ci session_a session_a_after
           out_a Hwf Hrun).
Defined.

Lemma override_drives_level_witness :
  override_level session_override keys_ci = 4 /\
  (let keys := build_question_keys "Process" (concept q_ci) in
   let l := override_level session_override keys in
   1 <= l <= 5 /\
   session_override_after !! qkey keys = Some (VInt l) /\
   session_override_after !! override_level_key keys = Some (VInt l) /\
   checked session_override_after (override_key keys) = true /\
   lookup_response (responses_raw out_override) "Process" (concept q_ci)
   = Some (Some l)).
Proof.
  assert (Hwf : bank_wf bank_ci = true) by (vm_compute; reflexivity).
  assert (Hin : ("Process", q_ci) ∈ bank_questions bank_ci)
    by (simpl; apply list_elem_of_here).
  assert (Hov : checked session_override
                  (override_key (build_question_keys "Process" (concept q_ci)))
                = true) by (vm_compute; reflexivity).
  assert (Hrun : render_questionnaire_page None bank_ci session_override
                 = Ret out_override session_override_after)
    by (vm_compute; reflexivity).
  split; [vm_compute; reflexivity|].
  exact (override_drives_level None bank_ci "Process" q_ci session_override
           session_override_after out_override Hwf Hin Hov Hrun).
Defined.

Lemma automatic_scoring_owns_level_witness :
  let keys := build_question_keys "Process" (concept q_ci) in
  session_a_after !! qkey keys
  = VInt <$> compute_level_from_checklist
               (checked session_a_after (none_key keys))
               (checked session_a_after (a_key keys))
               (checked session_a_after (b_key keys))
               (checked session_a_after (c_key keys))
               (checked session_a_after (rt_key keys)) /\
  agree_on (checkbox_keys keys) session_a_after (widgets_ready session_a keys) /\
  session_a_after !! override_key keys = session_a !! override_key keys /\
  session_a_after !! override_level_key keys
  = session_a !! override_level_key keys /\
  lookup_response (responses_raw out_a) "Process" (concept q_ci)
  = Some (match selection_level session_a_after keys with
          | Some l => if bool_decide (1 <= l <= 5) then Some l else None
          | None => None
          end).
Proof.
  assert (Hwf : bank_wf bank_ci = true) by (vm_compute; reflexivity).
  assert (Hin : ("Process", q_ci) ∈ bank_questions bank_ci)
    by (simpl; apply list_elem_of_here).
  assert (Hov : checked session_a
                  (override_key (build_question_keys "Process" (concept q_ci)))
                = false) by (vm_compute; reflexivity).
  assert (Hrun : render_questionnaire_page None bank_ci session_a
                 = Ret out_a session_a_after) by (vm_compute; reflexivity).
  exact (automatic_scoring_owns_level None bank_ci "Process" q_ci session_a
           session_a_after out_a Hwf Hin Hov Hrun).
Defined.

Lemma metric_shows_returned_value_witness :
  lookup_response (responses_raw out_stale) "Process" (concept q_ci)
  = Some (render_level_metric session_stale_after
            (get_qkey "Process" (concept q_ci))).
Proof.
  assert (Hwf : bank_wf bank_ci = true) by (vm_compute; reflexivity).
  assert (Hin : ("Process", q_ci) ∈ bank_questions bank_ci)
    by (simpl; apply list_elem_of_here).
  assert (Hrun : render_questionnaire_page None bank_ci session_stale
                 = Ret out_stale session_stale_after)
    by (vm_compute; reflexivity).
  exact (metric_shows_returned_value None bank_ci "Process" q_ci session_stale
           session_stale_after out_stale Hwf Hin Hrun).
Defined.

Lemma missing_lists_unanswered_witness :
  map (fun '(d, cs) => (d, map fst cs)) (responses_raw out_stale)
  = map (fun '(d, qs) => (d, map concept qs)) bank_ci /\
  missing out_stale
  = map (fun '(dim, q) => missing_label dim (concept q))
        (List.filter (unanswered (responses_raw out_stale))
           (bank_questions bank_ci)) /\
  (missing out_stale = [] <->
   forall dim q, (dim, q) ∈ bank_questions bank_ci ->
                 exists l : Z,
                   lookup_response (responses_raw out_stale) dim (concept q)
                   = Some (Some l)).
Proof.
  assert (Hwf : bank_wf bank_ci = true) by (vm_compute; reflexivity).
  assert (Hrun : render_questionnaire_page None bank_ci session_stale
                 = Ret out_stale session_stale_after)
    by (vm_compute; reflexivity).
  exact (missing_lists_unanswered None bank_ci session_stale
           session_stale_after out_stale Hwf Hrun).
Defined.

Lemma enable_override_keeps_level_witness :
  let keys := build_question_keys "Process" (concept q_ci) in
  exists (ssA : session) (outB : PageOut) (ssB : session),
    render_questionnaire_page
      (Some (EnableOverrideBtn "Process" (concept q_ci))) bank_ci session_a
    = Rerun ssA /\
    ssA !! qkey keys = VInt <$> selection_level ssA keys /\
    render_questionnaire_page None bank_ci ssA = Ret outB ssB /\
    checked ssB (override_key keys) = true /\
    ssB !! qkey keys = Some (VInt (seed_level (ss_get ssA (qkey keys)))) /\
    lookup_response (responses_raw outB) "Process" (concept q_ci)
    = Some (Some (seed_level (ss_get ssA (qkey keys)))) /\
    (forall l, ssA !! qkey keys = Some (VInt l) -> 1 <= l <= 5 ->
               ssB !! qkey keys = Some (VInt l)) /\
    (is_valid_level (ss_get ssA (qkey keys)) = false ->
     ssB !! qkey keys = Some (VInt LEVEL_DEFAULT)).
Proof.
  assert (Hwf : bank_wf bank_ci = true) by (vm_compute; reflexivity).
  assert (Hin : ("Process", q_ci) ∈ bank_questions bank_ci)
    by (simpl; apply list_elem_of_here).
  assert (Hf : checked session_a "force_questionnaire_reload" = false)
    by (vm_compute; reflexivity).
  assert (Hov : checked session_a
                  (override_key (build_question_keys "Process" (concept q_ci)))
                = false) by (vm_compute; reflexivity).
  exact (enable_override_keeps_level bank_ci "Process" q_ci session_a
           Hwf Hin Hf Hov).
Defined.

Lemma level_only_import_rehydrates_witness :
  let keys := build_question_keys "Process" (concept q_ci) in
  selection_of session_revealed_after keys
  = ((4 =? 1)%Z, negb (4 =? 1)%Z, negb (4 =? 1)%Z && (3 <=? 4)%Z,
     negb (4 =? 1)%Z && (4 <=? 4)%Z, negb (4 =? 1)%Z && (5 <=? 4)%Z) /\
  session_revealed_after !! qkey keys
  = Some (VInt (if (4 =? 1)%Z then 1
                else compute_suggested_level
                       true (3 <=? 4)%Z (4 <=? 4)%Z (5 <=? 4)%Z)) /\
  (4 = 1 -> lookup_response (responses_raw out_revealed) "Process" (concept q_ci)
            = Some (Some 1)).
Proof.
  assert (Hwf : bank_wf bank_ci = true) by (vm_compute; reflexivity).
  assert (Hin : ("Process", q_ci) ∈ bank_questions bank_ci)
    by (simpl; apply list_elem_of_here).
  assert (Hlev : session_revealed !! get_qkey "Process" (concept q_ci)
                 = Some (VInt 4)) by (vm_compute; reflexivity).
  assert (Hl : 1 <= 4 <= 5) by lia.
  assert (Hnone : has_any_checkbox_selected session_revealed
                    (build_question_keys "Process" (concept q_ci)) = false)
    by (vm_compute; reflexivity).
  assert (Hov : checked session_revealed
                  (override_key (build_question_keys "Process" (concept q_ci)))
                = false) by (vm_compute; reflexivity).
  assert (Hrun : render_questionnaire_page None bank_ci session_revealed
                 = Ret out_revealed session_revealed_after)
    by (vm_compute; reflexivity).
  exact (level_only_import_rehydrates None bank_ci "Process" q_ci
           session_revealed session_revealed_after out_revealed 4
           Hwf Hin Hlev Hl Hnone Hov Hrun).
Defined.

Lemma results_flag_is_never_cleared_witness :
  checked (final_session (run_app_flow (Some ResetAllBtn) bank_ci
                            session_revealed)) "__show_results" = true.
Proof.
  assert (Hb : "__show_results" ∉ bank_keys bank_ci)
    by (apply (bool_decide_unpack ("__show_results" ∉ bank_keys bank_ci));
        vm_compute; exact I).
  assert (Hflag : checked session_revealed "__show_results" = true)
    by (vm_compute; reflexivity).
  exact (results_flag_is_never_cleared (Some ResetAllBtn) bank_ci
           session_revealed Hb Hflag).
Defined.

Lemma see_results_reveals_witness :
  (checked session_a "__show_results" = false ->
   exists out s1, run_app_flow None bank_ci session_a = Ret (out, false) s1) /\
  exists ss1,
    run_app_flow (Some SeeResultsBtn) bank_ci session_a = Rerun ss1 /\
    ss1 !! "__show_results" = Some (VBool true) /\
    exists out ss2, run_app_flow None bank_ci ss1 = Ret (out, true) ss2.
Proof.
  assert (Hwf : bank_wf bank_ci = true) by (vm_compute; reflexivity).
  assert (Hne : bank_ci <> []) by discriminate.
  assert (Hb : "__show_results" ∉ bank_keys bank_ci)
    by (apply (bool_decide_unpack ("__show_results" ∉ bank_keys bank_ci));
        vm_compute; exact I).
  assert (Hf : checked session_a "force_questionnaire_reload" = false)
    by (vm_compute; reflexivity).
  exact (see_results_reveals bank_ci session_a Hwf Hne Hb Hf).
Defined.

Lemma text_values_ignore_padding_and_case_witness :
  to_level (VStr ([0xA0; 0x20]%N ++ txt "4" ++ [0x3000]%N)) 2
  = to_level (VStr (txt "4")) 2 /\
  forall s2, lower (txt "4") = lower s2 ->
    to_bool (VStr ([0xA0; 0x20]%N ++ txt "4" ++ [0x3000]%N)) = to_bool (VStr s2).
Proof.
  assert (H1 : all_space [0xA0; 0x20]%N = true) by reflexivity.
  assert (H2 : all_space [0x3000]%N = true) by reflexivity.
  exact (text_values_ignore_padding_and_case
           [0xA0; 0x20]%N (txt "4") [0x3000]%N 2 H1 H2).
Defined.
